(** * UnderworldBadlandsLinkage: the coupling loop of [linkage.py]

    A shallow embedding of [LinkageModel] (linkagemodel/linkage.py): the
    time-stepping loop [run_for_years], the one-time [_startup], the
    injection of tracer displacements into Badlands, the air/sediment
    reclassification of Underworld particles and the static method
    [generate_flat_dem].

    Numbers.  The Python code is duck-typed over its numbers and runs on
    IEEE-754 doubles ([time_years = 0.]).  The embedding is written once
    over an interface [Arith] of the operations the source uses, and is
    instantiated at [binary64] (the doubles Python computes with, from
    the Standard Library's executable [SpecFloat]) and at [exact]
    (rationals, the arithmetic the comments of the source reason in).

    Effects.  Python mutates [self] in place and an exception leaves the
    mutations made so far; methods are therefore state transformers
    returning an [Outcome] together with the state they leave behind.
    The [while] loop takes a bound on its number of iterations.

    Collaborators.  Underworld, Badlands, scipy's [griddata] and
    [gaussian_filter], numpy's [linspace] and the two user callbacks are
    not part of the repository; they are section variables.
    [load_badlands_dem_file] and [load_badlands_dem_array] only pass a
    file to Badlands and are not modelled. *)

From Stdlib Require Import ZArith List Bool Lia.
From Stdlib Require QArith Lqa.
From Stdlib Require Import Floats.SpecFloat.
From stdpp Require Import base list.

Set Default Proof Using "Type".
Open Scope Z_scope.

(* ================================================================= *)
(** ** Numbers *)

(** The operations [linkage.py] applies to its numbers. *)
Class Arith := {
  num : Type;
  of_int : Z -> num;
  nadd : num -> num -> num;
  nsub : num -> num -> num;
  nmul : num -> num -> num;
  ndiv : num -> num -> num;
  nltb : num -> num -> bool;
  nleb : num -> num -> bool;
  neqb : num -> num -> bool
}.

Declare Scope num_scope.
Delimit Scope num_scope with num.
Bind Scope num_scope with num.
Notation "a + b" := (nadd a b) : num_scope.
Notation "a - b" := (nsub a b) : num_scope.
Notation "a * b" := (nmul a b) : num_scope.
Notation "a / b" := (ndiv a b) : num_scope.
Notation "a <? b" := (nltb a b) : num_scope.
Notation "a <=? b" := (nleb a b) : num_scope.
Notation "a =? b" := (neqb a b) : num_scope.

(** The one law of Python's comparisons the loop relies on:
    [a < b] excludes [b <= a]. *)
Class LtExcludesGe (A : Arith) : Prop :=
  lt_excludes_ge : forall a b : num, (a <? b)%num = true -> (b <=? a)%num = false.

Section PythonBuiltins.
Context {A : Arith}.

(** Python's [min(a, b)]: the first argument unless the second is
    strictly smaller. *)
Definition pymin (a b : num) : num := if (b <? a)%num then b else a.

(** [x != x] holds of NaN only. *)
Definition isnan (x : num) : bool := negb (x =? x)%num.

(** [ndarray.min()] and [ndarray.max()]: NaN propagates; [None] stands
    for the [ValueError] numpy raises on an empty array. *)
Definition np_minimum (m y : num) : num :=
  if isnan m then m else if isnan y then y else if (y <? m)%num then y else m.
Definition np_maximum (m y : num) : num :=
  if isnan m then m else if isnan y then y else if (m <? y)%num then y else m.
Definition np_min (a : list num) : option num :=
  match a with
  | [] => None
  | x :: r => Some (fold_left np_minimum r x)
  end.
Definition np_max (a : list num) : option num :=
  match a with
  | [] => None
  | x :: r => Some (fold_left np_maximum r x)
  end.
End PythonBuiltins.

(* ----------------------------------------------------------------- *)
(** *** IEEE-754 binary64, the [float] of Python *)

Module Binary64.
Definition prec : Z := 53.
Definition emax : Z := 1024.

Definition float : Type := spec_float.

(** [float(z)] for an integer [z], rounded to nearest even. *)
Definition of_Z (z : Z) : float := binary_normalize prec emax z 0 false.

Definition nan : float := S754_nan.
End Binary64.

#[export] Instance binary64 : Arith := {|
  num := Binary64.float;
  of_int := Binary64.of_Z;
  nadd := SFadd Binary64.prec Binary64.emax;
  nsub := SFsub Binary64.prec Binary64.emax;
  nmul := SFmul Binary64.prec Binary64.emax;
  ndiv := SFdiv Binary64.prec Binary64.emax;
  nltb := SFltb;
  nleb := SFleb;
  neqb := SFeqb
|}.

(* ----------------------------------------------------------------- *)
(** *** Exact rational arithmetic *)

(** The arithmetic the design of the loop is reasoned in: no rounding. *)
Definition exact : Arith := {|
  num := QArith_base.Q;
  of_int := QArith_base.inject_Z;
  nadd := QArith_base.Qplus;
  nsub := QArith_base.Qminus;
  nmul := QArith_base.Qmult;
  ndiv := QArith_base.Qdiv;
  nltb := fun a b => negb (QArith_base.Qle_bool b a);
  nleb := QArith_base.Qle_bool;
  neqb := QArith_base.Qeq_bool
|}.
(* ================================================================= *)
(** ** Outcomes of a method call *)

(** The text of a failed [assert]. *)
Inductive Message (N : Type) :=
| MsgNone
    (* [assert not self._model_started] *)
| MsgDomain (bl_xy uw_xy : N * N * N * N)
    (* "Badlands and Underworld must operate over the same domain
       (Badlands has %s, but Underworld has %s)" *)
| MsgMaximumDt (max_seconds dt_seconds : N).
    (* "Maximum dt (seconds) for the update function was %s, but it ran
       for more than that (%s seconds)" *)
Arguments MsgNone {N}.
Arguments MsgDomain {N} bl_xy uw_xy.
Arguments MsgMaximumDt {N} max_seconds dt_seconds.

Inductive Exception (N : Type) :=
| AssertionError (msg : Message N)
| IndexError
| ValueError
| TypeError
| AttributeError.
Arguments AssertionError {N} msg.
Arguments IndexError {N}.
Arguments ValueError {N}.
Arguments TypeError {N}.
Arguments AttributeError {N}.

(** [OutOfFuel]: the bound on loop iterations was reached with the loop
    condition still true.  It is not an outcome of the Python code. *)
Inductive Outcome (N X : Type) :=
| Returned (x : X)
| Raised (e : Exception N)
| OutOfFuel.
Arguments Returned {N X} x.
Arguments Raised {N X} e.
Arguments OutOfFuel {N X}.

(** What the two user callbacks were called with.  [UpdateCall] also
    records the number of seconds the callback returned. *)
Inductive Event (N : Type) :=
| UpdateCall (max_seconds dt_seconds : N)
| CheckpointCall (checkpoint_number : Z) (time_years : N).
Arguments UpdateCall {N} max_seconds dt_seconds.
Arguments CheckpointCall {N} checkpoint_number time_years.

(* ================================================================= *)
(** ** The data of a linked model *)

(** The records are over the type [N] of the numbers; [V] is an
    Underworld velocity field and [U] whatever the user keeps on the
    side ([linkage.private_stuff]). *)
Section Data.
Context {N V U : Type}.

Local Abbreviation vec3 := (N * N * N)%type.

(** [uw.mesh.FeMesh_Cartesian]: only the bounds are read here. *)
Record FeMesh := {
  minCoord : vec3;
  maxCoord : vec3
}.

(** The Underworld side: what the user configures on the linkage and
    what [update_function] advances. *)
Record Underworld := {
  mesh : FeMesh;
  velocity_field : V;
  particleCoordinates : list vec3;   (* swarm.particleCoordinates.data *)
  material_index : list Z;           (* material_index.data *)
  private_stuff : U
}.

Definition set_material_index (d : list Z) (u : Underworld) : Underworld :=
  {| mesh := mesh u; velocity_field := velocity_field u;
     particleCoordinates := particleCoordinates u;
     material_index := d; private_stuff := private_stuff u |}.

(** [badlands_model.input] *)
Record Input := {
  disp3d : bool;
  region : Z;
  tDisplay : N;
  Afactor : N
}.

(** [badlands_model.recGrid] *)
Record RecGrid := {
  rectX : list N;
  rectY : list N;
  rectZ : list N;
  resEdges : N;
  rnx : nat;
  rny : nat;
  tinMesh_vertices : list (N * N)   (* tinMesh['vertices'] *)
}.

(** [badlands_model.force].  [T_disp] is an n-by-2 array, one
    [start, end] row per displacement interval. *)
Record Force := {
  T_disp : list (N * N);
  injected_disps : option (list vec3);
  merge3d : option N;
  next_display : option N
}.

Record Badlands := {
  input : Input;
  recGrid : RecGrid;
  force : Force;
  elevation : list N
}.

Definition set_input (i : Input) (b : Badlands) : Badlands :=
  {| input := i; recGrid := recGrid b; force := force b;
     elevation := elevation b |}.
Definition set_force (f : Force) (b : Badlands) : Badlands :=
  {| input := input b; recGrid := recGrid b; force := f;
     elevation := elevation b |}.

Definition set_T_disp (t : list (N * N)) (f : Force) : Force :=
  {| T_disp := t; injected_disps := injected_disps f;
     merge3d := merge3d f; next_display := next_display f |}.
Definition set_injected_disps (d : list vec3) (f : Force) : Force :=
  {| T_disp := T_disp f; injected_disps := Some d;
     merge3d := merge3d f; next_display := next_display f |}.
Definition set_merge3d (m : N) (f : Force) : Force :=
  {| T_disp := T_disp f; injected_disps := injected_disps f;
     merge3d := Some m; next_display := next_display f |}.
Definition set_next_display (d : N) (f : Force) : Force :=
  {| T_disp := T_disp f; injected_disps := injected_disps f;
     merge3d := merge3d f; next_display := Some d |}.

(** The attributes of a [LinkageModel] instance.  The four Underworld
    members are grouped in [uw]; [SECONDS_PER_YEAR] is the constant
    below; [_surface_tracers] and the advector built on it do not
    exist before [_startup] ([None]). *)
Record LinkageModel := {
  uw : Underworld;
  badlands_model : Badlands;
  checkpoint_interval : N;
  material_map : list (list Z);
  time_years : N;
  _model_started : bool;
  _disp_inserted : bool;
  _checkpoint_number : Z;
  _next_checkpoint_years : option N;
  disable_material_changes : bool;
  np_mesh : option FeMesh;
  _surface_tracers : option (list vec3)
}.

(** The running program: the object and the calls made so far to the
    user's callbacks, oldest first. *)
Record World := {
  self : LinkageModel;
  calls : list (Event N)
}.
End Data.
Arguments FeMesh : clear implicits.
Arguments Underworld : clear implicits.
Arguments Input : clear implicits.
Arguments RecGrid : clear implicits.
Arguments Force : clear implicits.
Arguments Badlands : clear implicits.
Arguments LinkageModel : clear implicits.
Arguments World : clear implicits.

Section Defaults.
Context {A : Arith} {V U : Type}.

(** A point or a vector of space. *)
Definition vec3 : Type := num * num * num.

(** [float(365 * 24 * 60 * 60)] *)
Definition SECONDS_PER_YEAR : num := of_int (365 * 24 * 60 * 60).

(** [LinkageModel.__init__], followed by the assignments of the
    members that "MUST be set" and of any setting the user overrides
    ([interval] and [mmap]; their defaults are below). *)
Definition configure (u : Underworld num V U) (b : Badlands num)
    (interval : num) (mmap : list (list Z)) (disable : bool)
  : LinkageModel num V U :=
  {| uw := u;
     badlands_model := b;
     checkpoint_interval := interval;
     material_map := mmap;
     time_years := of_int 0;
     _model_started := false;
     _disp_inserted := false;
     _checkpoint_number := 0;
     _next_checkpoint_years := None;
     disable_material_changes := disable;
     np_mesh := None;
     _surface_tracers := None |}.

Definition default_checkpoint_interval : num := of_int 10000.
Definition default_material_map : list (list Z) := [[0]; [1]].
End Defaults.
(* ================================================================= *)
(** ** The methods of [LinkageModel] *)

Declare Scope py_scope.
Delimit Scope py_scope with py.

Section Methods.
Context {A : Arith} {V U : Type}.

Local Abbreviation Linkage := (LinkageModel num V U).
Local Abbreviation Uw := (Underworld num V U).

(** *** The collaborators *)

(** [update_function(linkage, max_seconds)]: the seconds it ran for and
    the Underworld model as it leaves it. *)
Variable update_function : Linkage -> num -> num * Uw.
(** [checkpoint_function(linkage, checkpoint_number, time_years)] *)
Variable checkpoint_function : Linkage -> Z -> num -> Uw.
(** [uw.systems.SwarmAdvector(velocityField, order=2).integrate(dt)] on
    the coordinates of the advected swarm. *)
Variable integrate : V -> num -> list vec3 -> list vec3.
(** [MeshVariable.evaluate(swarm)]: the velocity at each particle. *)
Variable evaluate : V -> list vec3 -> list vec3.
(** [badlands_model.run_to_time(t)] *)
Variable run_to_time : Badlands num -> num -> Badlands num.
(** [scipy.interpolate.griddata(points, values, xi, method='linear')]
    at one query point of [xi]. *)
Variable griddata : list (num * num) -> list num -> num * num -> num.
(** [scipy.ndimage.filters.gaussian_filter(grid, sigma)] *)
Variable gaussian_filter : list (list num) -> num -> list (list num).

(** *** State and exceptions *)

Definition M (X : Type) : Type := World num V U -> Outcome num X * World num V U.

Definition ret {X} (x : X) : M X := fun w => (Returned x, w).

Definition bind {X Y} (m : M X) (k : X -> M Y) : M Y := fun w =>
  match m w with
  | (Returned x, w') => k x w'
  | (Raised e, w') => (Raised e, w')
  | (OutOfFuel, w') => (OutOfFuel, w')
  end.

Definition raise {X} (e : Exception num) : M X := fun w => (Raised e, w).

Notation "x <- m ;; k" := (bind m (fun x => k))
  (at level 100, m at next level, k at level 200, right associativity)
  : py_scope.
Notation "m ;; k" := (bind m (fun _ => k))
  (at level 100, k at level 200, right associativity) : py_scope.
Open Scope py_scope.

Definition gets {X} (f : Linkage -> X) : M X :=
  fun w => (Returned (f (self w)), w).

Definition modify (f : Linkage -> Linkage) : M unit :=
  fun w => (Returned tt, {| self := f (self w); calls := calls w |}).

(** [assert b, msg] *)
Definition assert_ (b : bool) (msg : Message num) : M unit :=
  if b then ret tt else raise (AssertionError msg).

Definition unwrap {X} (o : option X) (e : Exception num) : M X :=
  match o with
  | Some x => ret x
  | None => raise e
  end.

Fixpoint for_each {X} (l : list X) (body : X -> M unit) : M unit :=
  match l with
  | [] => ret tt
  | x :: r => body x ;; for_each r body
  end.

(** *** Attribute assignment *)

Definition set_uw (u : Uw) (s : Linkage) : Linkage :=
  {| uw := u; badlands_model := badlands_model s;
     checkpoint_interval := checkpoint_interval s;
     material_map := material_map s; time_years := time_years s;
     _model_started := _model_started s;
     _disp_inserted := _disp_inserted s;
     _checkpoint_number := _checkpoint_number s;
     _next_checkpoint_years := _next_checkpoint_years s;
     disable_material_changes := disable_material_changes s;
     np_mesh := np_mesh s; _surface_tracers := _surface_tracers s |}.

Definition set_badlands_model (b : Badlands num) (s : Linkage) : Linkage :=
  {| uw := uw s; badlands_model := b;
     checkpoint_interval := checkpoint_interval s;
     material_map := material_map s; time_years := time_years s;
     _model_started := _model_started s;
     _disp_inserted := _disp_inserted s;
     _checkpoint_number := _checkpoint_number s;
     _next_checkpoint_years := _next_checkpoint_years s;
     disable_material_changes := disable_material_changes s;
     np_mesh := np_mesh s; _surface_tracers := _surface_tracers s |}.

Definition set_time_years (t : num) (s : Linkage) : Linkage :=
  {| uw := uw s; badlands_model := badlands_model s;
     checkpoint_interval := checkpoint_interval s;
     material_map := material_map s; time_years := t;
     _model_started := _model_started s;
     _disp_inserted := _disp_inserted s;
     _checkpoint_number := _checkpoint_number s;
     _next_checkpoint_years := _next_checkpoint_years s;
     disable_material_changes := disable_material_changes s;
     np_mesh := np_mesh s; _surface_tracers := _surface_tracers s |}.

Definition set_model_started (b : bool) (s : Linkage) : Linkage :=
  {| uw := uw s; badlands_model := badlands_model s;
     checkpoint_interval := checkpoint_interval s;
     material_map := material_map s; time_years := time_years s;
     _model_started := b;
     _disp_inserted := _disp_inserted s;
     _checkpoint_number := _checkpoint_number s;
     _next_checkpoint_years := _next_checkpoint_years s;
     disable_material_changes := disable_material_changes s;
     np_mesh := np_mesh s; _surface_tracers := _surface_tracers s |}.

Definition set_disp_inserted (b : bool) (s : Linkage) : Linkage :=
  {| uw := uw s; badlands_model := badlands_model s;
     checkpoint_interval := checkpoint_interval s;
     material_map := material_map s; time_years := time_years s;
     _model_started := _model_started s;
     _disp_inserted := b;
     _checkpoint_number := _checkpoint_number s;
     _next_checkpoint_years := _next_checkpoint_years s;
     disable_material_changes := disable_material_changes s;
     np_mesh := np_mesh s; _surface_tracers := _surface_tracers s |}.

Definition set_checkpoint_number (n : Z) (s : Linkage) : Linkage :=
  {| uw := uw s; badlands_model := badlands_model s;
     checkpoint_interval := checkpoint_interval s;
     material_map := material_map s; time_years := time_years s;
     _model_started := _model_started s;
     _disp_inserted := _disp_inserted s;
     _checkpoint_number := n;
     _next_checkpoint_years := _next_checkpoint_years s;
     disable_material_changes := disable_material_changes s;
     np_mesh := np_mesh s; _surface_tracers := _surface_tracers s |}.

Definition set_next_checkpoint_years (t : num) (s : Linkage) : Linkage :=
  {| uw := uw s; badlands_model := badlands_model s;
     checkpoint_interval := checkpoint_interval s;
     material_map := material_map s; time_years := time_years s;
     _model_started := _model_started s;
     _disp_inserted := _disp_inserted s;
     _checkpoint_number := _checkpoint_number s;
     _next_checkpoint_years := Some t;
     disable_material_changes := disable_material_changes s;
     np_mesh := np_mesh s; _surface_tracers := _surface_tracers s |}.

Definition set_np_mesh (m : FeMesh num) (s : Linkage) : Linkage :=
  {| uw := uw s; badlands_model := badlands_model s;
     checkpoint_interval := checkpoint_interval s;
     material_map := material_map s; time_years := time_years s;
     _model_started := _model_started s;
     _disp_inserted := _disp_inserted s;
     _checkpoint_number := _checkpoint_number s;
     _next_checkpoint_years := _next_checkpoint_years s;
     disable_material_changes := disable_material_changes s;
     np_mesh := Some m; _surface_tracers := _surface_tracers s |}.

Definition set_surface_tracers (t : list vec3) (s : Linkage) : Linkage :=
  {| uw := uw s; badlands_model := badlands_model s;
     checkpoint_interval := checkpoint_interval s;
     material_map := material_map s; time_years := time_years s;
     _model_started := _model_started s;
     _disp_inserted := _disp_inserted s;
     _checkpoint_number := _checkpoint_number s;
     _next_checkpoint_years := _next_checkpoint_years s;
     disable_material_changes := disable_material_changes s;
     np_mesh := np_mesh s; _surface_tracers := Some t |}.

Definition modify_force (f : Force num -> Force num) : M unit :=
  modify (fun s =>
    set_badlands_model
      (set_force (f (force (badlands_model s))) (badlands_model s)) s).

Definition modify_input (f : Input num -> Input num) : M unit :=
  modify (fun s =>
    set_badlands_model
      (set_input (f (input (badlands_model s))) (badlands_model s)) s).

(** *** Calls to the user's callbacks *)

Definition call_update_function (max_seconds : num) : M num := fun w =>
  let '(dt_seconds, u) := update_function (self w) max_seconds in
  (Returned dt_seconds,
   {| self := set_uw u (self w);
      calls := calls w ++ [UpdateCall max_seconds dt_seconds] |}).

Definition call_checkpoint_function (n : Z) (t : num) : M unit := fun w =>
  (Returned tt,
   {| self := set_uw (checkpoint_function (self w) n t) (self w);
      calls := calls w ++ [CheckpointCall n t] |}).

(** *** [_determine_particle_state] *)

(** For each particle, is it below ([true], sediment) or above
    ([false], air) the Badlands surface.  [volume[:, 2] < interpolate_z]
    compares the two arrays element by element. *)
Definition _determine_particle_state : M (list bool) :=
  known_xy <- gets (fun s => tinMesh_vertices (recGrid (badlands_model s)));;
  known_z <- gets (fun s => elevation (badlands_model s));;
  volume <- gets (fun s => particleCoordinates (uw s));;
  let interpolate_xy := map (fun p : vec3 => (p.1.1, p.1.2)) volume in
  let interpolate_z := map (griddata known_xy known_z) interpolate_xy in
  let flags :=
    zip_with (fun (p : vec3) (z : num) => (p.2 <? z)%num)
             volume interpolate_z in
  ret flags.

(** *** [_update_material_types] *)

(** [a[i]] on a Python list or a numpy array. *)
Definition item {X} (a : list X) (i : nat) : M X :=
  unwrap (a !! i) IndexError.

(** [self.material_index.data[index] = v] *)
Definition write_material (index : nat) (v : Z) : M unit :=
  modify (fun s =>
    set_uw (set_material_index (<[index := v]> (material_index (uw s)))
                               (uw s)) s).

(** The body of the [for index, material in enumerate(...)] loop.
    [material] is a view of row [index] of the array, so each test
    reads the entry as it is when the test runs.  [and] evaluates its
    right operand only when the left one is true. *)
Definition reclassify (material_flags : list bool) (index : nat) : M unit :=
  (* convert air to sediment *)
  material <- (d <- gets (fun s => material_index (uw s));; item d index);;
  air <- (m <- gets material_map;; item m 0%nat);;
  to_sediment <-
    (if bool_decide (material ∈ air) then item material_flags index
     else ret false);;
  (if to_sediment : bool then
     sediment <- (m <- gets material_map;; item m 1%nat);;
     v <- item sediment 0%nat;;
     write_material index v
   else ret tt);;
  (* convert sediment to air *)
  material <- (d <- gets (fun s => material_index (uw s));; item d index);;
  sediment <- (m <- gets material_map;; item m 1%nat);;
  to_air <-
    (if bool_decide (material ∈ sediment) then
       flag <- item material_flags index;; ret (negb flag)
     else ret false);;
  (if to_air : bool then
     air <- (m <- gets material_map;; item m 0%nat);;
     v <- item air 0%nat;;
     write_material index v
   else ret tt).

Definition _update_material_types : M unit :=
  disabled <- gets disable_material_changes;;
  if disabled : bool then ret tt
  else
    material_flags <- _determine_particle_state;;
    n <- gets (fun s => length (material_index (uw s)));;
    for_each (seq 0 n) (reclassify material_flags).

(** *** [_inject_badlands_displacement] and its smoothing variant *)

(** The literal [0.5]. *)
Definition half : num := (of_int 1 / of_int 2)%num.

(** [force.merge3d = input.Afactor * recGrid.resEdges * 0.5] *)
Definition set_merge : M unit :=
  b <- gets badlands_model;;
  modify_force
    (set_merge3d (Afactor (input b) * resEdges (recGrid b) * half)%num).

(** [T_disp[0, 0] = v] ([col = false]) and [T_disp[0, 1] = v]
    ([col = true]); an [IndexError] when the table has no row. *)
Definition write_T_disp_row0 (col : bool) (v : num) : M unit :=
  rows <- gets (fun s => T_disp (force (badlands_model s)));;
  row <- item rows 0%nat;;
  modify_force
    (set_T_disp
       (<[0%nat := if col then (row.1, v) else (v, row.2)]> rows)).

(** The "kludge; don't keep adding new entries" block.
    [np.vstack(([time, time + dt], T_disp))] puts the new row on top of
    the rows the table has. *)
Definition record_interval (time dt : num) : M unit :=
  inserted <- gets _disp_inserted;;
  if inserted : bool then
    write_T_disp_row0 false time;;
    write_T_disp_row0 true (time + dt)%num
  else
    modify_force (fun f => set_T_disp ((time, time + dt)%num :: T_disp f) f);;
    modify (set_disp_inserted true).

Definition _inject_badlands_displacement
    (time dt : num) (disp : list vec3) : M unit :=
  set_merge;;
  record_interval time dt;;
  modify_force (set_injected_disps disp).

(** [a.reshape(rows, cols)] of a flat array, row-major. *)
Fixpoint rows_of {X} (rows cols : nat) (a : list X) : list (list X) :=
  match rows with
  | O => []
  | S r => take cols a :: rows_of r cols (drop cols a)
  end.

Definition reshape2 {X} (rows cols : nat) (a : list X) : M (list (list X)) :=
  if decide (length a = (rows * cols)%nat) then ret (rows_of rows cols a)
  else raise ValueError.

(** [g.reshape(n)] of a two-dimensional array. *)
Definition reshape1 {X} (n : nat) (g : list (list X)) : M (list X) :=
  if decide (length (concat g) = n) then ret (concat g)
  else raise ValueError.

(** [disp[:, k] = column], for k = 0, 1, 2. *)
Definition assign_column (k : nat) (disp : list vec3) (column : list num)
  : M (list vec3) :=
  if decide (length column = length disp) then
    ret (zip_with (fun (p : vec3) (c : num) =>
                     match k with
                     | 0%nat => (c, p.1.2, p.2)
                     | 1%nat => (p.1.1, c, p.2)
                     | _ => (p.1.1, p.1.2, c)
                     end) disp column)
  else raise ValueError.

Definition _inject_badlands_displacement_smooth
    (time dt : num) (disp : list vec3) (sigma : num) : M unit :=
  set_merge;;
  record_interval time dt;;
  (* gaussian smoothing *)
  rg <- gets (fun s => recGrid (badlands_model s));;
  dispX <- reshape2 (rnx rg) (rny rg) (map (fun p : vec3 => p.1.1) disp);;
  dispY <- reshape2 (rnx rg) (rny rg) (map (fun p : vec3 => p.1.2) disp);;
  dispZ <- reshape2 (rnx rg) (rny rg) (map (fun p : vec3 => p.2) disp);;
  let smoothX := gaussian_filter dispX sigma in
  let smoothY := gaussian_filter dispY sigma in
  let smoothZ := gaussian_filter dispZ sigma in
  disp <- (c <- reshape1 (rnx rg * rny rg) smoothX;; assign_column 0 disp c);;
  disp <- (c <- reshape1 (rnx rg * rny rg) smoothY;; assign_column 1 disp c);;
  disp <- (c <- reshape1 (rnx rg * rny rg) smoothZ;; assign_column 2 disp c);;
  (* end gaussian smoothing *)
  modify_force (set_injected_disps disp).

(** *** [_startup] *)

(** [np.column_stack((rectX, rectY, rectZ))]; a [ValueError] when the
    three columns differ in length. *)
Definition column_stack (xs ys zs : list num) : M (list vec3) :=
  if decide (length xs = length ys /\ length ys = length zs) then
    ret (zip_with (fun (xy : num * num) (z : num) => (xy, z))
                  (zip xs ys) zs)
  else raise ValueError.

(** [bl_xy == uw_xy] on two 4-tuples. *)
Definition extent_eqb (a b : num * num * num * num) : bool :=
  (a.1.1.1 =? b.1.1.1)%num && (a.1.1.2 =? b.1.1.2)%num
  && (a.1.2 =? b.1.2)%num && (a.2 =? b.2)%num.

(** One-time initialisation.  The members that must be configured
    cannot be [None] here (they are not optional in [LinkageModel]), so
    the loop of assertions over them has nothing to check. *)
Definition _startup : M unit :=
  started <- gets _model_started;;
  assert_ (negb started) MsgNone;;
  (* Make sure UW and BL are operating over the same XY domain *)
  rg <- gets (fun s => recGrid (badlands_model s));;
  x0 <- unwrap (np_min (rectX rg)) ValueError;;
  x1 <- unwrap (np_max (rectX rg)) ValueError;;
  y0 <- unwrap (np_min (rectY rg)) ValueError;;
  y1 <- unwrap (np_max (rectY rg)) ValueError;;
  let bl_xy := (x0, x1, y0, y1) in
  m <- gets (fun s => mesh (uw s));;
  let uw_xy := ((minCoord m).1.1, (maxCoord m).1.1,
                (minCoord m).1.2, (maxCoord m).1.2) in
  assert_ (extent_eqb bl_xy uw_xy) (MsgDomain bl_xy uw_xy);;
  interval <- gets checkpoint_interval;;
  modify_input (fun i =>
    {| disp3d := true; region := 0; tDisplay := interval;
       Afactor := Afactor i |});;
  (* create tracers used to track movement of the Badlands surface *)
  rg <- gets (fun s => recGrid (badlands_model s));;
  dem_coords <- column_stack (rectX rg) (rectY rg) (rectZ rg);;
  modify (set_surface_tracers dem_coords);;
  (* build a non-partitioned mesh *)
  m <- gets (fun s => mesh (uw s));;
  modify (set_np_mesh m);;
  (* Transfer the initial DEM state to Underworld *)
  _update_material_types;;
  interval <- gets checkpoint_interval;;
  modify (set_next_checkpoint_years interval);;
  (* Perform an initial Underworld checkpoint *)
  n <- gets _checkpoint_number;;
  t <- gets time_years;;
  call_checkpoint_function n t;;
  modify_force (set_next_display (of_int 0));;
  n <- gets _checkpoint_number;;
  modify (set_checkpoint_number (n + 1));;
  modify (set_model_started true).

(** *** [run_for_years] *)

(** Lines 138 to 170 of the loop body: advect the surface tracers,
    rebuild the non-partitioned view (one process: what is saved is
    what is loaded), turn the velocities at the tracers into
    displacements and hand them to Badlands. *)
Definition uw_to_bl (dt_seconds dt_years sigma : num) : M unit :=
  (* Advect the Badlands interface surface *)
  tracers <- (t <- gets _surface_tracers;; unwrap t AttributeError);;
  v <- gets (fun s => velocity_field (uw s));;
  modify (set_surface_tracers (integrate v dt_seconds tracers));;
  (* Synchronise the velocity field across nodes *)
  _ <- (n <- gets np_mesh;; unwrap n AttributeError);;
  m <- gets (fun s => mesh (uw s));;
  modify (set_np_mesh m);;
  np_velocity_field <- gets (fun s => velocity_field (uw s));;
  np_surface_tracers <- (t <- gets _surface_tracers;; unwrap t AttributeError);;
  let tracer_velocity_mps := evaluate np_velocity_field np_surface_tracers in
  (* INTERFACE PART 1: UW->BL *)
  let tracer_disp :=
    map (fun v : vec3 =>
           ((v.1.1 * SECONDS_PER_YEAR * dt_years)%num,
            (v.1.2 * SECONDS_PER_YEAR * dt_years)%num,
            (v.2 * SECONDS_PER_YEAR * dt_years)%num))
        tracer_velocity_mps in
  t <- gets time_years;;
  if (sigma =? of_int 0)%num then
    _inject_badlands_displacement t dt_years tracer_disp
  else
    _inject_badlands_displacement_smooth t dt_years tracer_disp sigma.

(** Lines 172 to 177: run Badlands to the same time point, then
    INTERFACE PART 2: BL->UW. *)
Definition bl_to_uw (dt_years : num) : M unit :=
  t <- gets time_years;;
  modify (fun s =>
    set_badlands_model (run_to_time (badlands_model s) (t + dt_years)%num) s);;
  _update_material_types.

Definition couple (dt_seconds dt_years sigma : num) : M unit :=
  uw_to_bl dt_seconds dt_years sigma;;
  bl_to_uw dt_years.

(** The body of the [while] loop. *)
Definition step (end_years sigma : num) : M unit :=
  t <- gets time_years;;
  next <- (n <- gets _next_checkpoint_years;; unwrap n TypeError);;
  let max_years := (next - t)%num in
  let max_years := pymin (end_years - t)%num max_years in
  let max_seconds := (max_years * SECONDS_PER_YEAR)%num in
  (* Ask the Underworld model to update *)
  dt_seconds <- call_update_function max_seconds;;
  assert_ (dt_seconds <=? max_seconds)%num
          (MsgMaximumDt max_seconds dt_seconds);;
  (* Do we need to write a checkpoint later? *)
  let write_checkpoint := (dt_seconds =? max_seconds)%num in
  let dt_years := (dt_seconds / SECONDS_PER_YEAR)%num in
  couple dt_seconds dt_years sigma;;
  (if write_checkpoint then
     n <- gets _checkpoint_number;;
     t <- gets time_years;;
     call_checkpoint_function n t;;
     n <- gets _checkpoint_number;;
     modify (set_checkpoint_number (n + 1));;
     next <- (n <- gets _next_checkpoint_years;; unwrap n TypeError);;
     interval <- gets checkpoint_interval;;
     modify (set_next_checkpoint_years (next + interval)%num)
   else ret tt);;
  (* Advance time *)
  t <- gets time_years;;
  modify (set_time_years (t + dt_years)%num).

(** [while self.time_years < end_years: ...], for at most [fuel]
    iterations. *)
Fixpoint while_loop (fuel : nat) (end_years sigma : num) (w : World num V U)
  {struct fuel} : Outcome num unit * World num V U :=
  if (time_years (self w) <? end_years)%num then
    match fuel with
    | O => (OutOfFuel, w)
    | S fuel' => (step end_years sigma;; while_loop fuel' end_years sigma) w
    end
  else (Returned tt, w).

Definition run_for_years (fuel : nat) (years sigma : num) : M unit :=
  started <- gets _model_started;;
  (if started : bool then ret tt else _startup);;
  t <- gets time_years;;
  let end_years := (t + years)%num in
  while_loop fuel end_years sigma.
End Methods.

Arguments M {A} V U X.

(* ================================================================= *)
(** ** Vocabulary of the specification *)

Section Vocabulary.
Context {A : Arith} {V U : Type}.
Variable update_function : LinkageModel num V U -> num -> num * Underworld num V U.
Variable checkpoint_function : LinkageModel num V U -> Z -> num -> Underworld num V U.
Variable integrate : V -> num -> list vec3 -> list vec3.
Variable evaluate : V -> list vec3 -> list vec3.
Variable run_to_time : Badlands num -> num -> Badlands num.
Variable griddata : list (num * num) -> list num -> num * num -> num.
Variable gaussian_filter : list (list num) -> num -> list (list num).

Local Abbreviation step' :=
  (step update_function checkpoint_function integrate evaluate run_to_time
        griddata gaussian_filter).
Local Abbreviation run_for_years' :=
  (run_for_years update_function checkpoint_function integrate evaluate
                 run_to_time griddata gaussian_filter).

(** [always R m]: whatever its outcome, [m] leaves a state that is in
    relation [R] with the state it started from. *)
Definition always {X} (R : World num V U -> World num V U -> Prop) (m : M V U X)
  : Prop :=
  forall w, R w (m w).2.

(** [keeps f m]: running [m] does not change the observation [f] of
    the state, whatever the outcome. *)
Definition unchanged {Y} (f : World num V U -> Y) (w w' : World num V U) : Prop :=
  f w' = f w.
Definition keeps {X Y} (f : World num V U -> Y) (m : M V U X) : Prop :=
  always (unchanged f) m.

(** The state the loop owns: the clock, the checkpoint schedule, the
    started flag and the record of callback calls. *)
Definition schedule (w : World num V U)
  : num * Z * option num * num * bool * list (Event num) :=
  (time_years (self w), _checkpoint_number (self w),
   _next_checkpoint_years (self w), checkpoint_interval (self w),
   _model_started (self w), calls w).


(** The request of one iteration: lines 122 to 124. *)
Definition max_seconds_of (end_years : num) (s : LinkageModel num V U) (next : num)
  : num :=
  (pymin (end_years - time_years s) (next - time_years s)
   * SECONDS_PER_YEAR)%num.

Definition after_update (max_seconds : num) (w : World num V U) : World num V U :=
  {| self := set_uw (update_function (self w) max_seconds).2 (self w);
     calls := calls w ++
              [UpdateCall max_seconds (update_function (self w) max_seconds).1] |}.

(** [self.time_years += dt_years] *)
Definition advance_clock (dt_years : num) (w : World num V U) : World num V U :=
  {| self := set_time_years (time_years (self w) + dt_years)%num (self w);
     calls := calls w |}.


(** [iterations end_years sigma k w w']: from [w], the loop of a run
    towards [end_years] completes [k] iterations and is then in [w']. *)
Inductive iterations (end_years sigma : num)
  : nat -> World num V U -> World num V U -> Prop :=
| iterations_O w : iterations end_years sigma O w w
| iterations_S k w w1 w2 :
    (time_years (self w) <? end_years)%num = true ->
    step' end_years sigma w = (Returned tt, w1) ->
    iterations end_years sigma k w1 w2 ->
    iterations end_years sigma (S k) w w2.

(** The states a linked model goes through: a freshly configured
    object, and the state any call of [run_for_years] leaves, whether
    it returned, raised, or is stopped between two iterations. *)
Inductive reachable (s0 : LinkageModel num V U) : World num V U -> Prop :=
| reachable_new : reachable s0 {| self := s0; calls := [] |}
| reachable_run w fuel years sigma :
    reachable s0 w ->
    reachable s0 (run_for_years' fuel years sigma w).2.


(** *** The checkpoint numbers handed to the callback *)

Definition checkpoint_numbers (l : list (Event num)) : list Z :=
  omap (fun e => match e with
                 | CheckpointCall n _ => Some n
                 | UpdateCall _ _ => None
                 end) l.

(** The calls so far carry the numbers 0, 1, ..., and
    [_checkpoint_number] is the next one. *)
Definition counted (w : World num V U) : Prop :=
  exists k : nat,
    _checkpoint_number (self w) = Z.of_nat k /\
    checkpoint_numbers (calls w) = Z.of_nat <$> seq 0 k.

(** Nothing is called before [_startup] has fired checkpoint 0, at
    time 0. *)
Definition startup_first (w : World num V U) : Prop :=
  if _model_started (self w) then
    exists rest, calls w = CheckpointCall 0 (of_int 0) :: rest
  else
    calls w = [] /\ _checkpoint_number (self w) = 0 /\
    time_years (self w) = of_int 0 /\
    _next_checkpoint_years (self w) = None.


Definition is_returned {X} (o : Outcome num X) : bool :=
  match o with
  | Returned _ => true
  | _ => false
  end.

(** *** Reclassification, particle by particle *)

(** The flags [_determine_particle_state] computes in state [w]. *)
Definition particle_flags (w : World num V U) : list bool :=
  map (fun p : vec3 =>
         (p.2 <? griddata (tinMesh_vertices (recGrid (badlands_model (self w))))
                          (elevation (badlands_model (self w)))
                          (p.1.1, p.1.2))%num)
      (particleCoordinates (uw (self w))).

(** [w] with [material_index.data] replaced. *)
Definition with_material_index (d : list Z) (w : World num V U) : World num V U :=
  {| self := set_uw (set_material_index d (uw (self w))) (self w);
     calls := calls w |}.

(** The value one pass of the loop body of [_update_material_types]
    leaves at [index], where it found [material]: the two [if]
    statements in sequence, with the [IndexError]s of the look-ups. *)
Definition reclassify_value (mmap : list (list Z)) (material_flags : list bool)
    (index : nat) (material : Z) : Outcome num Z :=
  match mmap !! 0%nat with
  | None => Raised IndexError
  | Some air =>
  match (if bool_decide (material ∈ air) then material_flags !! index
         else Some false) with
  | None => Raised IndexError
  | Some to_sediment =>
  match (if to_sediment : bool then
           match mmap !! 1%nat with
           | None => None
           | Some sediment => sediment !! 0%nat
           end
         else Some material) with
  | None => Raised IndexError
  | Some material1 =>
  match mmap !! 1%nat with
  | None => Raised IndexError
  | Some sediment =>
  match (if bool_decide (material1 ∈ sediment) then
           negb <$> material_flags !! index
         else Some false) with
  | None => Raised IndexError
  | Some to_air =>
  match (if to_air : bool then air !! 0%nat else Some material1) with
  | None => Raised IndexError
  | Some v => Returned v
  end end end end end end.

(** The whole loop on the entries [todo] that start at [index]. *)
Fixpoint reclassify_from (mmap : list (list Z)) (material_flags : list bool)
    (index : nat) (todo : list Z) : Outcome num (list Z) :=
  match todo with
  | [] => Returned []
  | material :: rest =>
      match reclassify_value mmap material_flags index material with
      | Returned v =>
          match reclassify_from mmap material_flags (S index) rest with
          | Returned r => Returned (v :: r)
          | Raised e => Raised e
          | OutOfFuel => OutOfFuel
          end
      | Raised e => Raised e
      | OutOfFuel => OutOfFuel
      end
  end.

(** What the claims say the loop does to one identifier: written only
    on a transition, with the first element of the destination set. *)
Definition reclassified (air sediment : list Z) (material : Z) (flag : bool)
  : Z :=
  if bool_decide (material ∈ air) && flag then
    default material (head sediment)
  else if bool_decide (material ∈ sediment) && negb flag then
    default material (head air)
  else material.

(** *** The displacement table *)

Definition displacement_rows (w : World num V U) : nat :=
  length (T_disp (force (badlands_model (self w)))).

(** The rows of the table that were not put there by the linkage: all
    of them until [_disp_inserted] is set, all but one afterwards. *)
Definition foreign_rows (w : World num V U) : Z :=
  Z.of_nat (displacement_rows w) -
  (if _disp_inserted (self w) then 1 else 0).

(** The displacements of the surface tracers over one iteration, from the
    velocity sampled at the advected tracers:
    [tracer_velocity_mps * SECONDS_PER_YEAR * dt_years]. *)
Definition tracer_disp_of (dt_seconds dt_years : num) (s : LinkageModel num V U)
    (tracers : list vec3) : list vec3 :=
  map (fun v : vec3 =>
         ((v.1.1 * SECONDS_PER_YEAR * dt_years)%num,
          (v.1.2 * SECONDS_PER_YEAR * dt_years)%num,
          (v.2 * SECONDS_PER_YEAR * dt_years)%num))
      (evaluate (velocity_field (uw s))
                (integrate (velocity_field (uw s)) dt_seconds tracers)).
End Vocabulary.

(* ================================================================= *)
(** ** A small linked model on doubles *)

(** A flat 10 m by 10 m surface at elevation 0, three particles, a
    velocity field that is 1 m/s upwards everywhere, a Badlands that
    keeps its surface, and a few update callbacks.  The examples below
    are run on it. *)
Module Scenario.
Definition fl (z : Z) : Binary64.float := Binary64.of_Z z.

Definition Linkage : Type := LinkageModel Binary64.float unit unit.

Definition mesh0 : FeMesh Binary64.float :=
  {| minCoord := (fl 0, fl 0, fl (-10));
     maxCoord := (fl 10, fl 10, fl 10) |}.

(** Particle 0 is air below the surface, particle 1 sediment above it,
    particle 2 sediment below the level of the surface but 10 m outside
    the grid. *)
Definition underworld0 : Underworld Binary64.float unit unit :=
  {| mesh := mesh0;
     velocity_field := tt;
     particleCoordinates :=
       [(fl 5, fl 5, fl (-1)); (fl 5, fl 5, fl 1); (fl 20, fl 5, fl (-1))];
     material_index := [0; 1; 1];
     private_stuff := tt |}.

Definition grid0 : RecGrid Binary64.float :=
  {| rectX := [fl 0; fl 10; fl 0; fl 10];
     rectY := [fl 0; fl 0; fl 10; fl 10];
     rectZ := [fl 0; fl 0; fl 0; fl 0];
     resEdges := fl 10;
     rnx := 2;
     rny := 2;
     tinMesh_vertices :=
       [(fl 0, fl 0); (fl 10, fl 0); (fl 0, fl 10); (fl 10, fl 10)] |}.

(** Badlands as loaded, with the displacement intervals [rows] its own
    configuration declares. *)
Definition badlands0 (rows : list (Binary64.float * Binary64.float))
  : Badlands Binary64.float :=
  {| input := {| disp3d := false; region := 1; tDisplay := fl 1;
                 Afactor := fl 1 |};
     recGrid := grid0;
     force := {| T_disp := rows; injected_disps := None;
                 merge3d := None; next_display := None |};
     elevation := [fl 0; fl 0; fl 0; fl 0] |}.

Definition integrate0 (_ : unit) (_ : Binary64.float)
    (tracers : list (vec3 (A:=binary64))) : list (vec3 (A:=binary64)) :=
  tracers.

Definition evaluate0 (_ : unit) (tracers : list (vec3 (A:=binary64)))
  : list (vec3 (A:=binary64)) :=
  map (fun _ => (fl 0, fl 0, fl 1)) tracers.

Definition run_to_time0 (b : Badlands Binary64.float) (_ : Binary64.float)
  : Badlands Binary64.float := b.

(** Linear interpolation of a surface that is flat at elevation 0 over
    the square [0, 10] x [0, 10]: 0 inside the hull of the samples, NaN
    (scipy's [fill_value]) outside. *)
Definition flat_griddata (_ : list (Binary64.float * Binary64.float))
    (_ : list Binary64.float) (q : Binary64.float * Binary64.float)
  : Binary64.float :=
  if SFleb (fl 0) q.1 && SFleb q.1 (fl 10)
     && SFleb (fl 0) q.2 && SFleb q.2 (fl 10)
  then fl 0 else Binary64.nan.

Definition gaussian_filter0 (g : list (list Binary64.float))
    (_ : Binary64.float) : list (list Binary64.float) := g.

Definition checkpoint0 (s : Linkage) (_ : Z) (_ : Binary64.float)
  : Underworld Binary64.float unit unit := uw s.

(** Update callbacks: one that always runs for all the seconds it is
    given, one whose first call runs for 8e10 seconds only, one that
    runs for one second too many. *)
Definition update_full (s : Linkage) (max_seconds : Binary64.float)
  : Binary64.float * Underworld Binary64.float unit unit :=
  (max_seconds, uw s).

Definition update_short_first (s : Linkage) (max_seconds : Binary64.float)
  : Binary64.float * Underworld Binary64.float unit unit :=
  if SFeqb (time_years s) (fl 0) then (fl 80000000000, uw s)
  else (max_seconds, uw s).

Definition update_overrun (s : Linkage) (max_seconds : Binary64.float)
  : Binary64.float * Underworld Binary64.float unit unit :=
  (SFadd Binary64.prec Binary64.emax max_seconds (fl 1), uw s).

(** A model with the default settings, over a Badlands whose table has
    the rows [rows]. *)
Definition linkage0 (rows : list (Binary64.float * Binary64.float)) : Linkage :=
  configure underworld0 (badlands0 rows) default_checkpoint_interval
            default_material_map false.

Definition new (rows : list (Binary64.float * Binary64.float))
  : World Binary64.float unit unit :=
  {| self := linkage0 rows; calls := [] |}.

Abbreviation run_for_years0 update fuel years sigma w :=
  (run_for_years update checkpoint0 integrate0 evaluate0 run_to_time0
                 flat_griddata gaussian_filter0 fuel (fl years) (fl sigma) w).

Abbreviation step0 update end_years sigma w :=
  (step update checkpoint0 integrate0 evaluate0 run_to_time0
        flat_griddata gaussian_filter0 (fl end_years) (fl sigma) w).

(** The model once started, before the first iteration: a run for 0
    years. *)
Definition started (rows : list (Binary64.float * Binary64.float))
  : World Binary64.float unit unit :=
  (run_for_years0 update_full 0 0 0 (new rows)).2.

Local Abbreviation W0 := (World Binary64.float unit unit).

(** The state a ten-thousand-year run leaves when the first call of the
    update callback stops early. *)
Definition after_short_run : W0 :=
  (run_for_years0 update_short_first 5 10000 0 (new [])).2.

(** The first iteration of that run, and the second. *)
Definition after_short_step : W0 :=
  (step0 update_short_first 10000 0 (started [])).2.
Definition after_full_step : W0 :=
  (step0 update_short_first 10000 0 after_short_step).2.

(** A Badlands whose own configuration declares one displacement
    interval, from year 100000 to year 200000. *)
Definition one_row : list (Binary64.float * Binary64.float) :=
  [(fl 100000, fl 200000)].

Definition after_one_iteration : W0 :=
  (step0 update_full 10000 0 (started one_row)).2.

(** The freshly configured model, reclassified once. *)
Definition reclassified_once : W0 :=
  (_update_material_types flat_griddata (new [])).2.

(** The started model at the hand-over to Badlands of an iteration of
    8e10 seconds with [sigma = 0]. *)
Definition handed_over : W0 :=
  (uw_to_bl integrate0 evaluate0 gaussian_filter0
            (fl 80000000000) (fl 80000000000 / SECONDS_PER_YEAR)%num (fl 0)
            (started [])).2.

End Scenario.

(* ================================================================= *)
(** ** Vocabulary for the schedule in exact arithmetic *)

(** Over the rationals: the next checkpoint is [_checkpoint_number]
    times the interval, and no checkpoint is pending before the model is
    started. *)
Definition on_schedule {V U : Type} (interval : QArith_base.Q)
    (w : World QArith_base.Q V U) : Prop :=
  checkpoint_interval (self w) = interval /\
  match _next_checkpoint_years (self w) with
  | None => _checkpoint_number (self w) = 0%Z
  | Some next =>
      _model_started (self w) = true /\
      (1 <= _checkpoint_number (self w))%Z /\
      QArith_base.Qeq next
        (QArith_base.Qmult
           (QArith_base.inject_Z (_checkpoint_number (self w))) interval)
  end.

(** Every call of the update callback so far offered it a positive
    number of seconds. *)
Definition offered_positive (l : list (Event QArith_base.Q)) : Prop :=
  Forall (fun e => match e with
                   | UpdateCall max_seconds _ =>
                       QArith_base.Qlt (QArith_base.inject_Z 0) max_seconds
                   | CheckpointCall _ _ => True
                   end) l.

(** The next checkpoint of a started model is after the clock; a model
    that is not started is at time 0 and has no next checkpoint. *)
Definition ahead_of_clock {V U : Type} (w : World QArith_base.Q V U) : Prop :=
  if _model_started (self w) then
    exists next, _next_checkpoint_years (self w) = Some next /\
                 QArith_base.Qlt (time_years (self w)) next
  else
    time_years (self w) = QArith_base.inject_Z 0 /\
    _next_checkpoint_years (self w) = None.

(* ================================================================= *)
(** ** [generate_flat_dem] *)

Section FlatDem.
Context {A : Arith}.

(** [np.linspace(start, stop, num)] for a number of samples that is not
    negative. *)
Variable linspace : num -> num -> nat -> list num.

(** [np.linspace(start, stop, num)]; [None] stands for the
    [ValueError] numpy raises on a negative number of samples. *)
Definition np_linspace (start stop : num) (n : Z) : option (list num) :=
  if (n <? 0)%Z then None else Some (linspace start stop (Z.to_nat n)).

(** The two nested [for] loops: for each [y] of the outer range, the
    inner range is built and one item [[x, y, elevation]] is appended
    for each of its [x]. *)
Fixpoint flat_items (ys : list num) (inner : option (list num))
    (elevation : num) : Outcome num (list vec3) :=
  match ys with
  | [] => Returned []
  | y :: ys' =>
      match inner with
      | None => Raised ValueError
      | Some xs =>
          match flat_items ys' inner elevation with
          | Returned items =>
              Returned (map (fun x => (x, y, elevation)) xs ++ items)
          | Raised e => Raised e
          | OutOfFuel => OutOfFuel
          end
      end
  end.

(** The static method.  The outer loop, named [y], runs over
    [minCoord[0] .. maxCoord[0]] in [resolution[0]] samples; the inner
    one, named [x], over [minCoord[1] .. maxCoord[1]] in
    [resolution[1]] samples. *)
Definition generate_flat_dem (minCoord maxCoord : vec3)
    (resolution : Z * Z) (elevation : num) : Outcome num (list vec3) :=
  match np_linspace minCoord.1.1 maxCoord.1.1 resolution.1 with
  | None => Raised ValueError
  | Some ys =>
      flat_items ys (np_linspace minCoord.1.2 maxCoord.1.2 resolution.2)
                 elevation
  end.
End FlatDem.

(* ================================================================= *)
(** ** Further vocabulary *)

Section MoreVocabulary.
Context {A : Arith} {V U : Type}.

(** The settings the user chooses on the linkage. *)
Definition settings (w : World num V U) : num * list (list Z) * bool :=
  (checkpoint_interval (self w), material_map (self w),
   disable_material_changes (self w)).

(** The Underworld side but for the values of [material_index.data]. *)
Definition underworld_frame (w : World num V U)
  : FeMesh num * V * list vec3 * U * nat :=
  (mesh (uw (self w)), velocity_field (uw (self w)),
   particleCoordinates (uw (self w)), private_stuff (uw (self w)),
   length (material_index (uw (self w)))).

(** What [_startup] creates is there. *)
Definition started_up (w : World num V U) : Prop :=
  _model_started (self w) = true ->
  is_Some (_next_checkpoint_years (self w)) /\
  is_Some (_surface_tracers (self w)) /\
  is_Some (np_mesh (self w)).

(** The exceptions the linkage raises on data of the wrong shape or on
    a broken contract. *)
Definition data_error (e : Exception num) : Prop :=
  match e with
  | AssertionError _ | IndexError | ValueError => True
  | TypeError | AttributeError => False
  end.

(** An outcome that is not one of the other exceptions, nor the bound
    on the iterations. *)
Definition fails_on_data_only {X} (o : Outcome num X) : Prop :=
  match o with
  | Returned _ => True
  | Raised e => data_error e
  | OutOfFuel => False
  end.

(** The Badlands side but for the rows of the displacement table and
    the displacements: what an injection writes apart from those. *)
Definition merged (b : Badlands num) : Badlands num :=
  set_force
    (set_merge3d (Afactor (input b) * resEdges (recGrid b) * half)%num
                 (force b)) b.
(** What [_update_material_types] cannot touch. *)
Definition beside_materials (w : World num V U)
  : Badlands num * option (FeMesh num) * option (list vec3) * bool
    * FeMesh num :=
  (badlands_model (self w), np_mesh (self w), _surface_tracers (self w),
   _disp_inserted (self w), mesh (uw (self w))).


(** What [_startup] creates is not taken away again. *)
Definition stays_set (w w' : World num V U) : Prop :=
  (is_Some (_surface_tracers (self w)) ->
   is_Some (_surface_tracers (self w'))) /\
  (is_Some (np_mesh (self w)) -> is_Some (np_mesh (self w'))) /\
  (is_Some (_next_checkpoint_years (self w)) ->
   is_Some (_next_checkpoint_years (self w'))).

(** The state with [badlands_model.force] replaced, and the state in
    which an injection looks at the displacement table: [merge3d] is
    written. *)
Definition with_force (f : Force num) (w : World num V U) : World num V U :=
  {| self := set_badlands_model (set_force f (badlands_model (self w)))
                                (self w);
     calls := calls w |}.
Definition with_merge (w : World num V U) : World num V U :=
  {| self := set_badlands_model (merged (badlands_model (self w))) (self w);
     calls := calls w |}.
End MoreVocabulary.

(* ================================================================= *)
(** ** More of the small linked model *)

Module MoreScenario.
Import Scenario.

Local Abbreviation W0 := (World Binary64.float unit unit).

(** numpy's [linspace] on doubles: [arange(0, num) * step + start],
    with the last sample set to [stop]. *)
Definition linspace0 (start stop : Binary64.float) (n : nat)
  : list Binary64.float :=
  match n with
  | O => []
  | S O => [start]
  | S (S _ as n1) =>
      let step := ((stop - start) / fl (Z.of_nat n1))%num in
      map (fun i => (fl (Z.of_nat i) * step + start)%num) (seq 0 n1) ++ [stop]
  end.

(** The model over a mesh that is 20 m wide, on the 10 m grid. *)
Definition off_domain : W0 :=
  {| self :=
       configure
         {| mesh := {| minCoord := (fl 0, fl 0, fl (-10));
                       maxCoord := (fl 20, fl 10, fl 10) |};
            velocity_field := tt;
            particleCoordinates := particleCoordinates underworld0;
            material_index := material_index underworld0;
            private_stuff := tt |}
         (badlands0 []) default_checkpoint_interval default_material_map
         false;
     calls := [] |}.

(** The model with a material map that has the air row only, and the
    model with material changes disabled, started. *)
Definition short_map : W0 :=
  {| self := configure underworld0 (badlands0 [])
                       default_checkpoint_interval [[0]] false;
     calls := [] |}.

Definition disabled : W0 :=
  (run_for_years update_full checkpoint0 integrate0 evaluate0 run_to_time0
     flat_griddata gaussian_filter0 0 (fl 0) (fl 0)
     {| self := configure underworld0 (badlands0 [])
                          default_checkpoint_interval default_material_map
                          true;
        calls := [] |}).2.

(** The started model after the linkage has put its row in a table
    that has been emptied since. *)
Definition emptied : W0 :=
  {| self := set_disp_inserted true (self (started [])); calls := [] |}.

(** Four displacements, one per node of the grid. *)
Definition disp0 : list (vec3 (A:=binary64)) :=
  [(fl 0, fl 0, fl 1); (fl 0, fl 0, fl 2); (fl 0, fl 0, fl 3);
   (fl 0, fl 0, fl 4)].

(** The coupling of an iteration of 8e10 seconds on the started
    model. *)
Definition coupled : W0 :=
  (couple integrate0 evaluate0 run_to_time0 flat_griddata gaussian_filter0
          (fl 80000000000) (fl 80000000000 / SECONDS_PER_YEAR)%num (fl 0)
          (started [])).2.
End MoreScenario.

(* ================================================================= *)
(** ** The small linked model in exact arithmetic *)

Module ScenarioQ.
Import QArith_base.
Local Open Scope Z_scope.

Definition q (z : Z) : Q := inject_Z z.

Definition LinkageQ : Type := LinkageModel Q unit unit.

Definition underworldQ : Underworld Q unit unit :=
  {| mesh := {| minCoord := (q 0, q 0, q (-10));
                maxCoord := (q 10, q 10, q 10) |};
     velocity_field := tt;
     particleCoordinates := [(q 5, q 5, q (-1)); (q 5, q 5, q 1)];
     material_index := [0; 1];
     private_stuff := tt |}.

Definition badlandsQ : Badlands Q :=
  {| input := {| disp3d := false; region := 1; tDisplay := q 1;
                 Afactor := q 1 |};
     recGrid := {| rectX := [q 0; q 10; q 0; q 10];
                   rectY := [q 0; q 0; q 10; q 10];
                   rectZ := [q 0; q 0; q 0; q 0];
                   resEdges := q 10; rnx := 2%nat; rny := 2%nat;
                   tinMesh_vertices :=
                     [(q 0, q 0); (q 10, q 0); (q 0, q 10); (q 10, q 10)] |};
     force := {| T_disp := []; injected_disps := None;
                 merge3d := None; next_display := None |};
     elevation := [q 0; q 0; q 0; q 0] |}.

Definition integrateQ (_ : unit) (_ : Q) (tracers : list (Q * Q * Q))
  : list (Q * Q * Q) := tracers.
Definition evaluateQ (_ : unit) (tracers : list (Q * Q * Q))
  : list (Q * Q * Q) := map (fun _ => (q 0, q 0, q 1)) tracers.
Definition run_to_timeQ (b : Badlands Q) (_ : Q) : Badlands Q := b.
Definition griddataQ (_ : list (Q * Q)) (_ : list Q) (_ : Q * Q) : Q := q 0.
Definition gaussian_filterQ (g : list (list Q)) (_ : Q) : list (list Q) := g.
Definition checkpointQ (s : LinkageQ) (_ : Z) (_ : Q)
  : Underworld Q unit unit := uw s.

(** Update callbacks: one that runs for all the seconds it is given,
    one that runs for half of them, one that reports no progress. *)
Definition update_fullQ (s : LinkageQ) (max_seconds : Q)
  : Q * Underworld Q unit unit := (max_seconds, uw s).
Definition update_halfQ (s : LinkageQ) (max_seconds : Q)
  : Q * Underworld Q unit unit := (Qmult max_seconds (Qmake 1 2), uw s).
Definition update_zeroQ (s : LinkageQ) (_ : Q)
  : Q * Underworld Q unit unit := (q 0, uw s).

Definition newQ : World Q unit unit :=
  {| self := configure (A:=exact) underworldQ badlandsQ (q 10000)
                       default_material_map false;
     calls := [] |}.

Abbreviation run_for_yearsQ update fuel years sigma w :=
  (run_for_years (A:=exact) update checkpointQ integrateQ evaluateQ
                 run_to_timeQ griddataQ gaussian_filterQ fuel years sigma w).
Abbreviation stepQ update end_years sigma w :=
  (step (A:=exact) update checkpointQ integrateQ evaluateQ
        run_to_timeQ griddataQ gaussian_filterQ end_years sigma w).

Definition startedQ : World Q unit unit :=
  (run_for_yearsQ update_fullQ 0%nat (q 0) (q 0) newQ).2.

(** The state a run for 15000 years leaves, and the state the first
    iteration of a run for 5000 years leaves. *)
Definition after_runQ : World Q unit unit :=
  (run_for_yearsQ update_fullQ 5%nat (q 15000) (q 0) newQ).2.
Definition after_short_runQ : World Q unit unit :=
  (stepQ update_fullQ (q 5000) (q 0) startedQ).2.
End ScenarioQ.
(* ================================================================= *)
(** * Proofs *)

(** ** Comparisons of binary64 numbers *)

Module Binary64Facts.
Import Binary64.

Lemma compare_swap (x y : float) :
  SFcompare y x = option_map CompOpp (SFcompare x y).
Proof.
  destruct x as [sx|sx| |sx mx ex], y as [sy|sy| |sy my ey]; simpl;
    try reflexivity;
    try (destruct sx; reflexivity);
    try (destruct sy; reflexivity);
    try (destruct sx, sy; reflexivity).
  destruct sx, sy; simpl; try reflexivity; f_equal;
    rewrite (Z.compare_antisym ey ex);
    destruct (ey ?= ex)%Z; simpl; try reflexivity;
    rewrite (Pos.compare_cont_antisym mx my Eq); simpl;
    try rewrite CompOpp_involutive; reflexivity.
Qed.

Lemma ltb_not_leb (a b : float) : SFltb a b = true -> SFleb b a = false.
Proof.
  unfold SFltb, SFleb. rewrite (compare_swap a b).
  destruct (SFcompare a b) as [[]|]; simpl; congruence.
Qed.

(** Comparison with NaN is always false. *)
Lemma ltb_nan_r (z : float) : SFltb z nan = false.
Proof. destruct z; reflexivity. Qed.
End Binary64Facts.

#[export] Instance binary64_lt_excludes_ge : LtExcludesGe binary64.
Proof. exact Binary64Facts.ltb_not_leb. Qed.
(* ================================================================= *)
(** ** What a method leaves alone *)

Section Frames.
Context {A : Arith} {V U : Type}.

Lemma unchanged_preorder {Y} (f : World num V U -> Y) : PreOrder (unchanged f).
Proof.
  split.
  - intros w. reflexivity.
  - intros w1 w2 w3 H12 H23. unfold unchanged in *. congruence.
Qed.

Lemma always_ret
    (R : World num V U -> World num V U -> Prop) `{!PreOrder R} {X} (x : X) : always R (ret x).
Proof. intros w. simpl. reflexivity. Qed.

Lemma always_raise
    (R : World num V U -> World num V U -> Prop) `{!PreOrder R} {X} e : always R (raise (X:=X) e).
Proof. intros w. simpl. reflexivity. Qed.

Lemma always_gets
    (R : World num V U -> World num V U -> Prop) `{!PreOrder R} {X} (g : LinkageModel num V U -> X) : always R (gets g).
Proof. intros w. simpl. reflexivity. Qed.

Lemma always_bind
    (R : World num V U -> World num V U -> Prop) `{!PreOrder R} {X X'} (m : M V U X) (k : X -> M V U X') :
  always R m -> (forall x, always R (k x)) -> always R (bind m k).
Proof.
  intros Hm Hk w. unfold bind. specialize (Hm w).
  destruct (m w) as [[x|e|] w1]; simpl in *; try assumption.
  etransitivity; [exact Hm|apply Hk].
Qed.

Lemma always_unwrap
    (R : World num V U -> World num V U -> Prop) `{!PreOrder R} {X} (o : option X) e : always R (unwrap o e).
Proof. destruct o; intros w; simpl; reflexivity. Qed.

Lemma always_assert
    (R : World num V U -> World num V U -> Prop) `{!PreOrder R} b msg : always R (assert_ b msg).
Proof. destruct b; intros w; simpl; reflexivity. Qed.

Lemma always_modify
    (R : World num V U -> World num V U -> Prop) `{!PreOrder R} g :
  (forall w, R w {| self := g (self w); calls := calls w |}) ->
  always R (modify g).
Proof. intros H w. apply H. Qed.

Lemma always_for_each
    (R : World num V U -> World num V U -> Prop) `{!PreOrder R} {X} (l : list X) body :
  (forall x, always R (body x)) -> always R (for_each l body).
Proof.
  intros H. induction l as [|x l IH]; simpl.
  - apply always_ret, _.
  - apply always_bind; auto.
Qed.

Lemma keeps_eq {X Y} (f : World num V U -> Y) (m : M V U X) :
  keeps f m -> forall w, f (m w).2 = f w.
Proof. intros H. exact H. Qed.

(** Running a sequence from a given state. *)
Lemma run_bind_gets {X Y} (g : LinkageModel num V U -> X) (k : X -> M V U Y) w :
  bind (gets g) k w = k (g (self w)) w.
Proof. reflexivity. Qed.

Lemma run_bind_ret {X Y} (x : X) (k : X -> M V U Y) w :
  bind (ret x) k w = k x w.
Proof. reflexivity. Qed.

Lemma run_bind_raise {X Y} e (k : X -> M V U Y) w :
  bind (raise e) k w = (Raised e, w).
Proof. reflexivity. Qed.

Lemma run_bind_modify {Y} g (k : unit -> M V U Y) w :
  bind (modify g) k w = k tt {| self := g (self w); calls := calls w |}.
Proof. reflexivity. Qed.

Lemma run_bind_bind {X X' Y} (m : M V U X) (k : X -> M V U X')
    (k' : X' -> M V U Y) w :
  bind (bind m k) k' w = bind m (fun x => bind (k x) k') w.
Proof. unfold bind. destruct (m w) as [[x|e|] w1]; reflexivity. Qed.

Lemma run_bind_assert {Y} b msg (k : unit -> M V U Y) w :
  bind (assert_ b msg) k w =
  if b then k tt w else (Raised (AssertionError msg), w).
Proof. destruct b; reflexivity. Qed.

Lemma run_bind_unwrap {X Y} (o : option X) e (k : X -> M V U Y) w :
  bind (unwrap o e) k w =
  match o with Some x => k x w | None => (Raised e, w) end.
Proof. destruct o; reflexivity. Qed.

Lemma run_bind_call_checkpoint {Y}
    (checkpoint_function : LinkageModel num V U -> Z -> num -> Underworld num V U)
    n t (k : unit -> M V U Y) w :
  bind (call_checkpoint_function checkpoint_function n t) k w =
  k tt {| self := set_uw (checkpoint_function (self w) n t) (self w);
          calls := calls w ++ [CheckpointCall n t] |}.
Proof. reflexivity. Qed.

Lemma run_gets {X} (g : LinkageModel num V U -> X) w :
  gets g w = (Returned (g (self w)), w).
Proof. reflexivity. Qed.

Lemma run_modify g (w : World num V U) :
  modify g w = (Returned tt, {| self := g (self w); calls := calls w |}).
Proof. reflexivity. Qed.
End Frames.

#[export] Existing Instance unchanged_preorder.

Create Rewrite HintDb py.
#[export] Hint Rewrite @run_bind_bind @run_bind_gets @run_bind_ret
  @run_bind_raise @run_bind_modify @run_bind_assert @run_bind_unwrap
  @run_bind_call_checkpoint @run_gets @run_modify : py.

(** Decompose a method into the primitives above. *)
(** Decompose a method into its primitive statements; [leaf] settles
    an assignment. *)
Ltac always_step leaf :=
  lazymatch goal with
  | |- always _ (ret _) => apply always_ret; apply _
  | |- always _ (raise _) => apply always_raise; apply _
  | |- always _ (gets _) => apply always_gets; apply _
  | |- always _ (unwrap _ _) => apply always_unwrap; apply _
  | |- always _ (assert_ _ _) => apply always_assert; apply _
  | |- always _ (bind _ _) => apply always_bind; [ apply _ | | intros ? ]
  | |- always _ (for_each _ _) => apply always_for_each; [ apply _ | intros ? ]
  | |- always _ (modify _) => apply always_modify; [ apply _ | intros ?; leaf ]
  | |- always _ (if ?b then _ else _) => destruct b
  | |- always _ (match ?o with Some _ => _ | None => _ end) => destruct o
  end.

Ltac unfold_methods :=
  unfold _update_material_types, _determine_particle_state, reclassify,
    write_material, item, _inject_badlands_displacement,
    _inject_badlands_displacement_smooth, set_merge,
    reshape2, reshape1, assign_column, modify_force,
    modify_input, column_stack;
  cbv zeta.

Ltac keeps_methods :=
  unfold keeps; unfold_methods; unfold record_interval, write_T_disp_row0;
  unfold_methods;
  repeat always_step ltac:(unfold unchanged; reflexivity).
(* ================================================================= *)
(** ** The loop and its schedule *)

Section Schedule.
Context {A : Arith} {V U : Type}.
Variable update_function : LinkageModel num V U -> num -> num * Underworld num V U.
Variable checkpoint_function : LinkageModel num V U -> Z -> num -> Underworld num V U.
Variable integrate : V -> num -> list vec3 -> list vec3.
Variable evaluate : V -> list vec3 -> list vec3.
Variable run_to_time : Badlands num -> num -> Badlands num.
Variable griddata : list (num * num) -> list num -> num * num -> num.
Variable gaussian_filter : list (list num) -> num -> list (list num).

Local Abbreviation couple' :=
  (couple (U:=U) integrate evaluate run_to_time griddata gaussian_filter).
Local Abbreviation step' :=
  (step update_function checkpoint_function integrate evaluate run_to_time
        griddata gaussian_filter).
Local Abbreviation while_loop' :=
  (while_loop update_function checkpoint_function integrate evaluate
              run_to_time griddata gaussian_filter).
Local Abbreviation run_for_years' :=
  (run_for_years update_function checkpoint_function integrate evaluate
                 run_to_time griddata gaussian_filter).
Local Abbreviation _startup' := (_startup checkpoint_function griddata).
Local Abbreviation after_update' := (after_update update_function).
Local Abbreviation iterations' :=
  (iterations update_function checkpoint_function integrate evaluate
              run_to_time griddata gaussian_filter).
Local Abbreviation reachable' :=
  (reachable update_function checkpoint_function integrate evaluate
             run_to_time griddata gaussian_filter).

Lemma couple_keeps_schedule dt_seconds dt_years sigma :
  keeps schedule (couple' dt_seconds dt_years sigma).
Proof. unfold couple, uw_to_bl, bl_to_uw. keeps_methods. Qed.

(** One iteration of the loop, as seen on the state the loop owns.  A
    completed iteration ends with the one assignment to the clock. *)
Lemma step_schedule end_years sigma (w : World num V U) :
  match _next_checkpoint_years (self w) with
  | None => step' end_years sigma w = (Raised TypeError, w)
  | Some next =>
      let t := time_years (self w) in
      let max_seconds := max_seconds_of end_years (self w) next in
      let dt_seconds := (update_function (self w) max_seconds).1 in
      let dt_years := (dt_seconds / SECONDS_PER_YEAR)%num in
      let n := _checkpoint_number (self w) in
      let interval := checkpoint_interval (self w) in
      let seen := calls w ++ [UpdateCall max_seconds dt_seconds] in
      if (dt_seconds <=? max_seconds)%num then
        match (step' end_years sigma w).1 with
        | Returned _ =>
            exists w2,
              (step' end_years sigma w).2 = advance_clock dt_years w2 /\
              schedule w2 =
              if (dt_seconds =? max_seconds)%num then
                (t, n + 1, Some (next + interval)%num, interval,
                 _model_started (self w), seen ++ [CheckpointCall n t])
              else
                (t, n, Some next, interval, _model_started (self w), seen)
        | _ =>
            schedule (step' end_years sigma w).2 =
            (t, n, Some next, interval, _model_started (self w), seen)
        end
      else
        step' end_years sigma w =
        (Raised (AssertionError (MsgMaximumDt max_seconds dt_seconds)),
         after_update' max_seconds w)
  end.
Proof.
  destruct (step' end_years sigma w) as [r w'] eqn:E. simpl.
  unfold step in E. autorewrite with py in E.
  destruct (_next_checkpoint_years (self w)) as [next|] eqn:Enext; simpl in E.
  2:{ autorewrite with py in E. congruence. }
  autorewrite with py in E. fold (max_seconds_of end_years (self w) next) in E.
  set (max_seconds := max_seconds_of end_years (self w) next) in *.
  unfold bind at 1 in E. unfold call_update_function at 1 in E.
  unfold after_update.
  destruct (update_function (self w) max_seconds) as [dt_seconds u] eqn:Eup.
  simpl.
  destruct (dt_seconds <=? max_seconds)%num; simpl in E;
    autorewrite with py in E; [|congruence].
  unfold bind at 1 in E.
  pose proof (couple_keeps_schedule dt_seconds
                (dt_seconds / SECONDS_PER_YEAR)%num sigma
                {| self := set_uw u (self w);
                   calls := calls w ++ [UpdateCall max_seconds dt_seconds] |})
    as Hk.
  unfold unchanged in Hk.
  destruct (couple' _ _ _ _) as [[[]|e|] w2]; simpl in Hk;
    unfold schedule in Hk; simpl in Hk; rewrite Enext in Hk.
  - injection Hk as Ht Hn Hnx Hi Hs Hc.
    destruct (dt_seconds =? max_seconds)%num.
    + autorewrite with py in E.
      autorewrite with py in E. simpl in E. rewrite Hnx in E. simpl in E.
      autorewrite with py in E. simpl in E.
      injection E as <- <-.
      match goal with
      | |- exists _, {| self := set_time_years _ ?s; calls := ?c |} = _ /\ _ =>
          exists {| self := s; calls := c |}
      end.
      split; [reflexivity|]. unfold schedule; simpl. congruence.
    + autorewrite with py in E. injection E as <- <-.
      exists w2. split; [reflexivity|].
      unfold schedule; simpl. congruence.
  - injection E as <- <-. exact Hk.
  - injection E as <- <-. exact Hk.
Qed.

Lemma update_material_types_keeps_schedule :
  keeps schedule (_update_material_types (V:=V) (U:=U) griddata).
Proof. keeps_methods. Qed.

(** [_startup], as seen on the state the loop owns: it fires checkpoint
    [_checkpoint_number] at the current time, or fails before touching
    the schedule. *)
Lemma startup_schedule (w : World num V U) :
  let r := _startup' w in
  match r.1 with
  | Returned _ =>
      _model_started (self w) = false /\
      schedule r.2 =
      (time_years (self w), _checkpoint_number (self w) + 1,
       Some (checkpoint_interval (self w)), checkpoint_interval (self w),
       true,
       calls w ++ [CheckpointCall (_checkpoint_number (self w))
                                  (time_years (self w))])
  | _ => schedule r.2 = schedule w
  end.
Proof.
  destruct (_startup' w) as [r w'] eqn:E. simpl.
  unfold _startup, modify_input, modify_force, column_stack in E.
  autorewrite with py in E.
  destruct (_model_started (self w)) eqn:Es; simpl in E;
    [injection E as <- <-; reflexivity|].
  repeat (autorewrite with py in E;
          match type of E with
          | match ?o with Some _ => _ | None => _ end = _ =>
              destruct o; [|injection E as <- <-; reflexivity]
          | (if ?b then _ else _) = _ =>
              destruct b; [|injection E as <- <-; reflexivity]
          | bind (if ?b then _ else _) _ _ = _ =>
              destruct b; [|injection E as <- <-; reflexivity]
          end).
  autorewrite with py in E.
  unfold bind at 1 in E.
  match type of E with
  | context [_update_material_types griddata ?w1] =>
      pose proof (update_material_types_keeps_schedule w1) as Hk;
      destruct (_update_material_types griddata w1) as [[[]|e|] w2]
  end; unfold unchanged in Hk; simpl in Hk; unfold schedule in Hk;
    simpl in Hk.
  2,3: injection E as <- <-; exact Hk.
  injection Hk as Ht Hn Hnx Hi Hs Hc.
  autorewrite with py in E.
  autorewrite with py in E. simpl in E.
  injection E as <- <-. split; [reflexivity|].
  unfold schedule; simpl. congruence.
Qed.

(** *** Runs *)

Lemma while_loop_unfold fuel end_years sigma w :
  while_loop' fuel end_years sigma w =
  if (time_years (self w) <? end_years)%num then
    match fuel with
    | O => (OutOfFuel, w)
    | S fuel' =>
        bind (step' end_years sigma)
             (fun _ => while_loop' fuel' end_years sigma) w
    end
  else (Returned tt, w).
Proof. destruct fuel; reflexivity. Qed.

Lemma while_loop_iterations end_years sigma k w wk :
  iterations' end_years sigma k w wk ->
  forall fuel,
    while_loop' (k + fuel) end_years sigma w =
    while_loop' fuel end_years sigma wk.
Proof.
  induction 1 as [|k w w1 w2 Hlt Hstep _ IH]; intros fuel; [reflexivity|].
  change (S k + fuel)%nat with (S (k + fuel)).
  rewrite while_loop_unfold, Hlt. unfold bind. rewrite Hstep. apply IH.
Qed.

(** A property that [_startup] and every iteration preserve holds
    throughout the life of the object. *)
Lemma while_loop_preserves (P : World num V U -> Prop) end_years sigma :
  (forall w, P w -> P (step' end_years sigma w).2) ->
  forall fuel w, P w -> P (while_loop' fuel end_years sigma w).2.
Proof.
  intros Hstep. induction fuel as [|fuel IH]; intros w Hw;
    rewrite while_loop_unfold;
    destruct (time_years (self w) <? end_years)%num; simpl; try assumption.
  unfold bind. specialize (Hstep w Hw).
  destruct (step' end_years sigma w) as [[[]|e|] w1]; simpl in *;
    auto.
Qed.

Lemma reachable_preserves (P : World num V U -> Prop) s0 :
  P {| self := s0; calls := [] |} ->
  (forall w, P w -> P (_startup' w).2) ->
  (forall end_years sigma w, P w -> P (step' end_years sigma w).2) ->
  forall w, reachable' s0 w -> P w.
Proof.
  intros Hnew Hstart Hstep w Hreach.
  induction Hreach as [|w fuel years sigma _ IH]; [assumption|].
  unfold run_for_years. autorewrite with py.
  destruct (_model_started (self w)).
  - autorewrite with py. apply while_loop_preserves; auto.
  - unfold bind at 1. specialize (Hstart w IH).
    destruct (_startup' w) as [[[]|e|] w1];
      simpl in *; try assumption.
    autorewrite with py. apply while_loop_preserves; auto.
Qed.

Lemma iterations_preserves (P : World num V U -> Prop) end_years sigma :
  (forall w, P w -> P (step' end_years sigma w).2) ->
  forall k w w', iterations' end_years sigma k w w' -> P w -> P w'.
Proof.
  intros Hstep k w w' Hit. induction Hit as [|k w w1 w2 _ Hs _ IH]; auto.
  intros Hw. apply IH. specialize (Hstep w Hw). rewrite Hs in Hstep.
  exact Hstep.
Qed.

Lemma counted_snoc_update (w w' : World num V U) m d :
  counted w ->
  _checkpoint_number (self w') = _checkpoint_number (self w) ->
  calls w' = calls w ++ [UpdateCall m d] ->
  counted w'.
Proof.
  intros (k & Hk & Hc) Hn Hcalls. exists k. split; [congruence|].
  rewrite Hcalls. unfold checkpoint_numbers in *.
  rewrite omap_app, Hc. simpl. apply app_nil_r.
Qed.

Lemma counted_snoc_checkpoint (w w' : World num V U) t :
  counted w ->
  _checkpoint_number (self w') = _checkpoint_number (self w) + 1 ->
  calls w' = calls w ++ [CheckpointCall (_checkpoint_number (self w)) t] ->
  counted w'.
Proof.
  intros (k & Hk & Hc) Hn Hcalls. exists (S k). split; [lia|].
  rewrite Hcalls. unfold checkpoint_numbers in *.
  rewrite omap_app, Hc, seq_S, fmap_app. simpl. congruence.
Qed.

Lemma step_counted end_years sigma w :
  counted w -> counted (step' end_years sigma w).2.
Proof.
  intros Hw. pose proof (step_schedule end_years sigma w) as H.
  destruct (_next_checkpoint_years (self w)) as [next|] eqn:Enext;
    [|rewrite H; exact Hw].
  cbv zeta in H.
  set (max_seconds := max_seconds_of end_years (self w) next) in *.
  set (dt_seconds := (update_function (self w) max_seconds).1) in *.
  assert (Hseen : forall w1 : World num V U,
    schedule w1 = (time_years (self w), _checkpoint_number (self w),
                   Some next, checkpoint_interval (self w),
                   _model_started (self w),
                   calls w ++ [UpdateCall max_seconds dt_seconds]) ->
    counted w1).
  { intros w1 Hs. unfold schedule in Hs. injection Hs as _ Hn _ _ _ Hc.
    eapply counted_snoc_update; eauto. }
  destruct (dt_seconds <=? max_seconds)%num.
  2:{ rewrite H. simpl. apply Hseen. unfold schedule. simpl.
      rewrite Enext. reflexivity. }
  destruct (step' end_years sigma w) as [[[]|e|] w1]; simpl in *; auto.
  destruct H as (w2 & -> & Hs).
  destruct (dt_seconds =? max_seconds)%num.
  - unfold schedule in Hs. injection Hs as _ Hn _ _ _ Hc.
    eapply (counted_snoc_checkpoint
              {| self := self w;
                 calls := calls w ++ [UpdateCall max_seconds dt_seconds] |}).
    + eapply counted_snoc_update; eauto.
    + simpl. exact Hn.
    + simpl. exact Hc.
  - apply Hseen in Hs. exact Hs.
Qed.

(** The callbacks one iteration calls: the update function, then the
    checkpoint function when the iteration completes with
    [dt_seconds == max_seconds]. *)
Lemma step_calls end_years sigma w next :
  _next_checkpoint_years (self w) = Some next ->
  let max_seconds := max_seconds_of end_years (self w) next in
  let dt_seconds := (update_function (self w) max_seconds).1 in
  let r := step' end_years sigma w in
  calls r.2 =
  calls w ++
  UpdateCall max_seconds dt_seconds ::
  (if is_returned r.1 && (dt_seconds =? max_seconds)%num then
     [CheckpointCall (_checkpoint_number (self w)) (time_years (self w))]
   else []).
Proof.
  intros Enext. pose proof (step_schedule end_years sigma w) as H.
  rewrite Enext in H. cbv zeta in *.
  set (max_seconds := max_seconds_of end_years (self w) next) in *.
  set (dt_seconds := (update_function (self w) max_seconds).1) in *.
  destruct (dt_seconds <=? max_seconds)%num.
  2:{ rewrite H. reflexivity. }
  destruct (step' end_years sigma w) as [[[]|e|] w1]; simpl in *.
  - destruct H as (w2 & -> & Hs). simpl.
    destruct (dt_seconds =? max_seconds)%num;
      unfold schedule in Hs; injection Hs as _ _ _ _ _ ->;
      [rewrite <- app_assoc|]; reflexivity.
  - unfold schedule in H; injection H as _ _ _ _ _ ->. reflexivity.
  - unfold schedule in H; injection H as _ _ _ _ _ ->. reflexivity.
Qed.

Lemma step_keeps_started end_years sigma w :
  _model_started (self (step' end_years sigma w).2) = _model_started (self w).
Proof.
  pose proof (step_schedule end_years sigma w) as H.
  destruct (_next_checkpoint_years (self w)) as [next|] eqn:Enext;
    [|rewrite H; reflexivity].
  cbv zeta in H.
  destruct (_ <=? _)%num; [|rewrite H; reflexivity].
  destruct (step' end_years sigma w) as [[[]|e|] w1]; simpl in *.
  - destruct H as (w2 & -> & Hs). simpl.
    destruct (_ =? _)%num; unfold schedule in Hs;
      injection Hs as _ _ _ _ -> _; reflexivity.
  - unfold schedule in H; injection H as _ _ _ _ -> _. reflexivity.
  - unfold schedule in H; injection H as _ _ _ _ -> _. reflexivity.
Qed.

Lemma step_startup_first end_years sigma w :
  startup_first w -> startup_first (step' end_years sigma w).2.
Proof.
  unfold startup_first. rewrite step_keeps_started.
  destruct (_next_checkpoint_years (self w)) as [next|] eqn:Enext.
  - rewrite (step_calls end_years sigma w next Enext).
    destruct (_model_started (self w)).
    + intros [rest ->]. eexists. reflexivity.
    + intros (_ & _ & _ & ?). congruence.
  - pose proof (step_schedule end_years sigma w) as H.
    rewrite Enext in H. rewrite H. simpl. rewrite Enext. exact id.
Qed.

Lemma startup_counted_first w :
  counted w /\ startup_first w ->
  counted (_startup' w).2 /\
  startup_first (_startup' w).2.
Proof.
  intros [Hc Hf]. pose proof (startup_schedule w) as H. cbv zeta in H.
  destruct (_startup' w) as [r w1]; simpl in *.
  assert (Hsame : schedule w1 = schedule w -> counted w1 /\ startup_first w1).
  { unfold schedule, counted, startup_first.
    intros Hs; injection Hs as -> -> -> _ -> ->. auto. }
  destruct r as [[]|e|]; auto.
  destruct H as [Hs H]. unfold schedule in H.
  injection H as Ht Hn Hnx Hi Hst Hcalls.
  unfold startup_first in Hf. rewrite Hs in Hf.
  destruct Hf as (Hnil & Hzero & Htime & _).
  split.
  - eapply counted_snoc_checkpoint; eauto.
  - unfold startup_first. rewrite Hst, Hcalls, Hnil, Hzero, Htime.
    eexists. reflexivity.
Qed.

(** *** Claims on the schedule *)

(** C1.  In an iteration the checkpoint callback is called if and only
    if the update callback returned exactly the [max_seconds] it was
    asked for: the calls of an iteration are the update call followed by
    at most one checkpoint call, a checkpoint call implies
    [dt_seconds == max_seconds], and an iteration that completes with
    [dt_seconds == max_seconds] makes the call.  Over the whole life of a
    freshly configured model the numbers handed to the checkpoint
    callback are 0, 1, 2, ... in this order, [_checkpoint_number] being
    the next one, and the first call of all is checkpoint 0 at time 0,
    made by [_startup] before any update. *)
Theorem checkpoint_iff_full_window_numbered_from_zero
    (u : Underworld num V U) (b : Badlands num) (interval : num)
    (mmap : list (list Z)) (disable : bool) :
  (forall end_years sigma (w : World num V U) next,
      _next_checkpoint_years (self w) = Some next ->
      let max_seconds := max_seconds_of end_years (self w) next in
      let dt_seconds := (update_function (self w) max_seconds).1 in
      let r := step' end_years sigma w in
      exists fired : list (Event num),
        calls r.2 = calls w ++ UpdateCall max_seconds dt_seconds :: fired /\
        (fired = [] \/
         fired = [CheckpointCall (_checkpoint_number (self w))
                                 (time_years (self w))]) /\
        (fired <> [] -> (dt_seconds =? max_seconds)%num = true) /\
        (r.1 = Returned tt -> (dt_seconds =? max_seconds)%num = true ->
         fired <> []))
  /\
  (forall w : World num V U,
      reachable' (configure u b interval mmap disable) w ->
      (exists k : nat,
          _checkpoint_number (self w) = Z.of_nat k /\
          checkpoint_numbers (calls w) = Z.of_nat <$> seq 0 k) /\
      (forall e rest, calls w = e :: rest -> e = CheckpointCall 0 (of_int 0))).
Proof.
  split.
  - intros end_years sigma w next Enext max_seconds dt_seconds r.
    pose proof (step_calls end_years sigma w next Enext) as Hc.
    cbv zeta in Hc. fold max_seconds dt_seconds r in Hc.
    eexists. split; [exact Hc|].
    destruct (is_returned r.1) eqn:Hr, (dt_seconds =? max_seconds)%num;
      simpl; repeat split; auto; try congruence.
    intros Hret. rewrite Hret in Hr. discriminate.
  - intros w Hreach.
    assert (Hinv : counted w /\ startup_first w).
    { revert w Hreach. apply reachable_preserves.
      - split; [exists O; split; reflexivity|].
        unfold startup_first; simpl. auto.
      - apply startup_counted_first.
      - intros end_years sigma w [Hc Hf]. split.
        + apply step_counted, Hc.
        + apply step_startup_first, Hf. }
    destruct Hinv as [Hc Hf]. split; [exact Hc|].
    intros e rest Hcalls. unfold startup_first in Hf.
    destruct (_model_started (self w)).
    + destruct Hf as [rest' Hf]. congruence.
    + destruct Hf as [Hf _]. congruence.
Qed.

(** C8.  A completed iteration leaves the clock at its value before the
    iteration plus [dt_seconds / SECONDS_PER_YEAR], where [dt_seconds]
    is what the update callback returned (not the [max_seconds] it was
    asked for); the clock is assigned once, by the last statement of the
    iteration: the state [w2] before that statement still shows the old
    clock. *)
Theorem clock_advances_by_returned_seconds
    end_years sigma (w w' : World num V U) :
  step' end_years sigma w = (Returned tt, w') ->
  exists next w2,
    _next_checkpoint_years (self w) = Some next /\
    let max_seconds := max_seconds_of end_years (self w) next in
    let dt_seconds := (update_function (self w) max_seconds).1 in
    time_years (self w') =
      (time_years (self w) + dt_seconds / SECONDS_PER_YEAR)%num /\
    time_years (self w2) = time_years (self w) /\
    w' = advance_clock (dt_seconds / SECONDS_PER_YEAR) w2.
Proof.
  intros Hstep. pose proof (step_schedule end_years sigma w) as H.
  rewrite Hstep in H.
  destruct (_next_checkpoint_years (self w)) as [next|]; [|discriminate].
  cbv zeta in H. simpl in H. exists next.
  destruct (_ <=? _)%num; [|discriminate].
  destruct H as (w2 & -> & Hs). exists w2. split; [reflexivity|].
  cbv zeta.
  assert (Ht : time_years (self w2) = time_years (self w)).
  { destruct (_ =? _)%num; unfold schedule in Hs;
      injection Hs as -> _ _ _ _ _; reflexivity. }
  split; [|split]; [|exact Ht|reflexivity].
  unfold advance_clock. simpl. rewrite Ht. reflexivity.
Qed.

(** C7.  When, in some iteration of a run, the update callback returns
    more seconds than the [max_seconds] it was asked for, the run stops
    there with an [AssertionError] whose message carries [max_seconds]
    and the returned [dt_seconds]; the state it leaves is the state at
    the start of that iteration as the callback itself left Underworld:
    clock, checkpoint number, next checkpoint, surface tracers and the
    Badlands model with its displacement table are those of the start
    of the iteration. *)
Theorem overrun_halts_without_mutation `{!LtExcludesGe A}
    end_years sigma k (w0 w : World num V U) next :
  iterations' end_years sigma k w0 w ->
  (time_years (self w) <? end_years)%num = true ->
  _next_checkpoint_years (self w) = Some next ->
  let max_seconds := max_seconds_of end_years (self w) next in
  let dt_seconds := (update_function (self w) max_seconds).1 in
  (max_seconds <? dt_seconds)%num = true ->
  exists w',
    (forall fuel,
        while_loop' (k + S fuel) end_years sigma w0 =
        (Raised (AssertionError (MsgMaximumDt max_seconds dt_seconds)), w')) /\
    time_years (self w') = time_years (self w) /\
    _checkpoint_number (self w') = _checkpoint_number (self w) /\
    _next_checkpoint_years (self w') = _next_checkpoint_years (self w) /\
    _surface_tracers (self w') = _surface_tracers (self w) /\
    badlands_model (self w') = badlands_model (self w) /\
    _disp_inserted (self w') = _disp_inserted (self w) /\
    calls w' = calls w ++ [UpdateCall max_seconds dt_seconds].
Proof.
  intros Hit Hlt Enext max_seconds dt_seconds Hover.
  exists (after_update' max_seconds w). split; [|repeat split].
  intros fuel. rewrite (while_loop_iterations _ _ _ _ _ Hit).
  rewrite while_loop_unfold, Hlt. unfold bind.
  pose proof (step_schedule end_years sigma w) as H.
  rewrite Enext in H. cbv zeta in H. fold max_seconds dt_seconds in H.
  rewrite (lt_excludes_ge _ _ Hover) in H. rewrite H. reflexivity.
Qed.
End Schedule.

(* ================================================================= *)
(** ** Reclassification of the particles *)

Section Materials.
Context {A : Arith} {V U : Type}.
Variable griddata : list (num * num) -> list num -> num * num -> num.

Local Abbreviation _determine_particle_state' :=
  (_determine_particle_state (V:=V) (U:=U) griddata).
Local Abbreviation _update_material_types' :=
  (_update_material_types (V:=V) (U:=U) griddata).
Local Abbreviation particle_flags' := (particle_flags (V:=V) (U:=U) griddata).

Lemma determine_particle_state_run (w : World num V U) :
  _determine_particle_state' w = (Returned (particle_flags' w), w).
Proof.
  unfold _determine_particle_state, particle_flags. autorewrite with py.
  unfold ret. do 2 f_equal.
  induction (particleCoordinates (uw (self w))) as [|p l IH]; simpl;
    [reflexivity|f_equal; exact IH].
Qed.

Lemma with_material_index_same (w : World num V U) :
  with_material_index (material_index (uw (self w))) w = w.
Proof. destruct w as [[[] ] ]. reflexivity. Qed.

Lemma with_material_index_twice d1 d2 (w : World num V U) :
  with_material_index d2 (with_material_index d1 w) = with_material_index d2 w.
Proof. reflexivity. Qed.

Local Ltac run_body :=
  repeat progress
    (autorewrite with py;
     cbn [self calls material_map uw material_index set_uw set_material_index];
     repeat match goal with
            | H : _ !! _ = _ |- _ => rewrite H
            end).

Lemma reclassify_run material_flags index (w : World num V U) :
  reclassify material_flags index w =
  match material_index (uw (self w)) !! index with
  | None => (Raised IndexError, w)
  | Some material =>
      match reclassify_value (material_map (self w)) material_flags
                             index material with
      | Returned v =>
          (Returned tt,
           with_material_index (<[index := v]> (material_index (uw (self w)))) w)
      | Raised e => (Raised e, w)
      | OutOfFuel => (OutOfFuel, w)
      end
  end.
Proof.
  unfold reclassify, item, write_material, reclassify_value.
  destruct (material_index (uw (self w)) !! index) as [m|] eqn:Em;
    [|run_body; reflexivity].
  assert (Hlt : (index < length (material_index (uw (self w))))%nat)
    by (eapply lookup_lt_Some; eassumption).
  assert (Hsame : with_material_index
                    (<[index:=m]> (material_index (uw (self w)))) w = w).
  { rewrite list_insert_id by assumption. apply with_material_index_same. }
  destruct (material_map (self w) !! 0%nat) as [air|] eqn:E0;
    [|run_body; reflexivity].
  destruct (material_map (self w) !! 1%nat) as [sed|] eqn:E1; run_body.
  2:{ destruct (bool_decide (m ∈ air)); [|run_body; reflexivity].
      destruct (material_flags !! index) as [[]|] eqn:Ef;
        run_body; reflexivity. }
  destruct (bool_decide (m ∈ air));
    [destruct (material_flags !! index) as [[]|] eqn:Ef;
       [| |run_body; reflexivity]|].
  - (* air, flagged sediment *)
    destruct (sed !! 0%nat) as [v|] eqn:Ev; [|run_body; reflexivity].
    run_body. rewrite list_lookup_insert_eq by assumption. run_body.
    destruct (bool_decide (v ∈ sed)); run_body; reflexivity.
  - (* air, flagged air *)
    run_body.
    destruct (bool_decide (m ∈ sed)); run_body; simpl.
    + destruct (air !! 0%nat) eqn:Ea; run_body; reflexivity.
    + rewrite Hsame. reflexivity.
  - (* not air *)
    run_body.
    destruct (bool_decide (m ∈ sed)); run_body; simpl.
    + destruct (material_flags !! index) as [[]|] eqn:Ef; run_body; simpl;
        rewrite ?Hsame; try reflexivity.
      destruct (air !! 0%nat) eqn:Ea; run_body; reflexivity.
    + rewrite Hsame. reflexivity.
Qed.

Lemma for_each_reclassify material_flags (rest : list Z) :
  forall (done : list Z) (w : World num V U),
    material_index (uw (self w)) = done ++ rest ->
    let r := for_each (seq (length done) (length rest))
                      (reclassify material_flags) w in
    match reclassify_from (material_map (self w)) material_flags
                          (length done) rest with
    | Returned rest' =>
        r = (Returned tt, with_material_index (done ++ rest') w)
    | Raised e => r.1 = Raised e
    | OutOfFuel => r.1 = OutOfFuel
    end.
Proof.
  induction rest as [|m rest IH]; intros done w Hdata; simpl.
  - rewrite <- Hdata, with_material_index_same. reflexivity.
  - unfold bind. rewrite reclassify_run, Hdata.
    rewrite list_lookup_middle by reflexivity.
    destruct (reclassify_value _ _ _ m) as [v|e|]; simpl; try reflexivity.
    specialize (IH (done ++ [v])
                   (with_material_index (<[length done:=v]> (done ++ m :: rest)) w)).
    rewrite length_app in IH. simpl in IH.
    replace (length done + 1)%nat with (S (length done)) in IH by lia.
    assert (Hins : <[length done:=v]> (done ++ m :: rest)
                   = (done ++ [v]) ++ rest).
    { rewrite insert_app_r_alt by lia. rewrite Nat.sub_diag. simpl.
      rewrite <- app_assoc. reflexivity. }
    specialize (IH Hins).
    destruct (reclassify_from _ _ _ rest) as [rest'|e|]; simpl;
      [|exact IH|exact IH].
    rewrite IH, with_material_index_twice, <- app_assoc. reflexivity.
Qed.

(** [_update_material_types] is the pure loop on [material_index.data]
    with the flags of the current state. *)
Lemma update_material_types_run (w : World num V U) :
  let r := _update_material_types' w in
  if disable_material_changes (self w) then r = (Returned tt, w)
  else
    match reclassify_from (material_map (self w)) (particle_flags' w)
                          0 (material_index (uw (self w))) with
    | Returned d => r = (Returned tt, with_material_index d w)
    | Raised e => r.1 = Raised e
    | OutOfFuel => r.1 = OutOfFuel
    end.
Proof.
  cbv zeta.
  destruct (disable_material_changes (self w)) eqn:Ed.
  { unfold _update_material_types. autorewrite with py. rewrite Ed.
    reflexivity. }
  assert (Hrun : _update_material_types' w =
                 for_each (seq 0 (length (material_index (uw (self w)))))
                          (reclassify (particle_flags' w)) w).
  { unfold _update_material_types. autorewrite with py. rewrite Ed.
    unfold bind at 1. rewrite determine_particle_state_run.
    autorewrite with py. reflexivity. }
  rewrite Hrun.
  exact (for_each_reclassify (particle_flags' w)
           (material_index (uw (self w))) [] w eq_refl).
Qed.

(** *** The pure loop *)

Lemma reclassify_from_lookup mmap material_flags (todo : list Z) :
  forall k d,
    reclassify_from mmap material_flags k todo = Returned d ->
    length d = length todo /\
    forall i m,
      todo !! i = Some m ->
      exists v, d !! i = Some v /\
                reclassify_value mmap material_flags (k + i) m = Returned v.
Proof.
  induction todo as [|m0 todo IH]; intros k d H; simpl in H.
  - injection H as <-. split; [reflexivity|]. intros i m Hi. discriminate.
  - destruct (reclassify_value mmap material_flags k m0) as [v0|e|] eqn:E0;
      try discriminate.
    destruct (reclassify_from mmap material_flags (S k) todo) as [d'|e|]
      eqn:E; try discriminate.
    injection H as <-. destruct (IH _ _ E) as [Hlen Hl].
    split; [simpl; congruence|].
    intros [|i] m Hi; simpl in *.
    + injection Hi as <-. exists v0. rewrite Nat.add_0_r. auto.
    + destruct (Hl i m Hi) as (v & Hv & Hr). exists v.
      replace (k + S i)%nat with (S k + i)%nat by lia. auto.
Qed.

Lemma reclassify_from_pointwise mmap material_flags (todo : list Z) :
  forall k d,
    length d = length todo ->
    (forall i m, todo !! i = Some m ->
       exists v, d !! i = Some v /\
                 reclassify_value mmap material_flags (k + i) m = Returned v) ->
    reclassify_from mmap material_flags k todo = Returned d.
Proof.
  induction todo as [|m0 todo IH]; intros k [|v0 d] Hlen H;
    simpl in *; try discriminate; try reflexivity.
  destruct (H O m0 eq_refl) as (v & Hv & Hr). simpl in Hv.
  injection Hv as <-. rewrite Nat.add_0_r in Hr. rewrite Hr.
  rewrite (IH (S k) d); [reflexivity|lia|].
  intros i m Hi. destruct (H (S i) m Hi) as (v & Hv & Hr'). exists v.
  replace (S k + i)%nat with (k + S i)%nat by lia. auto.
Qed.

Local Ltac split_value :=
  repeat first
    [ progress simplify_eq/=
    | case_bool_decide
    | match goal with
      | H : context [match ?l !! ?i with _ => _ end] |- _ =>
          destruct (l !! i) eqn:?
      | |- context [match ?l !! ?i with _ => _ end] =>
          destruct (l !! i) eqn:?
      | H : context [if ?b then _ else _] |- _ => destruct b eqn:?
      | |- context [if ?b then _ else _] => destruct b eqn:?
      | H : ?l !! _ = Some ?x, H' : ?x ∉ ?l |- _ =>
          exfalso; apply H'; eapply list_elem_of_lookup_2; exact H
      end ].

(** A second pass over an entry finds nothing left to write. *)
Lemma reclassify_value_idem mmap material_flags i (m v : Z) :
  reclassify_value mmap material_flags i m = Returned v ->
  reclassify_value mmap material_flags i v = Returned v.
Proof.
  unfold reclassify_value. intros H.
  destruct (mmap !! 0%nat) as [air|]; [|discriminate].
  destruct (mmap !! 1%nat) as [sed|];
    destruct (material_flags !! i) as [[]|]; simpl in *;
    split_value; try reflexivity; try congruence.
Qed.

Lemma reclassify_from_idem mmap material_flags k (todo d : list Z) :
  reclassify_from mmap material_flags k todo = Returned d ->
  reclassify_from mmap material_flags k d = Returned d.
Proof.
  intros H. destruct (reclassify_from_lookup _ _ _ _ _ H) as [Hlen Hl].
  apply reclassify_from_pointwise; [reflexivity|].
  intros i v Hv.
  destruct (lookup_lt_is_Some_2 todo i) as [m Hm].
  { rewrite <- Hlen. eapply lookup_lt_Some; eassumption. }
  destruct (Hl i m Hm) as (v' & Hv' & Hr).
  exists v. split; [assumption|].
  assert (v' = v) as -> by congruence.
  eapply reclassify_value_idem; eassumption.
Qed.

(** With a two-set material map whose sets are not empty and a flag for
    the particle, the loop body computes [reclassified]. *)
Lemma reclassify_value_reclassified mmap material_flags i (m : Z) flag
    air sediment a0 s0 :
  mmap !! 0%nat = Some air -> mmap !! 1%nat = Some sediment ->
  air !! 0%nat = Some a0 -> sediment !! 0%nat = Some s0 ->
  material_flags !! i = Some flag ->
  reclassify_value mmap material_flags i m =
  Returned (reclassified air sediment m flag).
Proof.
  intros E0 E1 Ea Es Ef. unfold reclassify_value, reclassified.
  rewrite E0, E1, Ef, !head_lookup, Ea, Es. simpl.
  destruct flag; split_value; try reflexivity; try congruence.
Qed.

Lemma reclassify_from_total mmap material_flags air sediment a0 s0
    (todo : list Z) :
  mmap !! 0%nat = Some air -> mmap !! 1%nat = Some sediment ->
  air !! 0%nat = Some a0 -> sediment !! 0%nat = Some s0 ->
  forall k,
    (k + length todo <= length material_flags)%nat ->
    reclassify_from mmap material_flags k todo =
    Returned (zip_with (reclassified air sediment) todo (drop k material_flags)).
Proof.
  intros E0 E1 Ea Es.
  induction todo as [|m todo IH]; intros k Hk; simpl in *; [reflexivity|].
  destruct (lookup_lt_is_Some_2 material_flags k) as [flag Hf]; [lia|].
  rewrite (reclassify_value_reclassified _ _ _ _ _ _ _ _ _ E0 E1 Ea Es Hf).
  rewrite IH by lia. rewrite (drop_S _ _ _ Hf). reflexivity.
Qed.

Lemma particle_flags_length (w : World num V U) :
  length (particle_flags' w) = length (particleCoordinates (uw (self w))).
Proof. unfold particle_flags. apply length_map. Qed.

Lemma particle_flags_lookup (w : World num V U) i x y z :
  particleCoordinates (uw (self w)) !! i = Some (x, y, z) ->
  particle_flags' w !! i =
  Some (z <? griddata (tinMesh_vertices (recGrid (badlands_model (self w))))
                      (elevation (badlands_model (self w))) (x, y))%num.
Proof.
  intros H. unfold particle_flags. rewrite list_lookup_fmap.
  unfold vec3 in *. rewrite H. reflexivity.
Qed.

(** With a material map of two non-empty sets and a flag for every
    identifier, [_update_material_types] returns and has applied
    [reclassified] to every identifier. *)
Lemma update_material_types_reclassified
    (w : World num V U) (air sediment : list Z) (a0 s0 : Z) :
  disable_material_changes (self w) = false ->
  material_map (self w) !! 0%nat = Some air ->
  material_map (self w) !! 1%nat = Some sediment ->
  air !! 0%nat = Some a0 ->
  sediment !! 0%nat = Some s0 ->
  length (particleCoordinates (uw (self w))) =
    length (material_index (uw (self w))) ->
  _update_material_types' w =
  (Returned tt,
   with_material_index
     (zip_with (reclassified air sediment)
               (material_index (uw (self w))) (particle_flags' w)) w).
Proof.
  intros Hd E0 E1 Ea Es Hlen.
  pose proof (update_material_types_run w) as Hrun. cbv zeta in Hrun.
  rewrite Hd in Hrun.
  rewrite (reclassify_from_total _ _ _ _ _ _ _ E0 E1 Ea Es) in Hrun
    by (rewrite particle_flags_length; simpl; lia).
  rewrite drop_0 in Hrun. exact Hrun.
Qed.

(** *** Claims on the reclassification *)

(** C5.  The classifier flags particle [i] sediment exactly when its z
    coordinate is strictly below the elevation interpolated at its
    (x, y).  With a material map of two non-empty sets and one
    identifier per particle, [_update_material_types] then returns,
    changes nothing but [material_index.data], and writes on
    transitions only: an identifier of the air set whose particle is
    flagged sediment becomes the first element of the sediment set, an
    identifier of the sediment set whose particle is flagged air becomes
    the first element of the air set, and every other identifier is
    left as it is. *)
Theorem classification_writes_on_transitions_only
    (w : World num V U) (air sediment : list Z) (a0 s0 : Z) :
  disable_material_changes (self w) = false ->
  material_map (self w) !! 0%nat = Some air ->
  material_map (self w) !! 1%nat = Some sediment ->
  air !! 0%nat = Some a0 ->
  sediment !! 0%nat = Some s0 ->
  length (particleCoordinates (uw (self w))) =
    length (material_index (uw (self w))) ->
  exists (flags : list bool) (d : list Z),
    _determine_particle_state' w = (Returned flags, w) /\
    (forall i x y z,
        particleCoordinates (uw (self w)) !! i = Some (x, y, z) ->
        flags !! i =
        Some (z <? griddata
                     (tinMesh_vertices (recGrid (badlands_model (self w))))
                     (elevation (badlands_model (self w))) (x, y))%num) /\
    _update_material_types' w = (Returned tt, with_material_index d w) /\
    length d = length (material_index (uw (self w))) /\
    forall i m flag,
      material_index (uw (self w)) !! i = Some m ->
      flags !! i = Some flag ->
      (m ∈ air -> flag = true -> d !! i = Some s0) /\
      (m ∈ sediment -> flag = false -> d !! i = Some a0) /\
      (~ (m ∈ air /\ flag = true) -> ~ (m ∈ sediment /\ flag = false) ->
       d !! i = Some m).
Proof.
  intros Hd E0 E1 Ea Es Hlen.
  exists (particle_flags' w).
  exists (zip_with (reclassified air sediment)
                   (material_index (uw (self w))) (particle_flags' w)).
  split; [apply determine_particle_state_run|].
  split; [apply particle_flags_lookup|].
  split; [apply (update_material_types_reclassified w air sediment a0 s0);
          assumption|].
  split.
  { rewrite length_zip_with, particle_flags_length. lia. }
  intros i m flag Hm Hf.
  assert (Hz : zip_with (reclassified air sediment)
                 (material_index (uw (self w))) (particle_flags' w) !! i
               = Some (reclassified air sediment m flag)).
  { rewrite lookup_zip_with, Hm. simpl. rewrite Hf. reflexivity. }
  rewrite Hz. unfold reclassified. rewrite !head_lookup, Ea, Es. simpl.
  repeat split.
  - intros Hin ->. rewrite bool_decide_eq_true_2 by assumption. reflexivity.
  - intros Hin ->. rewrite andb_false_r.
    rewrite bool_decide_eq_true_2 by assumption. reflexivity.
  - intros H1 H2. destruct flag; simpl; rewrite ?andb_true_r, ?andb_false_r.
    + case_bool_decide; [exfalso; auto|reflexivity].
    + case_bool_decide; [exfalso; auto|reflexivity].
Qed.

(** C6.  Reclassification is idempotent: when [_update_material_types]
    has returned, calling it again on the state it left (same surface
    elevations, same particle positions) returns and leaves that state
    as it is.  No assumption on the material map or on the identifiers
    is needed. *)
Theorem reclassification_idempotent (w w1 : World num V U) :
  _update_material_types' w = (Returned tt, w1) ->
  _update_material_types' w1 = (Returned tt, w1).
Proof.
  intros H1. pose proof (update_material_types_run w) as Hrun.
  cbv zeta in Hrun. rewrite H1 in Hrun.
  destruct (disable_material_changes (self w)) eqn:Hd.
  - injection Hrun as <-. exact H1.
  - destruct (reclassify_from _ _ _ _) as [d|e|] eqn:Hfrom;
      try discriminate.
    injection Hrun as ->.
    pose proof (update_material_types_run (with_material_index d w)) as H2.
    cbv zeta in H2. simpl in H2. rewrite Hd in H2.
    change (particle_flags' (with_material_index d w))
      with (particle_flags' w) in H2.
    rewrite (reclassify_from_idem _ _ _ _ _ Hfrom) in H2.
    rewrite H2. reflexivity.
Qed.
End Materials.

(* ================================================================= *)
(** ** The displacements handed to Badlands *)

(** Run a method symbolically in hypothesis [E], one case per branch. *)
Ltac run_in E :=
  repeat
    (autorewrite with py in E;
     cbn [self calls uw badlands_model checkpoint_interval material_map
          time_years _model_started _disp_inserted _checkpoint_number
          _next_checkpoint_years disable_material_changes np_mesh
          _surface_tracers set_uw set_badlands_model set_time_years
          set_model_started set_disp_inserted set_checkpoint_number
          set_next_checkpoint_years set_np_mesh set_surface_tracers
          input recGrid force elevation set_input set_force
          T_disp injected_disps merge3d next_display
          set_T_disp set_injected_disps set_merge3d set_next_display] in E;
     match type of E with
     | context [match ?o with Some _ => _ | None => _ end] =>
         destruct o eqn:?
     | context [if ?b then _ else _] => destruct b eqn:?
     end).

Section Displacements.
Context {A : Arith} {V U : Type}.
Variable update_function : LinkageModel num V U -> num -> num * Underworld num V U.
Variable checkpoint_function : LinkageModel num V U -> Z -> num -> Underworld num V U.
Variable integrate : V -> num -> list vec3 -> list vec3.
Variable evaluate : V -> list vec3 -> list vec3.
Variable run_to_time : Badlands num -> num -> Badlands num.
Variable griddata : list (num * num) -> list num -> num * num -> num.
Variable gaussian_filter : list (list num) -> num -> list (list num).

Local Abbreviation uw_to_bl' :=
  (uw_to_bl (U:=U) integrate evaluate gaussian_filter).
Local Abbreviation bl_to_uw' := (bl_to_uw (V:=V) (U:=U) run_to_time griddata).
Local Abbreviation couple' :=
  (couple (U:=U) integrate evaluate run_to_time griddata gaussian_filter).
Local Abbreviation step' :=
  (step update_function checkpoint_function integrate evaluate run_to_time
        griddata gaussian_filter).
Local Abbreviation _startup' := (_startup checkpoint_function griddata).
Local Abbreviation after_update' := (after_update update_function).
Local Abbreviation iterations' :=
  (iterations update_function checkpoint_function integrate evaluate
              run_to_time griddata gaussian_filter).
Local Abbreviation reachable' :=
  (reachable update_function checkpoint_function integrate evaluate
             run_to_time griddata gaussian_filter).
Local Abbreviation tracer_disp_of' := (tracer_disp_of (U:=U) integrate evaluate).

(** What a returning [uw_to_bl] has done to Badlands. *)
Lemma uw_to_bl_returned dt_seconds dt_years sigma (w w' : World num V U) :
  uw_to_bl' dt_seconds dt_years sigma w = (Returned tt, w') ->
  _disp_inserted (self w') = true /\
  ((sigma =? of_int 0)%num = true ->
   exists tracers,
     _surface_tracers (self w) = Some tracers /\
     injected_disps (force (badlands_model (self w'))) =
     Some (tracer_disp_of' dt_seconds dt_years (self w) tracers)).
Proof.
  intros E.
  unfold uw_to_bl, _inject_badlands_displacement,
    _inject_badlands_displacement_smooth, set_merge, record_interval,
    write_T_disp_row0, item, modify_force, reshape2, reshape1,
    assign_column in E.
  run_in E; try discriminate; injection E as <-; simpl;
    (split; [first [reflexivity|assumption]|]); intros Hs; try discriminate;
    eexists; (split; [first [reflexivity|eassumption]|]); reflexivity.
Qed.

(** [couple] is [uw_to_bl] followed by [bl_to_uw]; what comes after it
    in a completed iteration leaves Badlands and [_disp_inserted]
    alone. *)
Lemma step_returned end_years sigma (w w' : World num V U) :
  step' end_years sigma w = (Returned tt, w') ->
  exists next w1 w2,
    _next_checkpoint_years (self w) = Some next /\
    let max_seconds := max_seconds_of end_years (self w) next in
    let dt_seconds := (update_function (self w) max_seconds).1 in
    let dt_years := (dt_seconds / SECONDS_PER_YEAR)%num in
    uw_to_bl' dt_seconds dt_years sigma (after_update' max_seconds w)
      = (Returned tt, w1) /\
    bl_to_uw' dt_years w1 = (Returned tt, w2) /\
    badlands_model (self w') = badlands_model (self w2) /\
    _disp_inserted (self w') = _disp_inserted (self w2).
Proof.
  intros E. unfold step in E. autorewrite with py in E.
  destruct (_next_checkpoint_years (self w)) as [next|] eqn:Enext;
    simpl in E; [|discriminate].
  exists next.
  autorewrite with py in E. fold (max_seconds_of end_years (self w) next) in E.
  cbv zeta.
  set (max_seconds := max_seconds_of end_years (self w) next) in *.
  unfold bind at 1 in E. unfold call_update_function at 1 in E.
  unfold after_update.
  destruct (update_function (self w) max_seconds) as [dt_seconds u] eqn:Eup.
  simpl.
  destruct (dt_seconds <=? max_seconds)%num; simpl in E;
    autorewrite with py in E; [|discriminate].
  unfold couple in E. rewrite run_bind_bind in E. unfold bind at 1 in E.
  destruct (uw_to_bl' _ _ _ _) as [[[]|e|] w1] eqn:E1; try discriminate.
  unfold bind at 1 in E.
  destruct (bl_to_uw' _ _) as [[[]|e|] w2] eqn:E2; try discriminate.
  exists w1, w2. split; [reflexivity|]. split; [reflexivity|].
  split; [exact E2|].
  run_in E; try discriminate; injection E as <-; split; reflexivity.
Qed.

Lemma always_keeps_disp_inserted_bl_to_uw dt_years (w : World num V U) :
  _disp_inserted (self (bl_to_uw' dt_years w).2) = _disp_inserted (self w).
Proof.
  assert (H : keeps (fun w : World num V U => _disp_inserted (self w))
                    (bl_to_uw' dt_years)).
  { unfold bl_to_uw. keeps_methods. }
  apply H.
Qed.

(** C9.  With [sigma == 0] the displacement field handed to Badlands
    is the tracer displacement field as computed from the velocity
    samples, [tracer_velocity_mps * SECONDS_PER_YEAR * dt_years], with no
    smoothing applied: when [uw_to_bl] returns, [injected_disps] holds
    exactly that field, whatever [gaussian_filter] is, and that state is
    the one Badlands is run from.  In a completed iteration of the loop
    this is the field of the velocities sampled after the update
    callback, over the [dt_seconds] it returned. *)
Theorem sigma_zero_injects_unsmoothed_displacement :
  (forall dt_seconds dt_years sigma (w w' : World num V U),
      (sigma =? of_int 0)%num = true ->
      uw_to_bl' dt_seconds dt_years sigma w = (Returned tt, w') ->
      exists tracers,
        _surface_tracers (self w) = Some tracers /\
        injected_disps (force (badlands_model (self w'))) =
        Some (tracer_disp_of' dt_seconds dt_years (self w) tracers) /\
        couple' dt_seconds dt_years sigma w = bl_to_uw' dt_years w')
  /\
  (forall end_years sigma (w w' : World num V U),
      (sigma =? of_int 0)%num = true ->
      step' end_years sigma w = (Returned tt, w') ->
      exists next tracers w1,
        _next_checkpoint_years (self w) = Some next /\
        _surface_tracers (self w) = Some tracers /\
        let max_seconds := max_seconds_of end_years (self w) next in
        let dt_seconds := (update_function (self w) max_seconds).1 in
        let dt_years := (dt_seconds / SECONDS_PER_YEAR)%num in
        uw_to_bl' dt_seconds dt_years sigma (after_update' max_seconds w)
          = (Returned tt, w1) /\
        injected_disps (force (badlands_model (self w1))) =
        Some (tracer_disp_of' dt_seconds dt_years
                (self (after_update' max_seconds w)) tracers)).
Proof.
  split.
  - intros dt_seconds dt_years sigma w w' Hsigma E.
    destruct (uw_to_bl_returned _ _ _ _ _ E) as [_ H].
    destruct (H Hsigma) as (tracers & Ht & Hd).
    exists tracers. repeat split; [exact Ht|exact Hd|].
    unfold couple, bind. rewrite E. reflexivity.
  - intros end_years sigma w w' Hsigma E.
    destruct (step_returned _ _ _ _ E)
      as (next & w1 & w2 & Enext & H1 & _).
    cbv zeta in H1.
    destruct (uw_to_bl_returned _ _ _ _ _ H1) as [_ H].
    destruct (H Hsigma) as (tracers & Ht & Hd).
    exists next, tracers, w1. repeat split; assumption.
Qed.

(** *** The rows of the displacement table *)

Lemma record_interval_keeps_foreign_rows time dt :
  keeps (V:=V) (U:=U) foreign_rows (record_interval time dt).
Proof.
  intros w. unfold unchanged.
  destruct (record_interval time dt w) as [r w'] eqn:E. simpl.
  unfold record_interval, write_T_disp_row0, item, modify_force in E.
  run_in E; injection E as <- <-;
    unfold foreign_rows, displacement_rows; simpl;
    rewrite ?length_insert;
    repeat match goal with H : _disp_inserted _ = _ |- _ => rewrite H end;
    lia.
Qed.

(** The two branches of the "kludge": the first call puts a row on top
    of the table, a later call overwrites the two bounds of row 0. *)
Lemma record_interval_first time dt (w : World num V U) :
  _disp_inserted (self w) = false ->
  let r := record_interval time dt w in
  r.1 = Returned tt /\
  _disp_inserted (self r.2) = true /\
  T_disp (force (badlands_model (self r.2))) =
  (time, (time + dt)%num) :: T_disp (force (badlands_model (self w))).
Proof.
  intros H. unfold record_interval, modify_force. autorewrite with py.
  rewrite H. autorewrite with py. repeat split.
Qed.

Lemma record_interval_later time dt (w : World num V U) row rest :
  _disp_inserted (self w) = true ->
  T_disp (force (badlands_model (self w))) = row :: rest ->
  let r := record_interval time dt w in
  r.1 = Returned tt /\
  _disp_inserted (self r.2) = true /\
  T_disp (force (badlands_model (self r.2))) =
  (time, (time + dt)%num) :: rest.
Proof.
  intros H Hrows.
  unfold record_interval, write_T_disp_row0, item, modify_force.
  autorewrite with py. rewrite H. autorewrite with py. rewrite Hrows. simpl.
  autorewrite with py. simpl. autorewrite with py. simpl.
  repeat split. exact H.
Qed.

Lemma call_update_keeps_foreign_rows max_seconds :
  keeps foreign_rows (call_update_function update_function max_seconds).
Proof.
  intros w. unfold call_update_function.
  destruct (update_function (self w) max_seconds). reflexivity.
Qed.

Lemma call_checkpoint_keeps_foreign_rows n t :
  keeps foreign_rows (call_checkpoint_function checkpoint_function n t).
Proof. intros w. reflexivity. Qed.

(** Badlands keeps the rows of the table when it runs. *)
Hypothesis run_to_time_rows :
  forall b t,
    length (T_disp (force (run_to_time b t))) = length (T_disp (force b)).

Lemma step_keeps_foreign_rows end_years sigma :
  keeps foreign_rows (step' end_years sigma).
Proof using run_to_time_rows.
  unfold keeps, step, couple, uw_to_bl, bl_to_uw. unfold_methods.
  repeat lazymatch goal with
         | |- always _ (record_interval _ _) =>
             apply record_interval_keeps_foreign_rows
         | |- always _ (call_update_function _ _) =>
             apply call_update_keeps_foreign_rows
         | |- always _ (call_checkpoint_function _ _ _) =>
             apply call_checkpoint_keeps_foreign_rows
         | _ =>
             always_step
               ltac:(unfold unchanged, foreign_rows, displacement_rows; simpl;
                     rewrite ?run_to_time_rows; reflexivity)
         end.
Qed.

Lemma startup_keeps_foreign_rows : keeps foreign_rows _startup'.
Proof.
  unfold keeps, _startup. unfold_methods.
  repeat lazymatch goal with
         | |- always _ (call_checkpoint_function _ _ _) =>
             apply call_checkpoint_keeps_foreign_rows
         | _ => always_step ltac:(unfold unchanged; reflexivity)
         end.
Qed.

(** C3, as the code has it.  Whatever rows the displacement table of
    Badlands has when the model is configured stay in it: the first
    injection puts one row on top of them and every later injection
    overwrites the two bounds of that row in place.  So, provided
    Badlands itself keeps the number of rows when it runs, after any
    N >= 1 completed iterations the table has one row more than at
    configuration, whatever N. *)
Theorem displacement_table_gains_one_row
    (u : Underworld num V U) (b : Badlands num) (interval : num)
    (mmap : list (list Z)) (disable : bool)
    end_years sigma N (w w' : World num V U) :
  reachable' (configure u b interval mmap disable) w ->
  iterations' end_years sigma N w w' ->
  (1 <= N)%nat ->
  displacement_rows w' = S (length (T_disp (force b))) /\
  (forall time dt (w : World num V U),
      _disp_inserted (self w) = false ->
      T_disp (force (badlands_model (self (record_interval time dt w).2))) =
      (time, (time + dt)%num) :: T_disp (force (badlands_model (self w)))) /\
  (forall time dt (w : World num V U) row rest,
      _disp_inserted (self w) = true ->
      T_disp (force (badlands_model (self w))) = row :: rest ->
      T_disp (force (badlands_model (self (record_interval time dt w).2))) =
      (time, (time + dt)%num) :: rest).
Proof using run_to_time_rows.
  intros Hreach Hit HN. split; [|split].
  - assert (Hrows : foreign_rows w' = Z.of_nat (length (T_disp (force b)))).
    { eapply (iterations_preserves update_function checkpoint_function
                integrate evaluate run_to_time griddata gaussian_filter
                (fun w => foreign_rows w = Z.of_nat (length (T_disp (force b)))));
        [|exact Hit|].
      - intros w0 H0.
        rewrite (keeps_eq _ _ (step_keeps_foreign_rows _ _)). exact H0.
      - apply (reachable_preserves update_function checkpoint_function
                integrate evaluate run_to_time griddata gaussian_filter
                (fun w => foreign_rows w = Z.of_nat (length (T_disp (force b))))
                (configure u b interval mmap disable)); [| | |exact Hreach].
        + unfold foreign_rows, displacement_rows. simpl. lia.
        + intros w0 H0.
          rewrite (keeps_eq _ _ startup_keeps_foreign_rows). exact H0.
        + intros e s w0 H0.
          rewrite (keeps_eq _ _ (step_keeps_foreign_rows _ _)). exact H0. }
    assert (Hins : _disp_inserted (self w') = true).
    { clear Hrows Hreach. induction Hit as [|k w w1 w2 _ Hstep Hit IH];
        [lia|].
      destruct k as [|k].
      - inversion Hit; subst.
        destruct (step_returned _ _ _ _ Hstep)
          as (next & w1' & w2' & _ & H1 & H2 & _ & ->).
        cbv zeta in H1.
        apply uw_to_bl_returned in H1. destruct H1 as [H1 _].
        match type of H2 with
        | bl_to_uw' ?d _ = _ =>
            pose proof (always_keeps_disp_inserted_bl_to_uw d w1') as Hk
        end.
        rewrite H2 in Hk. simpl in Hk. congruence.
      - apply IH. lia. }
    unfold foreign_rows in Hrows. rewrite Hins in Hrows. lia.
  - intros time dt w0 H. apply (record_interval_first time dt w0 H).
  - intros time dt w0 row rest H Hrows.
    apply (record_interval_later time dt w0 row rest H Hrows).
Qed.
End Displacements.

(* ================================================================= *)
(** ** Particles outside the hull of the surface samples *)

Section OutOfHull.
Context {V U : Type}.
Local Abbreviation float := (num (Arith:=binary64)).
Variable griddata : list (float * float) -> list float -> float * float -> float.

Local Abbreviation W := (World float V U).

End OutOfHull.

(* ================================================================= *)
(** ** The schedule in exact arithmetic *)

Module ExactFacts.
Local Ltac carrier := change (@num exact) with QArith_base.Q in *.
Import QArith Lqa.
Local Open Scope Q_scope.

Section ExactSchedule.
Context {V U : Type}.
Variable update_function : LinkageModel Q V U -> Q -> Q * Underworld Q V U.
Variable checkpoint_function : LinkageModel Q V U -> Z -> Q -> Underworld Q V U.
Variable integrate : V -> Q -> list (Q * Q * Q) -> list (Q * Q * Q).
Variable evaluate : V -> list (Q * Q * Q) -> list (Q * Q * Q).
Variable run_to_time : Badlands Q -> Q -> Badlands Q.
Variable griddata : list (Q * Q) -> list Q -> Q * Q -> Q.
Variable gaussian_filter : list (list Q) -> Q -> list (list Q).

Local Abbreviation step' :=
  (step (A:=exact) update_function checkpoint_function integrate evaluate
        run_to_time griddata gaussian_filter).
Local Abbreviation _startup' :=
  (_startup (A:=exact) checkpoint_function griddata).
Local Abbreviation reachable' :=
  (reachable (A:=exact) update_function checkpoint_function integrate
             evaluate run_to_time griddata gaussian_filter).

Lemma seconds_per_year_positive : 0 < SECONDS_PER_YEAR (A:=exact).
Proof. reflexivity. Qed.

Lemma pymin_le_r (a b : Q) : pymin (A:=exact) a b <= b.
Proof.
  unfold pymin. simpl. destruct (Qle_bool a b) eqn:E; simpl.
  - apply Qle_bool_iff. exact E.
  - apply Qle_refl.
Qed.

(** In exact arithmetic the loop does what C4 says: a completed
    iteration never ends after the checkpoint that was pending when it
    started, and over the life of a freshly configured model the next
    checkpoint is always [_checkpoint_number] (1, 2, ...) times the
    checkpoint interval. *)
Theorem exact_arithmetic_keeps_the_schedule
    (u : Underworld Q V U) (b : Badlands Q) (interval : Q)
    (mmap : list (list Z)) (disable : bool) :
  (forall end_years sigma (w w' : World Q V U) next,
      _next_checkpoint_years (self w) = Some next ->
      step' end_years sigma w = (Returned tt, w') ->
      time_years (self w') <= next)
  /\
  (forall w : World Q V U,
      reachable' (configure (A:=exact) u b interval mmap disable) w ->
      forall next,
        _next_checkpoint_years (self w) = Some next ->
        (1 <= _checkpoint_number (self w))%Z /\
        next == inject_Z (_checkpoint_number (self w)) * interval).
Proof.
  split.
  - intros end_years sigma w w' next Enext Hstep.
    pose proof (step_schedule (A:=exact) update_function checkpoint_function
                  integrate evaluate run_to_time griddata gaussian_filter
                  end_years sigma w) as H.
    carrier. rewrite Enext, Hstep in H. cbv zeta in H. simpl in H.
    destruct (Qle_bool _ _) eqn:Hle; [|discriminate].
    destruct H as (w2 & -> & Hs).
    assert (Ht : time_years (self w2) = time_years (self w)).
    { destruct (Qeq_bool _ _); unfold schedule in Hs;
        injection Hs as -> _ _ _ _ _; reflexivity. }
    unfold advance_clock. simpl. rewrite Ht.
    apply Qle_bool_iff in Hle. unfold max_seconds_of in Hle. simpl in Hle.
    pose proof (pymin_le_r (end_years - time_years (self w))
                           (next - time_years (self w))) as Hmin.
    simpl in Hmin.
    pose proof seconds_per_year_positive as Hspy. simpl in Hspy.
    set (dt := (update_function (self w) _).1) in *.
    assert (Hdiv : dt / SECONDS_PER_YEAR (A:=exact)
                   <= next - time_years (self w)).
    { apply Qle_shift_div_r; [exact Hspy|].
      eapply Qle_trans; [exact Hle|].
      apply Qmult_le_compat_r; [exact Hmin|]. apply Qlt_le_weak, Hspy. }
    assert (Hfinal : forall q t nx : Q, q <= nx - t -> t + q <= nx)
      by (intros; lra).
    apply Hfinal. exact Hdiv.
  - intros w Hreach.
    assert (Hinv : on_schedule interval w).
    { revert Hreach.
      apply (reachable_preserves (A:=exact) update_function
               checkpoint_function integrate evaluate run_to_time griddata
               gaussian_filter (on_schedule interval)).
      - split; reflexivity.
      - intros w0 [Hi Hn].
        pose proof (startup_schedule (A:=exact) checkpoint_function griddata w0)
          as H. cbv zeta in H. carrier.
        destruct (_startup' w0) as [r w1]; simpl in *.
        assert (Hsame : schedule (A:=exact) w1 = schedule (A:=exact) w0 ->
                        on_schedule interval w1).
        { unfold schedule, on_schedule.
          intros Hs; injection Hs as _ -> -> -> -> _. auto. }
        destruct r as [[]|e|]; auto.
        destruct H as [Hs H]. unfold schedule in H.
        injection H as _ Hnum Hnx Hint Hst1 _.
        unfold on_schedule. rewrite Hnx, Hint, Hnum.
        destruct (_next_checkpoint_years (self w0)) as [nx|].
        + destruct Hn as (Hst & _). congruence.
        + rewrite Hn. simpl. repeat split; try assumption; try lia.
          rewrite Hi. change (inject_Z (0 + 1)) with 1. ring.
      - intros end_years sigma w0 [Hi Hn].
        pose proof (step_schedule (A:=exact) update_function
                      checkpoint_function integrate evaluate run_to_time
                      griddata gaussian_filter end_years sigma w0) as H.
        carrier.
        destruct (_next_checkpoint_years (self w0)) as [nx|] eqn:Enext.
        2:{ rewrite H. simpl. unfold on_schedule. rewrite Enext. auto. }
        cbv zeta in H. destruct Hn as (Hst & Hge & Hnx).
        assert (Hseen : forall (w1 : World Q V U) c,
          schedule (A:=exact) w1 =
            (time_years (self w0), _checkpoint_number (self w0),
                         Some nx, checkpoint_interval (self w0),
                         _model_started (self w0), c) ->
          on_schedule interval w1).
        { intros w1 c Hs. unfold schedule in Hs.
          injection Hs as _ Hnum Hn1 Hi1 Hs1 _.
          unfold on_schedule. rewrite Hn1, Hi1, Hnum, Hs1. auto. }
        destruct (nleb _ _).
        2:{ rewrite H. simpl. eapply Hseen. unfold schedule. simpl.
            rewrite Enext. reflexivity. }
        destruct (step' end_years sigma w0) as [[[]|e|] w1]; simpl in *;
          try (eapply Hseen; exact H).
        destruct H as (w2 & -> & Hs).
        destruct (Qeq_bool _ _).
        + unfold schedule in Hs. injection Hs as _ Hnum Hn1 Hi1 Hs1 _.
          unfold on_schedule, advance_clock. simpl.
          rewrite Hn1, Hi1, Hnum, Hs1.
          repeat split; try assumption; try lia.
          rewrite inject_Z_plus, Hnx, Hi. simpl. ring.
        + unfold advance_clock, on_schedule. simpl.
          apply Hseen in Hs. exact Hs. }
    intros next Enext. destruct Hinv as [_ Hinv]. rewrite Enext in Hinv.
    destruct Hinv as (_ & Hge & Hnx). split; assumption.
Qed.
End ExactSchedule.
End ExactFacts.

#[export] Instance exact_lt_excludes_ge : LtExcludesGe exact.
Proof.
  intros a b H. simpl in *.
  destruct (QArith_base.Qle_bool b a); [discriminate|reflexivity].
Qed.

(* ================================================================= *)
(** ** More on [_startup] *)

Section StartupFacts.
Context {A : Arith} {V U : Type}.
Variable checkpoint_function : LinkageModel num V U -> Z -> num -> Underworld num V U.
Variable griddata : list (num * num) -> list num -> num * num -> num.

Local Abbreviation _startup' :=
  (_startup (V:=V) (U:=U) checkpoint_function griddata).

Lemma update_material_types_keeps_beside_materials :
  keeps beside_materials (_update_material_types (V:=V) (U:=U) griddata).
Proof. keeps_methods. Qed.

Lemma startup_of_started (w : World num V U) :
  _model_started (self w) = true ->
  _startup' w = (Raised (AssertionError MsgNone), w).
Proof.
  intros H. unfold _startup. autorewrite with py. rewrite H. reflexivity.
Qed.

(** X1.  [_startup] is a one-time initialisation: it only completes on a
    model that is not started, it leaves the model started, and calling
    it again then fails its first assertion without changing
    anything. *)
Theorem startup_runs_once_only (w w' : World num V U) :
  _startup' w = (Returned tt, w') ->
  _model_started (self w) = false /\
  _model_started (self w') = true /\
  _startup' w' = (Raised (AssertionError MsgNone), w').
Proof.
  intros E.
  pose proof (startup_schedule checkpoint_function griddata w) as H.
  cbv zeta in H. rewrite E in H. simpl in H. destruct H as [Hs H].
  unfold schedule in H. injection H as _ _ _ _ Hst _.
  split; [exact Hs|]. split; [exact Hst|].
  apply startup_of_started, Hst.
Qed.

(** X2.  On a model that is not started, [_startup] checks the Badlands
    grid against the Underworld mesh before it changes anything: an
    empty [rectX] or [rectY] is numpy's [ValueError], and extents that
    differ are an [AssertionError] that carries both; in either case
    the model is as it was. *)
Theorem startup_validates_before_mutating (w : World num V U) :
  _model_started (self w) = false ->
  let rg := recGrid (badlands_model (self w)) in
  let m := mesh (uw (self w)) in
  (rectX rg = [] \/ rectY rg = [] -> _startup' w = (Raised ValueError, w)) /\
  (forall x0 x1 y0 y1 : num,
      np_min (rectX rg) = Some x0 -> np_max (rectX rg) = Some x1 ->
      np_min (rectY rg) = Some y0 -> np_max (rectY rg) = Some y1 ->
      let bl_xy := (x0, x1, y0, y1) in
      let uw_xy := ((minCoord m).1.1, (maxCoord m).1.1,
                    (minCoord m).1.2, (maxCoord m).1.2) in
      extent_eqb bl_xy uw_xy = false ->
      _startup' w = (Raised (AssertionError (MsgDomain bl_xy uw_xy)), w)).
Proof.
  intros Hs rg m. split.
  - intros Hempty. unfold _startup. autorewrite with py. rewrite Hs. simpl.
    autorewrite with py. fold rg.
    destruct (rectX rg) as [|x xs] eqn:EX; [reflexivity|].
    destruct Hempty as [Hx|Hy]; [discriminate|].
    simpl. autorewrite with py. rewrite Hy. reflexivity.
  - intros x0 x1 y0 y1 Hx0 Hx1 Hy0 Hy1 bl_xy uw_xy Hne.
    unfold _startup. autorewrite with py. rewrite Hs. simpl.
    autorewrite with py. fold rg. rewrite Hx0. autorewrite with py.
    rewrite Hx1. autorewrite with py. rewrite Hy0. autorewrite with py.
    rewrite Hy1. autorewrite with py. fold m. fold bl_xy uw_xy.
    rewrite Hne. reflexivity.
Qed.

Lemma lookup_column_stack (xs ys zs : list num) i x y z :
  xs !! i = Some x -> ys !! i = Some y -> zs !! i = Some z ->
  zip_with (fun (xy : num * num) (z : num) => (xy, z)) (zip xs ys) zs !! i
  = Some (x, y, z).
Proof.
  intros Hx Hy Hz.
  rewrite (lookup_zip_with _ (zip xs ys) zs i).
  rewrite (lookup_zip_with pair xs ys i), Hx, Hy, Hz. reflexivity.
Qed.

Lemma startup_returned (w w' : World num V U) :
  _startup' w = (Returned tt, w') ->
  let b := badlands_model (self w) in
  let b' := badlands_model (self w') in
  input b' = {| disp3d := true; region := 0;
                tDisplay := checkpoint_interval (self w);
                Afactor := Afactor (input b) |} /\
  recGrid b' = recGrid b /\
  elevation b' = elevation b /\
  force b' = set_next_display (of_int 0) (force b) /\
  np_mesh (self w') = Some (mesh (uw (self w))) /\
  _disp_inserted (self w') = _disp_inserted (self w) /\
  _surface_tracers (self w') =
    Some (zip_with (fun (xy : num * num) (z : num) => (xy, z))
                   (zip (rectX (recGrid b)) (rectY (recGrid b)))
                   (rectZ (recGrid b))) /\
  length (rectX (recGrid b)) = length (rectY (recGrid b)) /\
  length (rectY (recGrid b)) = length (rectZ (recGrid b)).
Proof.
  intros E b b'. subst b b'.
  unfold _startup, modify_input, modify_force, column_stack in E.
  autorewrite with py in E.
  destruct (_model_started (self w)) eqn:Es; simpl in E; [discriminate|].
  repeat (autorewrite with py in E;
          match type of E with
          | match ?o with Some _ => _ | None => _ end = _ =>
              destruct o; [|discriminate]
          | (if ?b then _ else _) = _ =>
              destruct b; [|discriminate]
          | bind (if ?b then _ else _) _ _ = _ =>
              destruct b as [Hlen|]; [|discriminate]
          end).
  autorewrite with py in E.
  unfold bind at 1 in E.
  match type of E with
  | context [_update_material_types griddata ?w1] =>
      pose proof (update_material_types_keeps_beside_materials w1) as Hk;
      destruct (_update_material_types griddata w1) as [[[]|e|] w2]
  end; try discriminate.
  unfold unchanged, beside_materials in Hk. simpl in Hk.
  injection Hk as Hb Hnp Htr Hdi Hm.
  autorewrite with py in E. autorewrite with py in E. simpl in E.
  injection E as <-. simpl. rewrite Hb, Hnp, Htr, Hdi. simpl.
  destruct Hlen as [Hxy Hyz]. simpl in Hxy, Hyz.
  repeat split; assumption.
Qed.

(** X3.  A completed [_startup] has synchronised the two models:
    Badlands displays every [checkpoint_interval] years, with 3D
    displacements on, region 0 and its next display due at time 0, its
    grid, elevations and displacement table being as loaded; there is
    one surface tracer per node of the DEM, at the node's coordinates;
    and the non-partitioned mesh is the mesh of the model. *)
Theorem startup_synchronises_badlands (w w' : World num V U) :
  _startup' w = (Returned tt, w') ->
  let b := badlands_model (self w) in
  let b' := badlands_model (self w') in
  input b' = {| disp3d := true; region := 0;
                tDisplay := checkpoint_interval (self w);
                Afactor := Afactor (input b) |} /\
  recGrid b' = recGrid b /\
  elevation b' = elevation b /\
  force b' = set_next_display (of_int 0) (force b) /\
  np_mesh (self w') = Some (mesh (uw (self w))) /\
  _disp_inserted (self w') = _disp_inserted (self w) /\
  exists tracers,
    _surface_tracers (self w') = Some tracers /\
    length tracers = length (rectX (recGrid b)) /\
    length tracers = length (rectY (recGrid b)) /\
    length tracers = length (rectZ (recGrid b)) /\
    forall i x y z,
      rectX (recGrid b) !! i = Some x ->
      rectY (recGrid b) !! i = Some y ->
      rectZ (recGrid b) !! i = Some z ->
      tracers !! i = Some (x, y, z).
Proof.
  intros E b b'.
  destruct (startup_returned w w' E)
    as (Hi & Hg & He & Hf & Hn & Hd & Ht & Hxy & Hyz).
  fold b in Hxy, Hyz, Ht.
  repeat (split; [assumption|]).
  eexists. split; [exact Ht|].
  assert (Hl : length (zip_with (fun (xy : num * num) (z : num) => (xy, z))
                         (zip (rectX (recGrid b)) (rectY (recGrid b)))
                         (rectZ (recGrid b)))
               = length (rectX (recGrid b))).
  { rewrite !length_zip_with. lia. }
  split; [exact Hl|]. split; [lia|]. split; [lia|].
  intros i x y z. apply lookup_column_stack.
Qed.

End StartupFacts.

(* ================================================================= *)
(** ** More on [run_for_years] *)

Section RunFacts.
Context {A : Arith} {V U : Type}.
Variable update_function : LinkageModel num V U -> num -> num * Underworld num V U.
Variable checkpoint_function : LinkageModel num V U -> Z -> num -> Underworld num V U.
Variable integrate : V -> num -> list vec3 -> list vec3.
Variable evaluate : V -> list vec3 -> list vec3.
Variable run_to_time : Badlands num -> num -> Badlands num.
Variable griddata : list (num * num) -> list num -> num * num -> num.
Variable gaussian_filter : list (list num) -> num -> list (list num).

Local Abbreviation uw_to_bl' :=
  (uw_to_bl (U:=U) integrate evaluate gaussian_filter).
Local Abbreviation bl_to_uw' := (bl_to_uw (V:=V) (U:=U) run_to_time griddata).
Local Abbreviation couple' :=
  (couple (U:=U) integrate evaluate run_to_time griddata gaussian_filter).
Local Abbreviation step' :=
  (step update_function checkpoint_function integrate evaluate run_to_time
        griddata gaussian_filter).
Local Abbreviation while_loop' :=
  (while_loop update_function checkpoint_function integrate evaluate
              run_to_time griddata gaussian_filter).
Local Abbreviation run_for_years' :=
  (run_for_years update_function checkpoint_function integrate evaluate
                 run_to_time griddata gaussian_filter).
Local Abbreviation _startup' := (_startup checkpoint_function griddata).
Local Abbreviation reachable' :=
  (reachable update_function checkpoint_function integrate evaluate
             run_to_time griddata gaussian_filter).

(** The callbacks are handed the linkage and give back the Underworld
    side: they leave alone whatever [f] does not read from it. *)
Lemma call_update_keeps {Y} (f : World num V U -> Y) max_seconds :
  (forall s u c c', f {| self := set_uw u s; calls := c |}
                    = f {| self := s; calls := c' |}) ->
  keeps f (call_update_function update_function max_seconds).
Proof.
  intros Hf w. unfold call_update_function.
  destruct (update_function (self w) max_seconds). simpl.
  unfold unchanged. destruct w. apply Hf.
Qed.

Lemma call_checkpoint_keeps {Y} (f : World num V U -> Y) n t :
  (forall s u c c', f {| self := set_uw u s; calls := c |}
                    = f {| self := s; calls := c' |}) ->
  keeps f (call_checkpoint_function checkpoint_function n t).
Proof. intros Hf w. unfold unchanged. destruct w. apply Hf. Qed.

Local Ltac keeps_loop_body leaf :=
  unfold keeps, step, _startup, couple, uw_to_bl, bl_to_uw;
  unfold_methods; unfold record_interval, write_T_disp_row0; unfold_methods;
  repeat lazymatch goal with
         | |- always _ (call_update_function _ _) =>
             apply call_update_keeps; intros; reflexivity
         | |- always _ (call_checkpoint_function _ _ _) =>
             apply call_checkpoint_keeps; intros; reflexivity
         | _ => always_step leaf
         end.

Lemma step_keeps_settings end_years sigma :
  keeps settings (step' end_years sigma).
Proof. keeps_loop_body ltac:(unfold unchanged; reflexivity). Qed.

Lemma startup_keeps_settings : keeps settings _startup'.
Proof. keeps_loop_body ltac:(unfold unchanged; reflexivity). Qed.

(** X7.  Whatever its outcome, [run_for_years] leaves the settings of
    the linkage as the user made them: [checkpoint_interval],
    [material_map] and [disable_material_changes] are never assigned. *)
Theorem run_keeps_settings fuel years sigma (w : World num V U) :
  settings (run_for_years' fuel years sigma w).2 = settings w.
Proof.
  unfold run_for_years. autorewrite with py.
  assert (Hloop : forall e (w0 : World num V U),
             settings w0 = settings w ->
             settings (while_loop' fuel e sigma w0).2 = settings w).
  { intros e w0 H0.
    apply (while_loop_preserves update_function checkpoint_function integrate
             evaluate run_to_time griddata gaussian_filter
             (fun w1 => settings w1 = settings w)); [|exact H0].
    intros w1 H1. rewrite <- H1. apply step_keeps_settings. }
  destruct (_model_started (self w)).
  - autorewrite with py. apply Hloop. reflexivity.
  - unfold bind at 1. pose proof (startup_keeps_settings w) as Hs.
    unfold unchanged in Hs.
    destruct (_startup' w) as [[[]|e|] w1]; simpl in *; try exact Hs.
    autorewrite with py. apply Hloop, Hs.
Qed.

Lemma couple_keeps_underworld_frame dt_seconds dt_years sigma :
  keeps underworld_frame (couple' dt_seconds dt_years sigma).
Proof.
  keeps_loop_body
    ltac:(unfold unchanged, underworld_frame; simpl;
          rewrite ?length_insert; reflexivity).
Qed.

Lemma uw_to_bl_keeps_uw dt_seconds dt_years sigma :
  keeps (fun w : World num V U => (uw (self w), disable_material_changes (self w)))
        (uw_to_bl' dt_seconds dt_years sigma).
Proof. keeps_loop_body ltac:(unfold unchanged; reflexivity). Qed.

(** X8.  Between the two callbacks, an iteration (lines 138 to 177)
    writes nothing on the Underworld side but values of
    [material_index.data]: the mesh, the velocity field, the particle
    coordinates, what the user keeps on the linkage and the number of
    particles are as they were, whatever the outcome; and with
    [disable_material_changes] set the material indices are too. *)
Theorem coupling_only_rewrites_material_index
    dt_seconds dt_years sigma (w : World num V U) :
  let w' := (couple' dt_seconds dt_years sigma w).2 in
  underworld_frame w' = underworld_frame w /\
  (disable_material_changes (self w) = true -> uw (self w') = uw (self w)).
Proof.
  split; [apply couple_keeps_underworld_frame|].
  intros Hd. unfold couple, bind.
  pose proof (uw_to_bl_keeps_uw dt_seconds dt_years sigma w) as Hk.
  unfold unchanged in Hk.
  destruct (uw_to_bl' dt_seconds dt_years sigma w) as [[[]|e|] w1];
    simpl in *; injection Hk as Hu Hd1; try exact Hu.
  unfold bl_to_uw. autorewrite with py.
  match goal with
  | |- context [_update_material_types griddata ?w2] =>
      pose proof (update_material_types_run griddata w2) as Hr
  end.
  cbv zeta in Hr. simpl in Hr. rewrite Hd1, Hd in Hr. rewrite Hr. simpl.
  exact Hu.
Qed.

(** X5.  A call of [run_for_years] whose end is not after the current
    time makes no iteration, whatever the bound on the iterations: on a
    started model it returns at once and changes nothing, on a new one
    it does what [_startup] does, and nothing more. *)
Theorem run_with_nothing_to_cover fuel years sigma (w : World num V U) :
  (time_years (self w) <? time_years (self w) + years)%num = false ->
  run_for_years' fuel years sigma w =
  if _model_started (self w) then (Returned tt, w) else _startup' w.
Proof.
  intros H. unfold run_for_years. autorewrite with py.
  destruct (_model_started (self w)).
  - autorewrite with py. rewrite while_loop_unfold, H. reflexivity.
  - unfold bind at 1.
    pose proof (startup_schedule checkpoint_function griddata w) as Hs.
    cbv zeta in Hs.
    destruct (_startup' w) as [[[]|e|] w1]; simpl in *; try reflexivity.
    destruct Hs as [_ Hs]. unfold schedule in Hs.
    injection Hs as Ht _ _ _ _ _.
    autorewrite with py. rewrite while_loop_unfold, Ht, H. reflexivity.
Qed.

(** X6.  An iteration that raises, wherever it does, leaves the clock,
    the checkpoint number and the next checkpoint as they were when it
    began, and has called no checkpoint callback; the update callback
    has been called, once. *)
Theorem failed_iteration_keeps_clock
    end_years sigma (w : World num V U) next e :
  _next_checkpoint_years (self w) = Some next ->
  (step' end_years sigma w).1 = Raised e ->
  let max_seconds := max_seconds_of end_years (self w) next in
  let dt_seconds := (update_function (self w) max_seconds).1 in
  let w' := (step' end_years sigma w).2 in
  time_years (self w') = time_years (self w) /\
  _checkpoint_number (self w') = _checkpoint_number (self w) /\
  _next_checkpoint_years (self w') = Some next /\
  calls w' = calls w ++ [UpdateCall max_seconds dt_seconds].
Proof.
  intros Enext He.
  pose proof (step_schedule update_function checkpoint_function integrate
                evaluate run_to_time griddata gaussian_filter
                end_years sigma w) as H.
  rewrite Enext in H. cbv zeta in *.
  destruct (_ <=? _)%num.
  - rewrite He in H. unfold schedule in H.
    injection H as Ht Hn Hnx _ _ Hc. auto.
  - rewrite H. simpl. rewrite Enext. auto.
Qed.
End RunFacts.

(* ================================================================= *)
(** ** The exceptions of a run *)

Section Errors.
Context {A : Arith} {V U : Type}.
Variable update_function : LinkageModel num V U -> num -> num * Underworld num V U.
Variable checkpoint_function : LinkageModel num V U -> Z -> num -> Underworld num V U.
Variable integrate : V -> num -> list vec3 -> list vec3.
Variable evaluate : V -> list vec3 -> list vec3.
Variable run_to_time : Badlands num -> num -> Badlands num.
Variable griddata : list (num * num) -> list num -> num * num -> num.
Variable gaussian_filter : list (list num) -> num -> list (list num).

Local Abbreviation uw_to_bl' :=
  (uw_to_bl (U:=U) integrate evaluate gaussian_filter).
Local Abbreviation bl_to_uw' := (bl_to_uw (V:=V) (U:=U) run_to_time griddata).
Local Abbreviation couple' :=
  (couple (U:=U) integrate evaluate run_to_time griddata gaussian_filter).
Local Abbreviation step' :=
  (step update_function checkpoint_function integrate evaluate run_to_time
        griddata gaussian_filter).
Local Abbreviation while_loop' :=
  (while_loop update_function checkpoint_function integrate evaluate
              run_to_time griddata gaussian_filter).
Local Abbreviation run_for_years' :=
  (run_for_years update_function checkpoint_function integrate evaluate
                 run_to_time griddata gaussian_filter).
Local Abbreviation _startup' := (_startup checkpoint_function griddata).
Local Abbreviation reachable' :=
  (reachable update_function checkpoint_function integrate evaluate
             run_to_time griddata gaussian_filter).

Lemma stays_set_preorder : PreOrder (stays_set (V:=V) (U:=U)).
Proof.
  split.
  - intros w. unfold stays_set. auto.
  - intros w1 w2 w3 (H1 & H2 & H3) (H1' & H2' & H3').
    unfold stays_set. auto.
Qed.

Lemma reclassify_value_raises mmap material_flags i (m : Z) :
  match reclassify_value (A:=A) mmap material_flags i m with
  | Returned _ | Raised IndexError => True
  | _ => False
  end.
Proof.
  unfold reclassify_value.
  repeat (simpl;
          match goal with
          | |- context [@lookup _ _ _ _ ?i ?l] => destruct (l !! i)
          | |- context [bool_decide ?P] => destruct (bool_decide P)
          | |- context [if ?b then _ else _] => destruct b
          end);
    exact I.
Qed.

Lemma reclassify_from_raises mmap material_flags (todo : list Z) :
  forall k,
    match reclassify_from (A:=A) mmap material_flags k todo with
    | Returned _ | Raised IndexError => True
    | _ => False
    end.
Proof.
  induction todo as [|m todo IH]; intros k; simpl; [exact I|].
  pose proof (reclassify_value_raises mmap material_flags k m) as Hv.
  destruct (reclassify_value mmap material_flags k m) as [v|e|];
    [|exact Hv|exact Hv].
  specialize (IH (S k)).
  destruct (reclassify_from mmap material_flags (S k) todo); exact IH.
Qed.

Lemma update_material_types_raises (w : World num V U) :
  match (_update_material_types griddata w).1 with
  | Returned _ | Raised IndexError => True
  | _ => False
  end.
Proof.
  pose proof (update_material_types_run griddata w) as H. cbv zeta in H.
  destruct (disable_material_changes (self w)); [rewrite H; exact I|].
  pose proof (reclassify_from_raises (material_map (self w))
                (particle_flags griddata w) (material_index (uw (self w)))
                0%nat) as Hr.
  destruct (reclassify_from _ _ _ _); [rewrite H; exact I| |];
    rewrite H; exact Hr.
Qed.

Local Ltac run_goal :=
  repeat
    (autorewrite with py;
     cbn [self calls uw badlands_model checkpoint_interval material_map
          time_years _model_started _disp_inserted _checkpoint_number
          _next_checkpoint_years disable_material_changes np_mesh
          _surface_tracers set_uw set_badlands_model set_time_years
          set_model_started set_disp_inserted set_checkpoint_number
          set_next_checkpoint_years set_np_mesh set_surface_tracers
          input recGrid force elevation set_input set_force
          T_disp injected_disps merge3d next_display
          set_T_disp set_injected_disps set_merge3d set_next_display fst snd];
     try match goal with
         | |- context [match ?o with Some _ => _ | None => _ end] =>
             destruct o eqn:?
         | |- context [if ?b then _ else _] => destruct b eqn:?
         end).

Lemma bind_fails_on_data_only {X Y} (m : M V U X) (k : X -> M V U Y) w :
  fails_on_data_only (m w).1 ->
  (forall x w', m w = (Returned x, w') -> fails_on_data_only (k x w').1) ->
  fails_on_data_only (bind m k w).1.
Proof.
  intros Hm Hk. unfold bind.
  destruct (m w) as [[x|e|] w'] eqn:E; simpl in *; auto.
Qed.

Lemma update_material_types_fails (w : World num V U) :
  fails_on_data_only (_update_material_types griddata w).1.
Proof.
  pose proof (update_material_types_raises w) as H.
  destruct (_update_material_types griddata w).1 as [x|e|];
    [exact I|destruct e; simpl; auto|contradiction].
Qed.

Lemma uw_to_bl_fails dt_seconds dt_years sigma (w : World num V U) :
  is_Some (_surface_tracers (self w)) -> is_Some (np_mesh (self w)) ->
  fails_on_data_only (uw_to_bl' dt_seconds dt_years sigma w).1.
Proof.
  intros [tracers Ht] [m Hm].
  unfold uw_to_bl, _inject_badlands_displacement,
    _inject_badlands_displacement_smooth, record_interval, write_T_disp_row0,
    set_merge, item, reshape2, reshape1, assign_column, modify_force.
  autorewrite with py. rewrite Ht. autorewrite with py.
  cbn [self np_mesh set_surface_tracers]. rewrite Hm.
  run_goal; simpl; exact I.
Qed.

Lemma couple_fails dt_seconds dt_years sigma (w : World num V U) :
  is_Some (_surface_tracers (self w)) -> is_Some (np_mesh (self w)) ->
  fails_on_data_only (couple' dt_seconds dt_years sigma w).1.
Proof.
  intros Ht Hm. unfold couple. apply bind_fails_on_data_only.
  - apply uw_to_bl_fails; assumption.
  - intros _ w1 _. unfold bl_to_uw. autorewrite with py.
    apply update_material_types_fails.
Qed.

Lemma step_fails end_years sigma (w : World num V U) :
  is_Some (_next_checkpoint_years (self w)) ->
  is_Some (_surface_tracers (self w)) -> is_Some (np_mesh (self w)) ->
  fails_on_data_only (step' end_years sigma w).1.
Proof.
  intros [next Hn] Ht Hm. unfold step. autorewrite with py. rewrite Hn.
  simpl. autorewrite with py.
  unfold bind at 1. unfold call_update_function at 1.
  destruct (update_function (self w) _) as [dt_seconds u].
  autorewrite with py.
  destruct (dt_seconds <=? _)%num; [|exact I].
  apply bind_fails_on_data_only; [apply couple_fails; assumption|].
  intros [] w2 Hc.
  match type of Hc with
  | _ ?w1 = _ =>
      pose proof (couple_keeps_schedule integrate evaluate run_to_time
                    griddata gaussian_filter dt_seconds
                    (dt_seconds / SECONDS_PER_YEAR)%num sigma w1) as Hk
  end.
  unfold unchanged in Hk. rewrite Hc in Hk. unfold schedule in Hk.
  simpl in Hk. injection Hk as _ _ Hnx _ _ _.
  destruct (dt_seconds =? _)%num.
  - autorewrite with py. cbn [self set_uw set_checkpoint_number
      _next_checkpoint_years]. rewrite Hnx, Hn. autorewrite with py.
    exact I.
  - autorewrite with py. exact I.
Qed.

Lemma startup_fails (w : World num V U) :
  fails_on_data_only (_startup' w).1.
Proof.
  unfold _startup, modify_input, modify_force, column_stack.
  run_goal; try (simpl; exact I).
  apply bind_fails_on_data_only; [apply update_material_types_fails|].
  intros _ w2 _. run_goal. simpl. exact I.
Qed.

Lemma call_update_always
    (R : World num V U -> World num V U -> Prop) max_seconds :
  (forall s u c c', R {| self := s; calls := c |}
                      {| self := set_uw u s; calls := c' |}) ->
  always R (call_update_function update_function max_seconds).
Proof.
  intros HR w. unfold call_update_function.
  destruct (update_function (self w) max_seconds). simpl.
  destruct w. apply HR.
Qed.

Lemma call_checkpoint_always
    (R : World num V U -> World num V U -> Prop) n t :
  (forall s u c c', R {| self := s; calls := c |}
                      {| self := set_uw u s; calls := c' |}) ->
  always R (call_checkpoint_function checkpoint_function n t).
Proof. intros HR w. destruct w. apply HR. Qed.

#[local] Existing Instance stays_set_preorder.

Local Ltac stays_set_leaf :=
  unfold stays_set; cbn; repeat split; intros;
  first [assumption | eexists; reflexivity].

Local Ltac stays_set_body :=
  unfold step, _startup, couple, uw_to_bl, bl_to_uw;
  unfold_methods; unfold record_interval, write_T_disp_row0; unfold_methods;
  repeat lazymatch goal with
         | |- always _ (call_update_function _ _) =>
             apply call_update_always; intros; stays_set_leaf
         | |- always _ (call_checkpoint_function _ _ _) =>
             apply call_checkpoint_always; intros; stays_set_leaf
         | _ => always_step stays_set_leaf
         end.

Lemma step_stays_set end_years sigma :
  always stays_set (step' end_years sigma).
Proof. stays_set_body. Qed.

Lemma startup_stays_set : always stays_set _startup'.
Proof. stays_set_body. Qed.

Lemma step_started_up end_years sigma (w : World num V U) :
  started_up w -> started_up (step' end_years sigma w).2.
Proof.
  intros Hw Hs.
  rewrite (step_keeps_started update_function checkpoint_function integrate
             evaluate run_to_time griddata gaussian_filter) in Hs.
  destruct (Hw Hs) as (H1 & H2 & H3).
  destruct (step_stays_set end_years sigma w) as (K1 & K2 & K3). auto.
Qed.

Lemma startup_started_up (w : World num V U) :
  started_up w -> started_up (_startup' w).2.
Proof.
  intros Hw Hs.
  pose proof (startup_schedule checkpoint_function griddata w) as H.
  pose proof (startup_returned checkpoint_function griddata w) as Hr.
  cbv zeta in H, Hr.
  destruct (_startup' w) as [[[]|e|] w1] eqn:E; simpl in *.
  - destruct H as [_ H]. unfold schedule in H.
    injection H as _ _ Hnx _ _ _.
    destruct (Hr w1 eq_refl) as (_ & _ & _ & _ & Hn & _ & Ht & _).
    rewrite Hnx, Hn, Ht. repeat split; eexists; reflexivity.
  - unfold schedule in H. injection H as _ _ _ _ Hst _.
    rewrite Hst in Hs. destruct (Hw Hs) as (H1 & H2 & H3).
    pose proof (startup_stays_set w) as K. rewrite E in K.
    destruct K as (K1 & K2 & K3). auto.
  - unfold schedule in H. injection H as _ _ _ _ Hst _.
    rewrite Hst in Hs. destruct (Hw Hs) as (H1 & H2 & H3).
    pose proof (startup_stays_set w) as K. rewrite E in K.
    destruct K as (K1 & K2 & K3). auto.
Qed.

Lemma while_loop_raises fuel end_years sigma :
  forall (w : World num V U) e,
    _model_started (self w) = true -> started_up w ->
    (while_loop' fuel end_years sigma w).1 = Raised e -> data_error e.
Proof.
  induction fuel as [|fuel IH]; intros w e Hs Hw;
    rewrite while_loop_unfold;
    destruct (time_years (self w) <? end_years)%num; simpl;
    try discriminate.
  destruct (Hw Hs) as (H1 & H2 & H3).
  pose proof (step_fails end_years sigma w H1 H2 H3) as Hf.
  pose proof (step_started_up end_years sigma w Hw) as Hw1.
  pose proof (step_keeps_started update_function checkpoint_function
                integrate evaluate run_to_time griddata gaussian_filter
                end_years sigma w) as Hs1.
  unfold bind.
  destruct (step' end_years sigma w) as [[[]|e1|] w1]; simpl in *.
  - apply IH; [congruence|exact Hw1].
  - intros [= <-]. exact Hf.
  - discriminate.
Qed.

End Errors.

(* ================================================================= *)
(** ** More on the injection of displacements *)

Section InjectionFacts.
Context {A : Arith} {V U : Type}.
Variable integrate : V -> num -> list vec3 -> list vec3.
Variable evaluate : V -> list vec3 -> list vec3.
Variable run_to_time : Badlands num -> num -> Badlands num.
Variable griddata : list (num * num) -> list num -> num * num -> num.
Variable gaussian_filter : list (list num) -> num -> list (list num).

Local Abbreviation uw_to_bl' :=
  (uw_to_bl (U:=U) integrate evaluate gaussian_filter).
Local Abbreviation bl_to_uw' := (bl_to_uw (V:=V) (U:=U) run_to_time griddata).
Local Abbreviation couple' :=
  (couple (U:=U) integrate evaluate run_to_time griddata gaussian_filter).
Local Abbreviation smooth' :=
  (_inject_badlands_displacement_smooth (V:=V) (U:=U) gaussian_filter).
Local Abbreviation inject' := (_inject_badlands_displacement (V:=V) (U:=U)).

(** The "kludge" block, run. *)
Lemma record_interval_run time dt (w : World num V U) :
  record_interval time dt w =
  let f := force (badlands_model (self w)) in
  if _disp_inserted (self w) then
    match T_disp f with
    | [] => (Raised IndexError, w)
    | row :: rest =>
        (Returned tt, with_force (set_T_disp ((time, time + dt)%num :: rest) f) w)
    end
  else
    (Returned tt,
     {| self := set_disp_inserted true
                  (self (with_force
                           (set_T_disp ((time, time + dt)%num :: T_disp f) f)
                           w));
        calls := calls w |}).
Proof.
  unfold record_interval, write_T_disp_row0, item, modify_force.
  autorewrite with py. cbv zeta.
  destruct (_disp_inserted (self w)); autorewrite with py; [|reflexivity].
  destruct (T_disp (force (badlands_model (self w)))) as [|row rest] eqn:E;
    simpl; autorewrite with py; [reflexivity|].
  simpl. autorewrite with py. reflexivity.
Qed.

Lemma record_interval_returned time dt (w w' : World num V U) :
  record_interval time dt w = (Returned tt, w') ->
  head (T_disp (force (badlands_model (self w')))) = Some (time, (time + dt)%num)
  /\ _disp_inserted (self w') = true
  /\ injected_disps (force (badlands_model (self w')))
     = injected_disps (force (badlands_model (self w)))
  /\ recGrid (badlands_model (self w')) = recGrid (badlands_model (self w))
  /\ time_years (self w') = time_years (self w).
Proof.
  rewrite record_interval_run. cbv zeta.
  destruct (_disp_inserted (self w)) eqn:Ei.
  - destruct (T_disp _); [discriminate|]. intros [= <-]. simpl. auto.
  - intros [= <-]. simpl. auto.
Qed.

Lemma inject_run time dt disp (w : World num V U) :
  inject' time dt disp w =
  match record_interval time dt (with_merge w) with
  | (Returned _, w1) => modify_force (set_injected_disps disp) w1
  | (Raised e, w1) => (Raised e, w1)
  | (OutOfFuel, w1) => (OutOfFuel, w1)
  end.
Proof.
  unfold _inject_badlands_displacement, set_merge, modify_force.
  autorewrite with py. unfold bind at 1. unfold with_merge, merged.
  match goal with
  | |- context [record_interval time dt ?w0] =>
      destruct (record_interval time dt w0) as [[[]|e|] w1]
  end; reflexivity.
Qed.

Lemma smooth_run time dt disp sigma (w : World num V U) :
  smooth' time dt disp sigma w =
  match record_interval time dt (with_merge w) with
  | (Returned _, w1) =>
      let rg := recGrid (badlands_model (self w1)) in
      let grid column := reshape2 (rnx rg) (rny rg) (map column disp) in
      let flat g := reshape1 (rnx rg * rny rg) (gaussian_filter g sigma) in
      bind (grid (fun p : vec3 => p.1.1)) (fun dispX =>
      bind (grid (fun p : vec3 => p.1.2)) (fun dispY =>
      bind (grid (fun p : vec3 => p.2)) (fun dispZ =>
      bind (bind (flat dispX) (assign_column 0 disp)) (fun disp =>
      bind (bind (flat dispY) (assign_column 1 disp)) (fun disp =>
      bind (bind (flat dispZ) (assign_column 2 disp)) (fun disp =>
      modify_force (set_injected_disps disp))))))) w1
  | (Raised e, w1) => (Raised e, w1)
  | (OutOfFuel, w1) => (OutOfFuel, w1)
  end.
Proof.
  unfold _inject_badlands_displacement_smooth, set_merge, modify_force.
  autorewrite with py. unfold bind at 1. unfold with_merge, merged.
  match goal with
  | |- context [record_interval time dt ?w0] =>
      destruct (record_interval time dt w0) as [[[]|e|] w1]
  end; reflexivity.
Qed.

(** X11.  Once the linkage has put its row in the displacement table
    ([_disp_inserted]), an injection into a table that has no row left
    is an [IndexError], with or without smoothing: [merge3d] has been
    written, the displacements have not been handed over. *)
Theorem injection_into_emptied_table
    time dt disp sigma (w : World num V U) :
  _disp_inserted (self w) = true ->
  T_disp (force (badlands_model (self w))) = [] ->
  inject' time dt disp w = (Raised IndexError, with_merge w) /\
  smooth' time dt disp sigma w = (Raised IndexError, with_merge w) /\
  injected_disps (force (badlands_model (self (with_merge w)))) =
  injected_disps (force (badlands_model (self w))).
Proof.
  intros Hi Ht.
  assert (Hr : record_interval time dt (with_merge w)
               = (Raised IndexError, with_merge w)).
  { rewrite record_interval_run. cbv zeta. simpl. rewrite Hi, Ht.
    reflexivity. }
  split; [|split; [|reflexivity]].
  - rewrite inject_run, Hr. reflexivity.
  - rewrite smooth_run, Hr. reflexivity.
Qed.

(** X12.  Smoothing reshapes each column of the displacements to the
    [rnx] by [rny] grid: displacements that are not [rnx * rny] in
    number are a [ValueError].  It is raised after the "kludge" block:
    the first row of the table is the new interval and
    [_disp_inserted] is set, while [injected_disps] is still what it
    was. *)
Theorem smoothing_rejects_the_wrong_number_of_displacements
    time dt disp sigma (w : World num V U) :
  (_disp_inserted (self w) = false \/
   T_disp (force (badlands_model (self w))) <> []) ->
  length disp <> (rnx (recGrid (badlands_model (self w)))
                  * rny (recGrid (badlands_model (self w))))%nat ->
  exists w',
    smooth' time dt disp sigma w = (Raised ValueError, w') /\
    head (T_disp (force (badlands_model (self w'))))
      = Some (time, (time + dt)%num) /\
    _disp_inserted (self w') = true /\
    injected_disps (force (badlands_model (self w'))) =
    injected_disps (force (badlands_model (self w))).
Proof.
  intros Hok Hlen.
  assert (Hr : exists w1, record_interval time dt (with_merge w)
                          = (Returned tt, w1)).
  { rewrite record_interval_run. cbv zeta. simpl.
    destruct (_disp_inserted (self w)); [|eexists; reflexivity].
    destruct (T_disp (force (badlands_model (self w)))) eqn:E;
      [|eexists; reflexivity].
    destruct Hok as [Hok|Hok]; [discriminate|]. contradiction. }
  destruct Hr as [w1 Hr]. exists w1.
  destruct (record_interval_returned _ _ _ _ Hr) as (Hh & Hi & Hd & Hg & _).
  simpl in Hd, Hg.
  split; [|auto].
  rewrite smooth_run, Hr. cbv zeta. rewrite Hg.
  unfold reshape2. rewrite length_map.
  rewrite decide_False by exact Hlen. autorewrite with py. reflexivity.
Qed.

Lemma concat_rows_of {X} (rows cols : nat) :
  forall a : list X,
    length a = (rows * cols)%nat -> concat (rows_of rows cols a) = a.
Proof.
  induction rows as [|rows IH]; intros a Ha; simpl in *.
  - destruct a; [reflexivity|discriminate].
  - rewrite IH; [apply take_drop|]. rewrite length_drop. lia.
Qed.

Lemma zip_with_own_column {X Y} (f : X -> Y -> X) (g : X -> Y) (l : list X) :
  (forall p, f p (g p) = p) -> zip_with f l (map g l) = l.
Proof.
  intros H. induction l as [|p l IH]; simpl; [reflexivity|].
  rewrite H, IH. reflexivity.
Qed.

(** X13.  The reshaping that surrounds the filter loses nothing: with a
    filter that gives back the grids it is given, the smoothing variant
    does to a displacement field of [rnx * rny] points exactly what
    [_inject_badlands_displacement] does. *)
Theorem smoothing_with_an_identity_filter_is_plain_injection
    time dt disp sigma (w : World num V U) :
  (forall g, gaussian_filter g sigma = g) ->
  length disp = (rnx (recGrid (badlands_model (self w)))
                 * rny (recGrid (badlands_model (self w))))%nat ->
  smooth' time dt disp sigma w = inject' time dt disp w.
Proof.
  intros Hid Hlen. rewrite smooth_run, inject_run.
  destruct (record_interval time dt (with_merge w)) as [[[]|e|] w1] eqn:Hr;
    try reflexivity.
  destruct (record_interval_returned _ _ _ _ Hr) as (_ & _ & _ & Hg & _).
  simpl in Hg. cbv zeta. rewrite Hg.
  unfold reshape2, reshape1, assign_column.
  repeat first
    [ rewrite run_bind_ret
    | rewrite run_bind_bind
    | rewrite Hid
    | rewrite length_map
    | rewrite concat_rows_of by (rewrite length_map; exact Hlen)
    | rewrite decide_True by (first [exact Hlen | reflexivity])
    | rewrite zip_with_own_column by (intros [[? ?] ?]; reflexivity) ].
  reflexivity.
Qed.

Lemma inject_returned time dt disp (w w' : World num V U) :
  inject' time dt disp w = (Returned tt, w') ->
  head (T_disp (force (badlands_model (self w'))))
    = Some (time, (time + dt)%num) /\
  _disp_inserted (self w') = true.
Proof.
  rewrite inject_run.
  destruct (record_interval time dt (with_merge w)) as [[[]|e|] w1] eqn:Hr;
    try discriminate.
  destruct (record_interval_returned _ _ _ _ Hr) as (Hh & Hi & _).
  unfold modify_force. rewrite run_modify. intros [= <-]. simpl. auto.
Qed.

Lemma smooth_returned time dt disp sigma (w w' : World num V U) :
  smooth' time dt disp sigma w = (Returned tt, w') ->
  head (T_disp (force (badlands_model (self w'))))
    = Some (time, (time + dt)%num) /\
  _disp_inserted (self w') = true.
Proof.
  rewrite smooth_run.
  destruct (record_interval time dt (with_merge w)) as [[[]|e|] w1] eqn:Hr;
    try discriminate.
  destruct (record_interval_returned _ _ _ _ Hr) as (Hh & Hi & _).
  cbv zeta. unfold reshape2, reshape1, assign_column, modify_force.
  intros E. run_in E; try discriminate. injection E as <-. simpl. auto.
Qed.

Lemma uw_to_bl_keeps_time dt_seconds dt_years sigma :
  keeps (fun w : World num V U => time_years (self w))
        (uw_to_bl' dt_seconds dt_years sigma).
Proof. unfold uw_to_bl. keeps_methods. Qed.

(** X10.  In a coupling that completes, Badlands is run on a
    displacement table whose first row is the interval of the
    iteration, from [time_years] to [time_years + dt_years], and is run
    to the end of that very interval. *)
Theorem coupling_runs_badlands_to_the_end_of_the_interval
    dt_seconds dt_years sigma (w w' : World num V U) :
  couple' dt_seconds dt_years sigma w = (Returned tt, w') ->
  exists w1,
    uw_to_bl' dt_seconds dt_years sigma w = (Returned tt, w1) /\
    head (T_disp (force (badlands_model (self w1))))
      = Some (time_years (self w), (time_years (self w) + dt_years)%num) /\
    _disp_inserted (self w1) = true /\
    badlands_model (self w') =
      run_to_time (badlands_model (self w1))
                  (time_years (self w) + dt_years)%num.
Proof.
  intros E. unfold couple, bind in E.
  pose proof (uw_to_bl_keeps_time dt_seconds dt_years sigma w) as Ht.
  unfold unchanged in Ht.
  destruct (uw_to_bl' dt_seconds dt_years sigma w) as [[[]|e|] w1] eqn:E1;
    try discriminate.
  simpl in Ht. exists w1. split; [reflexivity|].
  assert (Hhead :
    head (T_disp (force (badlands_model (self w1))))
      = Some (time_years (self w), (time_years (self w) + dt_years)%num) /\
    _disp_inserted (self w1) = true).
  { unfold uw_to_bl in E1. run_in E1; try discriminate.
    - apply inject_returned in E1. exact E1.
    - apply smooth_returned in E1. exact E1. }
  destruct Hhead as [Hh Hi]. split; [exact Hh|]. split; [exact Hi|].
  unfold bl_to_uw in E. autorewrite with py in E.
  match type of E with
  | _update_material_types griddata ?w2 = _ =>
      pose proof (update_material_types_keeps_beside_materials griddata w2)
        as Hk
  end.
  unfold unchanged in Hk. rewrite E in Hk. unfold beside_materials in Hk.
  simpl in Hk. injection Hk as Hb _ _ _ _. rewrite Hb, Ht. reflexivity.
Qed.
End InjectionFacts.

(* ================================================================= *)
(** ** More on [_update_material_types] *)

Section MaterialMapFacts.
Context {A : Arith} {V U : Type}.
Variable griddata : list (num * num) -> list num -> num * num -> num.

Lemma reclassify_value_short_map mmap material_flags i (m : Z) :
  (length mmap < 2)%nat ->
  reclassify_value (A:=A) mmap material_flags i m = Raised IndexError.
Proof.
  intros Hlen. unfold reclassify_value.
  destruct mmap as [|air [|sediment rest]]; simpl in *; [reflexivity| |lia].
  destruct (bool_decide (m ∈ air)); [|reflexivity].
  destruct (material_flags !! i) as [[]|]; reflexivity.
Qed.

(** X14.  The loop reads both [material_map[0]] and [material_map[1]]
    for every particle: with a material map of fewer than two rows,
    and material changes not disabled, [_update_material_types] raises
    an [IndexError] at the first particle, before it has written
    anything. *)
Theorem material_map_needs_two_rows (w : World num V U) :
  disable_material_changes (self w) = false ->
  (length (material_map (self w)) < 2)%nat ->
  material_index (uw (self w)) <> [] ->
  _update_material_types griddata w = (Raised IndexError, w).
Proof.
  intros Hd Hlen Hne.
  unfold _update_material_types. autorewrite with py. rewrite Hd.
  unfold bind at 1. rewrite determine_particle_state_run.
  autorewrite with py.
  destruct (material_index (uw (self w))) as [|m rest] eqn:Hm;
    [contradiction|].
  simpl. unfold bind at 1. rewrite reclassify_run, Hm. simpl.
  rewrite reclassify_value_short_map by exact Hlen. reflexivity.
Qed.
End MaterialMapFacts.

(* ================================================================= *)
(** ** [generate_flat_dem] *)

Section FlatDemFacts.
Context {A : Arith}.
Variable linspace : num -> num -> nat -> list num.

(** numpy: [np.linspace(start, stop, num)] has [num] samples. *)
Hypothesis linspace_length :
  forall start stop n, length (linspace start stop n) = n.

Local Abbreviation generate_flat_dem' := (generate_flat_dem linspace).

Lemma flat_items_run (ys xs : list num) (elevation : num) :
  flat_items ys (Some xs) elevation =
  Returned (concat (map (fun y => map (fun x => (x, y, elevation)) xs) ys)).
Proof.
  induction ys as [|y ys IH]; simpl; [reflexivity|]. rewrite IH. reflexivity.
Qed.

Lemma lookup_concat_rows {X Y} (f : Y -> X -> X * Y * num) (xs : list X) :
  forall (ys : list Y) i j x y,
    ys !! i = Some y -> xs !! j = Some x ->
    concat (map (fun y => map (f y) xs) ys) !! (i * length xs + j)%nat
    = Some (f y x).
Proof.
  induction ys as [|y0 ys IH]; intros i j x y Hy Hx; [discriminate|].
  destruct i as [|i]; simpl in *.
  - injection Hy as ->. rewrite lookup_app_l.
    + rewrite list_lookup_fmap, Hx. reflexivity.
    + rewrite length_map. eapply lookup_lt_Some, Hx.
  - rewrite lookup_app_r by (rewrite length_map; lia).
    rewrite length_map.
    replace (length xs + i * length xs + j - length xs)%nat
      with (i * length xs + j)%nat by lia.
    apply IH; assumption.
Qed.

Lemma length_concat_rows {X Y Z'} (f : Y -> X -> Z') (xs : list X) :
  forall ys : list Y,
    length (concat (map (fun y => map (f y) xs) ys))
    = (length ys * length xs)%nat.
Proof.
  induction ys as [|y ys IH]; simpl; [reflexivity|].
  rewrite length_app, length_map, IH. reflexivity.
Qed.

(** X15.  For resolutions that are not negative, [generate_flat_dem]
    returns [resolution[0] * resolution[1]] points, all at the given
    elevation, laid out with the first column running fastest.  The
    first column of the DEM is sampled from [minCoord[1] ..
    maxCoord[1]] in [resolution[1]] samples and the second from
    [minCoord[0] .. maxCoord[0]] in [resolution[0]] samples. *)
Theorem flat_dem_layout
    (minCoord maxCoord : vec3) (r0 r1 : Z) (elevation : num) :
  (0 <= r0)%Z -> (0 <= r1)%Z ->
  let ys := linspace minCoord.1.1 maxCoord.1.1 (Z.to_nat r0) in
  let xs := linspace minCoord.1.2 maxCoord.1.2 (Z.to_nat r1) in
  exists dem,
    generate_flat_dem' minCoord maxCoord (r0, r1) elevation = Returned dem /\
    length dem = (Z.to_nat r0 * Z.to_nat r1)%nat /\
    (forall i j x y,
        ys !! i = Some y -> xs !! j = Some x ->
        dem !! (i * Z.to_nat r1 + j)%nat = Some (x, y, elevation)) /\
    Forall (fun p : vec3 => p.2 = elevation) dem.
Proof using linspace_length.
  intros H0 H1 ys xs. unfold generate_flat_dem, np_linspace. simpl.
  destruct (Z.ltb_spec r0 0); [lia|]. destruct (Z.ltb_spec r1 0); [lia|].
  fold ys xs. rewrite flat_items_run. eexists. split; [reflexivity|].
  split; [|split].
  - rewrite length_concat_rows. unfold ys, xs.
    rewrite !linspace_length. reflexivity.
  - intros i j x y Hy Hx.
    rewrite <- (linspace_length minCoord.1.2 maxCoord.1.2 (Z.to_nat r1)).
    fold xs.
    apply (lookup_concat_rows (fun y x => (x, y, elevation)) xs ys);
      assumption.
  - apply Forall_concat, Forall_forall. intros row Hrow.
    apply list_elem_of_fmap in Hrow as (y & -> & _).
    apply Forall_forall. intros p Hp.
    apply list_elem_of_fmap in Hp as (x & -> & _). reflexivity.
Qed.

(** X16.  A negative [resolution[0]] is numpy's [ValueError]; with
    [resolution[0] = 0] the DEM is empty and [resolution[1]] is never
    looked at, even when it is negative; with a positive
    [resolution[0]], a negative [resolution[1]] is a [ValueError]. *)
Theorem flat_dem_resolution_errors
    (minCoord maxCoord : vec3) (r0 r1 : Z) (elevation : num) :
  ((r0 < 0)%Z ->
   generate_flat_dem' minCoord maxCoord (r0, r1) elevation
   = Raised ValueError) /\
  (r0 = 0%Z ->
   generate_flat_dem' minCoord maxCoord (r0, r1) elevation = Returned []) /\
  ((0 < r0)%Z -> (r1 < 0)%Z ->
   generate_flat_dem' minCoord maxCoord (r0, r1) elevation
   = Raised ValueError).
Proof using linspace_length.
  unfold generate_flat_dem, np_linspace. simpl. repeat split.
  - intros H. destruct (Z.ltb_spec r0 0); [reflexivity|lia].
  - intros ->. simpl.
    pose proof (linspace_length minCoord.1.1 maxCoord.1.1 0) as Hl.
    destruct (linspace _ _ _); [reflexivity|discriminate].
  - intros H0 H1. destruct (Z.ltb_spec r0 0); [lia|].
    destruct (Z.ltb_spec r1 0); [|lia].
    pose proof (linspace_length minCoord.1.1 maxCoord.1.1 (Z.to_nat r0)) as Hl.
    destruct (linspace _ _ _); [simpl in Hl; lia|reflexivity].
Qed.
End FlatDemFacts.

(* ================================================================= *)
(** ** Runs in exact arithmetic *)

Module ExactRuns.
Local Ltac carrier := change (@num exact) with QArith_base.Q in *.
Import QArith Lqa.
Local Open Scope Q_scope.

Section ExactRunFacts.
Context {V U : Type}.
Variable update_function : LinkageModel Q V U -> Q -> Q * Underworld Q V U.
Variable checkpoint_function : LinkageModel Q V U -> Z -> Q -> Underworld Q V U.
Variable integrate : V -> Q -> list (Q * Q * Q) -> list (Q * Q * Q).
Variable evaluate : V -> list (Q * Q * Q) -> list (Q * Q * Q).
Variable run_to_time : Badlands Q -> Q -> Badlands Q.
Variable griddata : list (Q * Q) -> list Q -> Q * Q -> Q.
Variable gaussian_filter : list (list Q) -> Q -> list (list Q).

Local Abbreviation step' :=
  (step (A:=exact) update_function checkpoint_function integrate evaluate
        run_to_time griddata gaussian_filter).
Local Abbreviation while_loop' :=
  (while_loop (A:=exact) update_function checkpoint_function integrate
              evaluate run_to_time griddata gaussian_filter).
Local Abbreviation run_for_years' :=
  (run_for_years (A:=exact) update_function checkpoint_function integrate
                 evaluate run_to_time griddata gaussian_filter).
Local Abbreviation _startup' :=
  (_startup (A:=exact) checkpoint_function griddata).

Lemma pymin_le_l (a b : Q) : pymin (A:=exact) a b <= a.
Proof.
  unfold pymin. simpl. destruct (Qle_bool a b) eqn:E; simpl.
  - apply Qle_refl.
  - destruct (Qlt_le_dec b a) as [H|H]; [apply Qlt_le_weak, H|].
    apply Qle_bool_iff in H. congruence.
Qed.

(** The clock after a completed iteration. *)
Lemma step_clock (end_years sigma : Q) (w w' : World Q V U) :
  step' end_years sigma w = (Returned tt, w') ->
  exists next dt,
    _next_checkpoint_years (self w) = Some next /\
    dt = (update_function (self w)
            (max_seconds_of (A:=exact) end_years (self w) next)).1 /\
    dt <= pymin (A:=exact) (end_years - time_years (self w))%Q
                (next - time_years (self w))%Q
          * SECONDS_PER_YEAR (A:=exact) /\
    time_years (self w') = time_years (self w) + dt / SECONDS_PER_YEAR (A:=exact).
Proof.
  intros Hstep.
  pose proof (step_schedule (A:=exact) update_function checkpoint_function
                integrate evaluate run_to_time griddata gaussian_filter
                end_years sigma w) as H.
  carrier. rewrite Hstep in H.
  destruct (_next_checkpoint_years (self w)) as [next|]; [|discriminate].
  cbv zeta in H. simpl in H.
  destruct (Qle_bool _ _) eqn:Hle; [|discriminate].
  destruct H as (w2 & -> & Hs).
  assert (Ht : time_years (self w2) = time_years (self w)).
  { destruct (Qeq_bool _ _); unfold schedule in Hs;
      injection Hs as -> _ _ _ _ _; reflexivity. }
  apply Qle_bool_iff in Hle.
  eexists next, _. split; [reflexivity|]. split; [reflexivity|].
  split; [exact Hle|].
  unfold advance_clock. simpl. rewrite Ht. reflexivity.
Qed.

Lemma step_ends_by_the_end (end_years sigma : Q) (w w' : World Q V U) :
  step' end_years sigma w = (Returned tt, w') ->
  time_years (self w') <= end_years.
Proof.
  intros Hstep.
  destruct (step_clock _ _ _ _ Hstep) as (next & dt & _ & _ & Hle & ->).
  pose proof (pymin_le_l (end_years - time_years (self w))
                         (next - time_years (self w))) as Hmin.
  pose proof ExactFacts.seconds_per_year_positive as Hspy.
  assert (Hdiv : dt / SECONDS_PER_YEAR (A:=exact)
                 <= end_years - time_years (self w)).
  { apply Qle_shift_div_r; [exact Hspy|].
    eapply Qle_trans; [exact Hle|].
    apply Qmult_le_compat_r; [exact Hmin|]. apply Qlt_le_weak, Hspy. }
  assert (Hfinal : forall q t nx : Q, q <= nx - t -> t + q <= nx)
    by (intros; lra).
  apply Hfinal. exact Hdiv.
Qed.

Lemma while_loop_returned fuel (end_years sigma : Q) :
  forall w w' : World Q V U,
    while_loop' fuel end_years sigma w = (Returned tt, w') ->
    time_years (self w) <= end_years ->
    time_years (self w') == end_years.
Proof.
  induction fuel as [|fuel IH]; intros w w';
    rewrite while_loop_unfold; simpl;
    destruct (Qle_bool end_years (time_years (self w))) eqn:Hc; simpl;
    try discriminate.
  - intros [= <-] Hle. apply Qle_bool_iff in Hc. apply Qle_antisym; assumption.
  - intros [= <-] Hle. apply Qle_bool_iff in Hc. apply Qle_antisym; assumption.
  - unfold bind.
    destruct (step' end_years sigma w) as [[[]|e|] w1] eqn:Hstep;
      try discriminate.
    intros Hloop _. apply (IH w1 w' Hloop).
    apply (step_ends_by_the_end _ _ _ _ Hstep).
Qed.


Lemma stalled_loop_never_returns (end_years sigma : Q) :
  (forall s m, (update_function s m).1 == 0) ->
  forall fuel (w : World Q V U),
    time_years (self w) < end_years ->
    (while_loop' fuel end_years sigma w).1 <> Returned tt.
Proof.
  intros Hzero. induction fuel as [|fuel IH]; intros w Hlt;
    rewrite while_loop_unfold; simpl;
    destruct (Qle_bool end_years (time_years (self w))) eqn:Hc; simpl;
    try discriminate;
    try (apply Qle_bool_iff in Hc; exfalso;
         apply (Qlt_not_le _ _ Hlt), Hc).
  unfold bind.
  destruct (step' end_years sigma w) as [[[]|e|] w1] eqn:Hstep;
    simpl; try discriminate.
  apply IH.
  destruct (step_clock _ _ _ _ Hstep) as (next & dt & _ & -> & _ & ->).
  rewrite Hzero. unfold Qdiv. rewrite Qmult_0_l, Qplus_0_r. exact Hlt.
Qed.



Local Abbreviation reachable' :=
  (reachable (A:=exact) update_function checkpoint_function integrate
             evaluate run_to_time griddata gaussian_filter).

Lemma while_loop_preserves_in_loop (P : World Q V U -> Prop)
    (end_years sigma : Q) :
  (forall w, P w -> time_years (self w) < end_years ->
             P (step' end_years sigma w).2) ->
  forall fuel w, P w -> P (while_loop' fuel end_years sigma w).2.
Proof.
  intros Hstep. induction fuel as [|fuel IH]; intros w Hw;
    rewrite while_loop_unfold; simpl;
    destruct (Qle_bool end_years (time_years (self w))) eqn:Hc; simpl;
    try assumption.
  assert (Hlt : time_years (self w) < end_years).
  { apply Qnot_le_lt. intros Hle. apply Qle_bool_iff in Hle. congruence. }
  specialize (Hstep w Hw Hlt). unfold bind.
  destruct (step' end_years sigma w) as [[[]|e|] w1]; simpl in *; auto.
Qed.

Lemma max_seconds_positive (end_years t next : Q) :
  t < end_years -> t < next ->
  0 < pymin (A:=exact) (end_years - t)%Q (next - t)%Q
      * SECONDS_PER_YEAR (A:=exact).
Proof.
  intros He Hn. pose proof ExactFacts.seconds_per_year_positive as Hp.
  apply Qmult_lt_0_compat; [|exact Hp].
  unfold pymin. simpl. destruct (Qle_bool _ _); simpl; lra.
Qed.

Lemma offered_positive_snoc l (e : Event Q) :
  offered_positive l ->
  match e with UpdateCall m _ => 0 < m | CheckpointCall _ _ => True end ->
  offered_positive (l ++ [e]).
Proof.
  intros Hl He. apply Forall_app. split; [exact Hl|].
  apply Forall_cons. split; [exact He|apply Forall_nil_2].
Qed.

Lemma step_keeps_ahead (interval end_years sigma : Q) (w : World Q V U) :
  0 < interval ->
  time_years (self w) < end_years ->
  checkpoint_interval (self w) = interval /\ ahead_of_clock w /\
    offered_positive (calls w) ->
  let w' := (step' end_years sigma w).2 in
  checkpoint_interval (self w') = interval /\ ahead_of_clock w' /\
    offered_positive (calls w').
Proof.
  intros Hi Hlt (Hint & Ha & Hc). cbv zeta.
  pose proof (step_schedule (A:=exact) update_function checkpoint_function
                integrate evaluate run_to_time griddata gaussian_filter
                end_years sigma w) as H.
  carrier. unfold ahead_of_clock in *.
  destruct (_model_started (self w)) eqn:Hs.
  2:{ destruct Ha as [Ht0 Hn]. rewrite Hn in H. rewrite H. simpl.
      rewrite Hs. repeat split; assumption. }
  destruct Ha as (next & Hn & Hnext). rewrite Hn in H. cbv zeta in H.
  pose proof (max_seconds_positive _ _ _ Hlt Hnext) as Hpos.
  unfold max_seconds_of in H. simpl in H.
  set (max_seconds := pymin (A:=exact) _ _ * _) in *.
  set (dt_seconds := (update_function (self w) max_seconds).1) in *.
  assert (Hseen : offered_positive
                    (calls w ++ [UpdateCall max_seconds dt_seconds])).
  { apply offered_positive_snoc; [exact Hc|exact Hpos]. }
  destruct (Qle_bool dt_seconds max_seconds) eqn:Hle.
  2:{ rewrite H. unfold after_update. simpl. rewrite Hs.
      split; [exact Hint|]. split; [eauto|exact Hseen]. }
  apply Qle_bool_iff in Hle.
  assert (Hmin : max_seconds / SECONDS_PER_YEAR (A:=exact)
                 <= next - time_years (self w)).
  { unfold max_seconds. rewrite Qdiv_mult_l.
    - apply ExactFacts.pymin_le_r.
    - intros H0. pose proof ExactFacts.seconds_per_year_positive as Hp.
      rewrite H0 in Hp. apply (Qlt_irrefl _ Hp). }
  pose proof ExactFacts.seconds_per_year_positive as Hspy.
  change (SECONDS_PER_YEAR (A:=exact))
    with (inject_Z (365 * 24 * 60 * 60)) in Hmin, Hspy.
  destruct (step' end_years sigma w) as [[[]|e|] w1]; simpl in H |- *.
  - destruct H as (w2 & -> & Hsch). unfold advance_clock. simpl.
    destruct (Qeq_bool dt_seconds max_seconds) eqn:Heq;
      unfold schedule in Hsch; injection Hsch as Ht Hnum Hnx Hin Hst Hcl;
      rewrite Hst, ?Hs, Hin, Hnx, Ht, Hcl.
    + apply Qeq_bool_iff in Heq.
      split; [exact Hint|]. split.
      * eexists. split; [reflexivity|]. rewrite Heq, Hint. lra.
      * apply offered_positive_snoc; [exact Hseen|exact I].
    + split; [exact Hint|]. split; [|exact Hseen].
      eexists. split; [reflexivity|].
      assert (Hne : ~ dt_seconds == max_seconds).
      { intros Heq'. apply Qeq_bool_iff in Heq'. congruence. }
      assert (Hstrict : dt_seconds < max_seconds).
      { apply Qle_lteq in Hle. destruct Hle; [assumption|contradiction]. }
      assert (Hdiv : dt_seconds / inject_Z (365 * 24 * 60 * 60)
                     < max_seconds / inject_Z (365 * 24 * 60 * 60)).
      { unfold Qdiv. apply Qmult_lt_compat_r; [|exact Hstrict].
        apply Qinv_lt_0_compat, Hspy. }
      lra.
  - unfold schedule in H. injection H as Ht Hnum Hnx Hin Hst Hcl.
    rewrite Hst, ?Hs, Hin, Hnx, Ht, Hcl.
    split; [exact Hint|]. split; [eauto|exact Hseen].
  - unfold schedule in H. injection H as Ht Hnum Hnx Hin Hst Hcl.
    rewrite Hst, ?Hs, Hin, Hnx, Ht, Hcl.
    split; [exact Hint|]. split; [eauto|exact Hseen].
Qed.

Lemma startup_keeps_ahead (interval : Q) (w : World Q V U) :
  0 < interval ->
  checkpoint_interval (self w) = interval /\ ahead_of_clock w /\
    offered_positive (calls w) ->
  let w' := (_startup' w).2 in
  checkpoint_interval (self w') = interval /\ ahead_of_clock w' /\
    offered_positive (calls w').
Proof.
  intros Hi (Hint & Ha & Hc). cbv zeta.
  pose proof (startup_schedule (A:=exact) checkpoint_function griddata w)
    as H. cbv zeta in H. carrier. unfold ahead_of_clock in *.
  destruct (_startup' w) as [[[]|e|] w1]; simpl in H |- *.
  - destruct H as [Hs H]. rewrite Hs in Ha. destruct Ha as [Ht0 _].
    unfold schedule in H. injection H as Ht Hnum Hnx Hin Hst Hcl.
    rewrite Hst, Hin, Hnx, Ht, Hcl, Ht0, Hint.
    split; [reflexivity|]. split.
    + eexists. split; [reflexivity|exact Hi].
    + apply offered_positive_snoc; [exact Hc|exact I].
  - unfold schedule in H. injection H as Ht Hnum Hnx Hin Hst Hcl.
    rewrite Hst, Hin, Hnx, Ht, Hcl. auto.
  - unfold schedule in H. injection H as Ht Hnum Hnx Hin Hst Hcl.
    rewrite Hst, Hin, Hnx, Ht, Hcl. auto.
Qed.

Lemma run_preserves (P : World Q V U -> Prop) fuel (years sigma : Q) w :
  P w ->
  (forall w0, P w0 -> P (_startup' w0).2) ->
  (forall e w0, P w0 -> time_years (self w0) < e -> P (step' e sigma w0).2) ->
  P (run_for_years' fuel years sigma w).2.
Proof.
  intros Hw Hstart Hstep. unfold run_for_years. autorewrite with py. carrier.
  destruct (_model_started (self w)).
  - autorewrite with py. apply while_loop_preserves_in_loop; auto.
  - unfold bind at 1. specialize (Hstart w Hw).
    destruct (_startup' w) as [[[]|e|] w1]; simpl in *; try exact Hstart.
    autorewrite with py. apply while_loop_preserves_in_loop; auto.
Qed.

End ExactRunFacts.
End ExactRuns.

(* ================================================================= *)
(** ** The claims on the small model *)

Module Examples.
Import Scenario.

Local Abbreviation W0 := (World Binary64.float unit unit).

(** Witness of C1: the run above, and its first iteration. *)
Lemma checkpoint_numbering_witness :
  _next_checkpoint_years (self (started [])) = Some (fl 10000) /\
  reachable update_short_first checkpoint0 integrate0 evaluate0 run_to_time0
            flat_griddata gaussian_filter0 (linkage0 []) after_short_run /\
  (let max_seconds := max_seconds_of (fl 10000) (self (started [])) (fl 10000) in
   let dt_seconds := (update_short_first (self (started [])) max_seconds).1 in
   let r := step0 update_short_first 10000 0 (started []) in
   exists fired : list (Event Binary64.float),
     calls r.2 = calls (started []) ++ UpdateCall max_seconds dt_seconds :: fired /\
     (fired = [] \/
      fired = [CheckpointCall (_checkpoint_number (self (started [])))
                              (time_years (self (started [])))]) /\
     (fired <> [] -> (dt_seconds =? max_seconds)%num = true) /\
     (r.1 = Returned tt -> (dt_seconds =? max_seconds)%num = true ->
      fired <> [])) /\
  (exists k : nat,
      _checkpoint_number (self after_short_run) = Z.of_nat k /\
      checkpoint_numbers (calls after_short_run) = Z.of_nat <$> seq 0 k) /\
  (forall e rest,
      calls after_short_run = e :: rest -> e = CheckpointCall 0 (of_int 0)).
Proof.
  assert (Hnext : _next_checkpoint_years (self (started [])) = Some (fl 10000))
    by (vm_compute; reflexivity).
  pose proof (reachable_run update_short_first checkpoint0 integrate0
                evaluate0 run_to_time0 flat_griddata gaussian_filter0
                (linkage0 []) (new []) 5 (fl 10000) (fl 0)
                (reachable_new _ _ _ _ _ _ _ _)) as Hreach.
  pose proof (checkpoint_iff_full_window_numbered_from_zero
                update_short_first checkpoint0 integrate0 evaluate0
                run_to_time0 flat_griddata gaussian_filter0
                underworld0 (badlands0 []) default_checkpoint_interval
                default_material_map false) as [Hstep Hrun].
  split; [exact Hnext|]. split; [exact Hreach|].
  split; [exact (Hstep (fl 10000) (fl 0) (started []) (fl 10000) Hnext)|].
  exact (Hrun after_short_run Hreach).
Defined.

(** Witness of C8: the first iteration of the run, in which the update
    callback returns 8e10 seconds of the 3.1536e11 it may use. *)
Lemma clock_witness :
  step0 update_short_first 10000 0 (started []) =
    (Returned tt, after_short_step) /\
  exists next w2,
    _next_checkpoint_years (self (started [])) = Some next /\
    let max_seconds := max_seconds_of (fl 10000) (self (started [])) next in
    let dt_seconds := (update_short_first (self (started [])) max_seconds).1 in
    time_years (self after_short_step) =
      (time_years (self (started [])) + dt_seconds / SECONDS_PER_YEAR)%num /\
    time_years (self w2) = time_years (self (started [])) /\
    after_short_step = advance_clock (dt_seconds / SECONDS_PER_YEAR) w2.
Proof.
  assert (Hstep : step0 update_short_first 10000 0 (started []) =
                  (Returned tt, after_short_step))
    by (vm_compute; reflexivity).
  split; [exact Hstep|].
  exact (clock_advances_by_returned_seconds
           update_short_first checkpoint0 integrate0 evaluate0 run_to_time0
           flat_griddata gaussian_filter0 (fl 10000) (fl 0)
           (started []) after_short_step Hstep).
Defined.

(** Witness of C7: the first iteration of a run whose update callback
    runs for one second more than it may. *)
Lemma overrun_witness :
  iterations update_overrun checkpoint0 integrate0 evaluate0 run_to_time0
             flat_griddata gaussian_filter0 (fl 10000) (fl 0) 0
             (started []) (started []) /\
  (time_years (self (started [])) <? fl 10000)%num = true /\
  _next_checkpoint_years (self (started [])) = Some (fl 10000) /\
  (let max_seconds := max_seconds_of (fl 10000) (self (started [])) (fl 10000) in
   let dt_seconds := (update_overrun (self (started [])) max_seconds).1 in
   (max_seconds <? dt_seconds)%num = true /\
   exists w',
     (forall fuel,
         while_loop update_overrun checkpoint0 integrate0 evaluate0
                    run_to_time0 flat_griddata gaussian_filter0
                    (0 + S fuel) (fl 10000) (fl 0) (started []) =
         (Raised (AssertionError (MsgMaximumDt max_seconds dt_seconds)), w')) /\
     time_years (self w') = time_years (self (started [])) /\
     _checkpoint_number (self w') = _checkpoint_number (self (started [])) /\
     _next_checkpoint_years (self w') =
       _next_checkpoint_years (self (started [])) /\
     _surface_tracers (self w') = _surface_tracers (self (started [])) /\
     badlands_model (self w') = badlands_model (self (started [])) /\
     _disp_inserted (self w') = _disp_inserted (self (started [])) /\
     calls w' = calls (started []) ++ [UpdateCall max_seconds dt_seconds]).
Proof.
  pose proof (iterations_O update_overrun checkpoint0 integrate0 evaluate0
                run_to_time0 flat_griddata gaussian_filter0
                (fl 10000) (fl 0) (started [])) as Hit.
  assert (Hlt : (time_years (self (started [])) <? fl 10000)%num = true)
    by (vm_compute; reflexivity).
  assert (Hnext : _next_checkpoint_years (self (started [])) = Some (fl 10000))
    by (vm_compute; reflexivity).
  assert (Hover :
    (max_seconds_of (fl 10000) (self (started [])) (fl 10000) <?
     (update_overrun (self (started []))
        (max_seconds_of (fl 10000) (self (started [])) (fl 10000))).1)%num
    = true) by (vm_compute; reflexivity).
  split; [exact Hit|]. split; [exact Hlt|]. split; [exact Hnext|].
  split; [exact Hover|].
  exact (overrun_halts_without_mutation
           update_overrun checkpoint0 integrate0 evaluate0 run_to_time0
           flat_griddata gaussian_filter0 (fl 10000) (fl 0) 0
           (started []) (started []) (fl 10000) Hit Hlt Hnext Hover).
Defined.

Lemma one_iteration :
  iterations update_full checkpoint0 integrate0 evaluate0 run_to_time0
             flat_griddata gaussian_filter0 (fl 10000) (fl 0) 1
             (started one_row) after_one_iteration.
Proof.
  eapply iterations_S; [| |apply iterations_O].
  - vm_compute. reflexivity.
  - vm_compute. reflexivity.
Qed.

(** Counterexample to C3 as stated: on that Badlands, the table has two
    rows after the first completed iteration, not one. *)
Lemma exactly_one_row_fails :
  ~ (forall N (w' : W0),
        (1 <= N)%nat ->
        iterations update_full checkpoint0 integrate0 evaluate0 run_to_time0
                   flat_griddata gaussian_filter0 (fl 10000) (fl 0) N
                   (started one_row) w' ->
        displacement_rows w' = 1%nat).
Proof.
  intros H. specialize (H 1%nat after_one_iteration (le_n 1) one_iteration).
  vm_compute in H. discriminate H.
Qed.

(** Witness of C3 as amended: the same iteration. *)
Lemma displacement_rows_witness :
  (forall b t,
      length (T_disp (force (run_to_time0 b t))) = length (T_disp (force b))) /\
  reachable update_full checkpoint0 integrate0 evaluate0 run_to_time0
            flat_griddata gaussian_filter0 (linkage0 one_row)
            (started one_row) /\
  (1 <= 1)%nat /\
  displacement_rows after_one_iteration = 2%nat.
Proof.
  assert (Hrt : forall b t,
             length (T_disp (force (run_to_time0 b t))) =
             length (T_disp (force b))) by (intros b t; reflexivity).
  pose proof (reachable_run update_full checkpoint0 integrate0
                evaluate0 run_to_time0 flat_griddata gaussian_filter0
                (linkage0 one_row) (new one_row) 0 (fl 0) (fl 0)
                (reachable_new _ _ _ _ _ _ _ _)) as Hreach.
  split; [exact Hrt|]. split; [exact Hreach|]. split; [exact (le_n 1)|].
  exact (proj1 (displacement_table_gains_one_row
                  update_full checkpoint0 integrate0 evaluate0 run_to_time0
                  flat_griddata gaussian_filter0 Hrt
                  underworld0 (badlands0 one_row) default_checkpoint_interval
                  default_material_map false (fl 10000) (fl 0) 1
                  (started one_row) after_one_iteration
                  Hreach one_iteration (le_n 1))).
Defined.

(** Witness of C5: the freshly configured model, whose three
    identifiers are 0 (air), 1 and 1 (sediment). *)
Lemma classification_witness :
  disable_material_changes (self (new [])) = false /\
  material_map (self (new [])) !! 0%nat = Some [0] /\
  material_map (self (new [])) !! 1%nat = Some [1] /\
  length (particleCoordinates (uw (self (new [])))) =
    length (material_index (uw (self (new [])))) /\
  exists (flags : list bool) (d : list Z),
    _determine_particle_state flat_griddata (new []) =
      (Returned flags, new []) /\
    (forall i x y z,
        particleCoordinates (uw (self (new []))) !! i = Some (x, y, z) ->
        flags !! i =
        Some (z <? flat_griddata
                     (tinMesh_vertices (recGrid (badlands_model (self (new [])))))
                     (elevation (badlands_model (self (new [])))) (x, y))%num) /\
    _update_material_types flat_griddata (new []) =
      (Returned tt, with_material_index d (new [])) /\
    length d = length (material_index (uw (self (new [])))) /\
    forall i m flag,
      material_index (uw (self (new []))) !! i = Some m ->
      flags !! i = Some flag ->
      (m ∈ [0] -> flag = true -> d !! i = Some 1) /\
      (m ∈ [1] -> flag = false -> d !! i = Some 0) /\
      (~ (m ∈ [0] /\ flag = true) -> ~ (m ∈ [1] /\ flag = false) ->
       d !! i = Some m).
Proof.
  repeat (split; [reflexivity|]).
  exact (classification_writes_on_transitions_only
           flat_griddata (new []) [0] [1] 0 1
           eq_refl eq_refl eq_refl eq_refl eq_refl eq_refl).
Defined.

(** Witness of C6: reclassifying the freshly configured model, twice. *)
Lemma idempotence_witness :
  _update_material_types flat_griddata (new []) =
    (Returned tt, reclassified_once) /\
  material_index (uw (self reclassified_once)) = [1; 0; 0] /\
  _update_material_types flat_griddata reclassified_once =
    (Returned tt, reclassified_once).
Proof.
  assert (H : _update_material_types flat_griddata (new []) =
              (Returned tt, reclassified_once))
    by (vm_compute; reflexivity).
  split; [exact H|]. split; [vm_compute; reflexivity|].
  exact (reclassification_idempotent flat_griddata (new [])
           reclassified_once H).
Defined.

(** Witness of C9: the hand-over of the first iteration of a run with
    [sigma = 0], over the 8e10 seconds the update callback ran for. *)
Lemma unsmoothed_witness :
  (fl 0 =? of_int 0)%num = true /\
  uw_to_bl integrate0 evaluate0 gaussian_filter0
           (fl 80000000000) (fl 80000000000 / SECONDS_PER_YEAR)%num (fl 0)
           (started []) = (Returned tt, handed_over) /\
  exists tracers,
    _surface_tracers (self (started [])) = Some tracers /\
    injected_disps (force (badlands_model (self handed_over))) =
    Some (tracer_disp_of integrate0 evaluate0
            (fl 80000000000) (fl 80000000000 / SECONDS_PER_YEAR)%num
            (self (started [])) tracers) /\
    couple integrate0 evaluate0 run_to_time0 flat_griddata gaussian_filter0
           (fl 80000000000) (fl 80000000000 / SECONDS_PER_YEAR)%num (fl 0)
           (started []) =
    bl_to_uw run_to_time0 flat_griddata
             (fl 80000000000 / SECONDS_PER_YEAR)%num handed_over.
Proof.
  assert (Hs : (fl 0 =? of_int 0)%num = true) by (vm_compute; reflexivity).
  assert (H : uw_to_bl integrate0 evaluate0 gaussian_filter0
                (fl 80000000000) (fl 80000000000 / SECONDS_PER_YEAR)%num
                (fl 0) (started []) = (Returned tt, handed_over))
    by (vm_compute; reflexivity).
  split; [exact Hs|]. split; [exact H|].
  exact (proj1 (sigma_zero_injects_unsmoothed_displacement
                  update_short_first checkpoint0 integrate0 evaluate0
                  run_to_time0 flat_griddata gaussian_filter0)
               (fl 80000000000) (fl 80000000000 / SECONDS_PER_YEAR)%num
               (fl 0) (started []) handed_over Hs H).
Defined.


(** C2 (the code departs from it).  The claim, like the docstring of
    [LinkageModel] ("time_years: current time of the model (in years) -
    note that this happens AFTER advection"), has the checkpoint
    callback receive the time reached by the iteration.  The loop calls
    it before [self.time_years += dt_years]: in a run for 10000 years
    whose one iteration uses the whole interval, checkpoint 1 is handed
    time 0.0 while the iteration ends, and Badlands has been run, at
    time 10000.0. *)
Theorem checkpoint_callback_is_handed_the_old_time :
  let r := run_for_years0 update_full 5 10000 0 (new []) in
  r.1 = Returned tt /\
  calls r.2 =
    [CheckpointCall 0 (fl 0);
     UpdateCall (fl 315360000000) (fl 315360000000);
     CheckpointCall 1 (fl 0)] /\
  time_years (self r.2) = fl 10000 /\
  (fl 0 =? fl 10000)%num = false.
Proof. vm_compute. repeat split. Qed.

(** C4 (the code departs from it).  The loop computes its request from
    the distance to the next checkpoint so as never to step past it,
    but in doubles the round trip years -> seconds -> years is not
    exact (the source's own TODO: "make sure floating point
    imperfections don't desync the seconds/years counters on both
    sides, especially around writing checkpoints").  In a run for 10000
    years whose update callback first runs for 8e10 seconds and then
    for all it is given, the second iteration starts at
    2536.783358701167 with the checkpoint at 10000 pending, is granted
    235360000000.00003 seconds, passes the assertion, and ends at
    10000.000000000002: [time_years + dt_years <= _next_checkpoint_years]
    is false. *)
Theorem rounding_steps_past_the_pending_checkpoint :
  step0 update_short_first 10000 0 (started []) =
    (Returned tt, after_short_step) /\
  step0 update_short_first 10000 0 after_short_step =
    (Returned tt, after_full_step) /\
  time_years (self after_short_step) =
    S754_finite false 5578445600081177 (-41) /\
  _next_checkpoint_years (self after_short_step) =
    Some (S754_finite false 5497558138880000 (-39)) /\
  fl 10000 = S754_finite false 5497558138880000 (-39) /\
  time_years (self after_full_step) =
    S754_finite false 5497558138880001 (-39) /\
  (time_years (self after_full_step) <=? fl 10000)%num = false /\
  (fl 10000 <? time_years (self after_full_step))%num = true.
Proof. vm_compute. repeat split. Qed.
End Examples.

(* ================================================================= *)
(** ** The further properties on the small model *)

Module MoreExamples.
Import Scenario MoreScenario.

Local Abbreviation W0 := (World Binary64.float unit unit).
Local Abbreviation startup0 := (_startup checkpoint0 flat_griddata).

Lemma startup_of_new : startup0 (new []) = (Returned tt, started []).
Proof. vm_compute. reflexivity. Qed.

(** Witness of X1: the start-up of the new model. *)
Lemma startup_once_witness :
  startup0 (new []) = (Returned tt, started []) /\
  _model_started (self (new [])) = false /\
  _model_started (self (started [])) = true /\
  startup0 (started []) = (Raised (AssertionError MsgNone), started []).
Proof.
  split; [exact startup_of_new|].
  exact (startup_runs_once_only checkpoint0 flat_griddata (new [])
           (started []) startup_of_new).
Defined.

(** Witness of X2: the 10 m grid under a mesh that is 20 m wide. *)
Lemma startup_validation_witness :
  _model_started (self off_domain) = false /\
  extent_eqb (fl 0, fl 10, fl 0, fl 10) (fl 0, fl 20, fl 0, fl 10) = false /\
  startup0 off_domain =
  (Raised (AssertionError
             (MsgDomain (fl 0, fl 10, fl 0, fl 10)
                        (fl 0, fl 20, fl 0, fl 10))),
   off_domain).
Proof.
  assert (Hs : _model_started (self off_domain) = false) by reflexivity.
  assert (Hne : extent_eqb (fl 0, fl 10, fl 0, fl 10)
                           (fl 0, fl 20, fl 0, fl 10) = false)
    by (vm_compute; reflexivity).
  split; [exact Hs|]. split; [exact Hne|].
  pose proof (startup_validates_before_mutating checkpoint0 flat_griddata
                off_domain Hs) as [_ H].
  exact (H (fl 0) (fl 10) (fl 0) (fl 10)
           ltac:(vm_compute; reflexivity) ltac:(vm_compute; reflexivity)
           ltac:(vm_compute; reflexivity) ltac:(vm_compute; reflexivity)
           Hne).
Defined.

(** Witness of X3: the start-up of the new model. *)
Lemma startup_synchronised_witness :
  startup0 (new []) = (Returned tt, started []) /\
  let b := badlands_model (self (new [])) in
  let b' := badlands_model (self (started [])) in
  input b' = {| disp3d := true; region := 0;
                tDisplay := checkpoint_interval (self (new []));
                Afactor := Afactor (input b) |} /\
  recGrid b' = recGrid b /\
  elevation b' = elevation b /\
  force b' = set_next_display (of_int 0) (force b) /\
  np_mesh (self (started [])) = Some (mesh (uw (self (new [])))) /\
  _disp_inserted (self (started [])) = _disp_inserted (self (new [])) /\
  exists tracers,
    _surface_tracers (self (started [])) = Some tracers /\
    length tracers = length (rectX (recGrid b)) /\
    length tracers = length (rectY (recGrid b)) /\
    length tracers = length (rectZ (recGrid b)) /\
    forall i x y z,
      rectX (recGrid b) !! i = Some x ->
      rectY (recGrid b) !! i = Some y ->
      rectZ (recGrid b) !! i = Some z ->
      tracers !! i = Some (x, y, z).
Proof.
  split; [exact startup_of_new|].
  exact (startup_synchronises_badlands checkpoint0 flat_griddata (new [])
           (started []) startup_of_new).
Defined.


(** Witness of X5: a run for 0 years of the started model. *)
Lemma nothing_to_cover_witness :
  (time_years (self (started [])) <? time_years (self (started [])) + fl 0)%num
    = false /\
  run_for_years0 update_full 7 0 0 (started []) =
  if _model_started (self (started [])) then (Returned tt, started [])
  else startup0 (started []).
Proof.
  assert (H : (time_years (self (started []))
               <? time_years (self (started [])) + fl 0)%num = false)
    by (vm_compute; reflexivity).
  split; [exact H|].
  exact (run_with_nothing_to_cover update_full checkpoint0 integrate0
           evaluate0 run_to_time0 flat_griddata gaussian_filter0
           7 (fl 0) (fl 0) (started []) H).
Defined.

(** Witness of X6: an iteration on the emptied table, which fails in
    the injection. *)
Lemma failed_iteration_witness :
  _next_checkpoint_years (self emptied) = Some (fl 10000) /\
  (step0 update_full 10000 0 emptied).1 = Raised IndexError /\
  let max_seconds := max_seconds_of (fl 10000) (self emptied) (fl 10000) in
  let dt_seconds := (update_full (self emptied) max_seconds).1 in
  let w' := (step0 update_full 10000 0 emptied).2 in
  time_years (self w') = time_years (self emptied) /\
  _checkpoint_number (self w') = _checkpoint_number (self emptied) /\
  _next_checkpoint_years (self w') = Some (fl 10000) /\
  calls w' = calls emptied ++ [UpdateCall max_seconds dt_seconds].
Proof.
  assert (Hn : _next_checkpoint_years (self emptied) = Some (fl 10000))
    by (vm_compute; reflexivity).
  assert (He : (step0 update_full 10000 0 emptied).1 = Raised IndexError)
    by (vm_compute; reflexivity).
  split; [exact Hn|]. split; [exact He|].
  exact (failed_iteration_keeps_clock update_full checkpoint0 integrate0
           evaluate0 run_to_time0 flat_griddata gaussian_filter0
           (fl 10000) (fl 0) emptied (fl 10000) IndexError Hn He).
Defined.

Local Abbreviation couple0 dt_seconds w :=
  (couple integrate0 evaluate0 run_to_time0 flat_griddata gaussian_filter0
          (fl dt_seconds) (ndiv (Arith:=binary64) (fl dt_seconds) SECONDS_PER_YEAR) (fl 0) w).

(** Witness of X8: a coupling of 8e10 seconds with material changes
    disabled. *)
Lemma coupling_frame_witness :
  disable_material_changes (self disabled) = true /\
  let w' := (couple0 80000000000 disabled).2 in
  underworld_frame w' = underworld_frame disabled /\
  uw (self w') = uw (self disabled).
Proof.
  assert (Hd : disable_material_changes (self disabled) = true)
    by (vm_compute; reflexivity).
  split; [exact Hd|].
  destruct (coupling_only_rewrites_material_index (A:=binary64) integrate0 evaluate0
              run_to_time0 flat_griddata gaussian_filter0
              (fl 80000000000) (ndiv (Arith:=binary64) (fl 80000000000) SECONDS_PER_YEAR)
              (fl 0) disabled) as [Hf Hu].
  split; [exact Hf|exact (Hu Hd)].
Defined.


(** Witness of X10: the coupling of an iteration of 8e10 seconds. *)
Lemma coupling_interval_witness :
  couple0 80000000000 (started []) = (Returned tt, coupled) /\
  exists w1,
    uw_to_bl integrate0 evaluate0 gaussian_filter0
             (fl 80000000000) (ndiv (Arith:=binary64) (fl 80000000000) SECONDS_PER_YEAR) (fl 0)
             (started []) = (Returned tt, w1) /\
    head (T_disp (force (badlands_model (self w1))))
      = Some (time_years (self (started [])),
              nadd (Arith:=binary64) (time_years (self (started [])))
                   (ndiv (Arith:=binary64) (fl 80000000000) SECONDS_PER_YEAR)) /\
    _disp_inserted (self w1) = true /\
    badlands_model (self coupled) =
      run_to_time0 (badlands_model (self w1))
                   (nadd (Arith:=binary64) (time_years (self (started [])))
                         (ndiv (Arith:=binary64) (fl 80000000000)
                               SECONDS_PER_YEAR)).
Proof.
  assert (H : couple0 80000000000 (started []) = (Returned tt, coupled))
    by (vm_compute; reflexivity).
  split; [exact H|].
  exact (coupling_runs_badlands_to_the_end_of_the_interval (A:=binary64)
           integrate0
           evaluate0 run_to_time0 flat_griddata gaussian_filter0
           (fl 80000000000) (ndiv (Arith:=binary64) (fl 80000000000) SECONDS_PER_YEAR) (fl 0)
           (started []) coupled H).
Defined.

(** Witness of X11: an injection into the emptied table. *)
Lemma emptied_table_witness :
  _disp_inserted (self emptied) = true /\
  T_disp (force (badlands_model (self emptied))) = [] /\
  _inject_badlands_displacement (fl 0) (fl 1) disp0 emptied
    = (Raised IndexError, with_merge emptied) /\
  _inject_badlands_displacement_smooth gaussian_filter0 (fl 0) (fl 1) disp0
    (fl 2) emptied = (Raised IndexError, with_merge emptied) /\
  injected_disps (force (badlands_model (self (with_merge emptied)))) =
  injected_disps (force (badlands_model (self emptied))).
Proof.
  assert (Hi : _disp_inserted (self emptied) = true) by reflexivity.
  assert (Ht : T_disp (force (badlands_model (self emptied))) = [])
    by (vm_compute; reflexivity).
  split; [exact Hi|]. split; [exact Ht|].
  exact (injection_into_emptied_table gaussian_filter0 (fl 0) (fl 1) disp0
           (fl 2) emptied Hi Ht).
Defined.

(** Witness of X12: three displacements for the grid of four nodes. *)
Lemma wrong_size_witness :
  (_disp_inserted (self (started [])) = false \/
   T_disp (force (badlands_model (self (started [])))) <> []) /\
  length (tail disp0) <>
    (rnx (recGrid (badlands_model (self (started []))))
     * rny (recGrid (badlands_model (self (started [])))))%nat /\
  exists w',
    _inject_badlands_displacement_smooth gaussian_filter0 (fl 0) (fl 1)
      (tail disp0) (fl 2) (started []) = (Raised ValueError, w') /\
    head (T_disp (force (badlands_model (self w'))))
      = Some (fl 0, (fl 0 + fl 1)%num) /\
    _disp_inserted (self w') = true /\
    injected_disps (force (badlands_model (self w'))) =
    injected_disps (force (badlands_model (self (started [])))).
Proof.
  assert (Hok : _disp_inserted (self (started [])) = false \/
                T_disp (force (badlands_model (self (started [])))) <> [])
    by (left; vm_compute; reflexivity).
  assert (Hlen : length (tail disp0) <>
                 (rnx (recGrid (badlands_model (self (started []))))
                  * rny (recGrid (badlands_model (self (started [])))))%nat)
    by (vm_compute; discriminate).
  split; [exact Hok|]. split; [exact Hlen|].
  exact (smoothing_rejects_the_wrong_number_of_displacements gaussian_filter0
           (fl 0) (fl 1) (tail disp0) (fl 2) (started []) Hok Hlen).
Defined.

(** Witness of X13: the filter of the small model gives back its
    grids. *)
Lemma identity_filter_witness :
  (forall g, gaussian_filter0 g (fl 2) = g) /\
  length disp0 =
    (rnx (recGrid (badlands_model (self (started []))))
     * rny (recGrid (badlands_model (self (started [])))))%nat /\
  _inject_badlands_displacement_smooth gaussian_filter0 (fl 0) (fl 1) disp0
    (fl 2) (started []) =
  _inject_badlands_displacement (fl 0) (fl 1) disp0 (started []).
Proof.
  assert (Hid : forall g, gaussian_filter0 g (fl 2) = g)
    by (intros g; reflexivity).
  assert (Hlen : length disp0 =
                 (rnx (recGrid (badlands_model (self (started []))))
                  * rny (recGrid (badlands_model (self (started [])))))%nat)
    by (vm_compute; reflexivity).
  split; [exact Hid|]. split; [exact Hlen|].
  exact (smoothing_with_an_identity_filter_is_plain_injection
           gaussian_filter0 (fl 0) (fl 1) disp0 (fl 2) (started []) Hid Hlen).
Defined.

(** Witness of X14: the material map with the air row only. *)
Lemma short_map_witness :
  disable_material_changes (self short_map) = false /\
  (length (material_map (self short_map)) < 2)%nat /\
  material_index (uw (self short_map)) <> [] /\
  _update_material_types flat_griddata short_map
    = (Raised IndexError, short_map).
Proof.
  assert (Hd : disable_material_changes (self short_map) = false)
    by reflexivity.
  assert (Hl : (length (material_map (self short_map)) < 2)%nat)
    by (vm_compute; lia).
  assert (Hn : material_index (uw (self short_map)) <> [])
    by (vm_compute; discriminate).
  split; [exact Hd|]. split; [exact Hl|]. split; [exact Hn|].
  exact (material_map_needs_two_rows flat_griddata short_map Hd Hl Hn).
Defined.

Lemma linspace0_length start stop n : length (linspace0 start stop n) = n.
Proof.
  destruct n as [|[|n]]; [reflexivity|reflexivity|].
  unfold linspace0. cbv zeta.
  rewrite length_app, length_map, length_seq. simpl. lia.
Qed.

(** Witness of X15: a DEM of 2 by 3 points over the mesh of the small
    model. *)
Lemma flat_dem_witness :
  (0 <= 2)%Z /\ (0 <= 3)%Z /\
  let ys := linspace0 (minCoord mesh0).1.1 (maxCoord mesh0).1.1 (Z.to_nat 2) in
  let xs := linspace0 (minCoord mesh0).1.2 (maxCoord mesh0).1.2 (Z.to_nat 3) in
  exists dem,
    generate_flat_dem linspace0 (minCoord mesh0) (maxCoord mesh0) (2, 3)
                      (fl 0) = Returned dem /\
    length dem = (Z.to_nat 2 * Z.to_nat 3)%nat /\
    (forall i j x y,
        ys !! i = Some y -> xs !! j = Some x ->
        dem !! (i * Z.to_nat 3 + j)%nat = Some (x, y, fl 0)) /\
    Forall (fun p : vec3 => p.2 = fl 0) dem.
Proof.
  assert (H2 : (0 <= 2)%Z) by lia. assert (H3 : (0 <= 3)%Z) by lia.
  split; [exact H2|]. split; [exact H3|].
  exact (flat_dem_layout linspace0 linspace0_length (minCoord mesh0)
           (maxCoord mesh0) 2 3 (fl 0) H2 H3).
Defined.

(** Witness of X16: resolutions of that DEM. *)
Lemma flat_dem_errors_witness :
  generate_flat_dem linspace0 (minCoord mesh0) (maxCoord mesh0) (-1, 3)
                    (fl 0) = Raised ValueError /\
  generate_flat_dem linspace0 (minCoord mesh0) (maxCoord mesh0) (0, -3)
                    (fl 0) = Returned [] /\
  generate_flat_dem linspace0 (minCoord mesh0) (maxCoord mesh0) (2, -3)
                    (fl 0) = Raised ValueError.
Proof.
  split; [|split].
  - exact (proj1 (flat_dem_resolution_errors linspace0 linspace0_length
                    (minCoord mesh0) (maxCoord mesh0) (-1) 3 (fl 0))
                 ltac:(lia)).
  - exact (proj1 (proj2 (flat_dem_resolution_errors linspace0
                           linspace0_length (minCoord mesh0) (maxCoord mesh0)
                           0 (-3) (fl 0))) eq_refl).
  - exact (proj2 (proj2 (flat_dem_resolution_errors linspace0
                           linspace0_length (minCoord mesh0) (maxCoord mesh0)
                           2 (-3) (fl 0))) ltac:(lia) ltac:(lia)).
Defined.
End MoreExamples.

Module ExactExamples.
Import ScenarioQ QArith.
Local Open Scope Q_scope.




End ExactExamples.
